(** * gui-no-kit: managed-process lifecycle and output capture

    A shallow embedding of [src/gui_no_kit/logs.py] (class [LogCapture]) and
    [src/gui_no_kit/server.py] (class [XpraServer]), together with a small
    executable model of the operating-system services these classes call
    (child processes and signals, reader threads, the X11 socket directory,
    TCP connects, the clock).

    Python objects become records, methods become state-passing functions in
    a state-and-exception monad, and the two reader threads of [LogCapture]
    become a step relation that may interleave with the foreground methods. *)

From Stdlib Require Import Ascii.
From stdpp Require Import gmap strings list pretty.

Open Scope string_scope.
Open Scope list_scope.
Open Scope Z_scope.

(** ** Python built-ins used by the sources *)

Module Py.

(** [str(n)] for an [int]. *)
Definition str (n : Z) : string := pretty n.

(** The characters of ["\n\r"]. *)
Definition LF : ascii := "010"%char.
Definition CR : ascii := "013"%char.
Definition newline : string := String LF "".
Definition LF_CR : string := String LF (String CR "").

(** [c in chars]. *)
Fixpoint mem (c : ascii) (chars : string) : bool :=
  match chars with
  | "" => false
  | String d rest => if decide (c = d) then true else mem c rest
  end.

(** [s.rstrip(chars)]: drop the longest suffix made of characters of
    [chars]. *)
Fixpoint rstrip (chars : string) (s : string) : string :=
  match s with
  | "" => ""
  | String c rest =>
      match rstrip chars rest with
      | "" => if mem c chars then "" else String c ""
      | kept => String c kept
      end
  end.

(** Every character of [s] is one of [chars]. *)
Fixpoint all_in (chars : string) (s : string) : bool :=
  match s with
  | "" => true
  | String c rest => mem c chars && all_in chars rest
  end.

(** [sep.join(l)]. *)
Fixpoint join (sep : string) (l : list string) : string :=
  match l with
  | [] => ""
  | x :: rest =>
      match rest with
      | [] => x
      | _ :: _ => x +:+ sep +:+ join sep rest
      end
  end.

(** [s.startswith(p)]. *)
Definition startswith (s p : string) : bool := String.prefix p s.

(** [s[1:]]. *)
Definition tail (s : string) : string :=
  match s with
  | "" => ""
  | String _ rest => rest
  end.

(** The last character of a string, if any. *)
Fixpoint last_char (s : string) : option ascii :=
  match s with
  | "" => None
  | String c rest =>
      match last_char rest with
      | None => Some c
      | Some d => Some d
      end
  end.

(** [p in s] for strings. *)
Definition contains (s p : string) : Prop :=
  ∃ before after, s = before +:+ p +:+ after.


(** *** [int(s)] on an ASCII string

    CPython accepts optional surrounding whitespace, an optional sign, and
    decimal digits that may be separated by single underscores; everything
    else raises [ValueError] (here [None]).  In an ASCII string the
    whitespace is that of C's [isspace]: tab, line feed, vertical tab, form
    feed, carriage return and space.  Strings with other than ASCII
    characters (where [int] also takes other digits and spaces) and strings
    of more digits than [sys.int_max_str_digits] (4300 by default, where
    [int] raises [ValueError]) are outside this model. *)

Definition is_space (c : ascii) : bool :=
  let n := nat_of_ascii c in
  ((9 <=? n)%nat && (n <=? 13)%nat) || (n =? 32)%nat.

Definition digit_of (c : ascii) : option Z :=
  let n := nat_of_ascii c in
  if ((48 <=? n)%nat && (n <=? 57)%nat) then Some (Z.of_nat n - 48) else None.

Fixpoint lstrip_space (s : string) : string :=
  match s with
  | String c rest => if is_space c then lstrip_space rest else s
  | "" => ""
  end.

Fixpoint all_space (s : string) : bool :=
  match s with
  | "" => true
  | String c rest => is_space c && all_space rest
  end.

(** Digits after the first one: [acc] is the value read so far and
    [after_underscore] tells that the previous character was ['_'], in
    which case a digit must follow. *)
Fixpoint int_digits (acc : Z) (after_underscore : bool) (s : string)
  : option Z :=
  match s with
  | "" => if after_underscore then None else Some acc
  | String c rest =>
      match digit_of c with
      | Some d => int_digits (10 * acc + d) false rest
      | None =>
          if decide (c = "_"%char) then
            if after_underscore then None else int_digits acc true rest
          else if after_underscore then None
          else if all_space s then Some acc else None
      end
  end.

Definition int_unsigned (s : string) : option Z :=
  match s with
  | String c rest =>
      match digit_of c with
      | Some d => int_digits d false rest
      | None => None
      end
  | "" => None
  end.

Definition int (s : string) : option Z :=
  match lstrip_space s with
  | String "+" rest => int_unsigned rest
  | String "-" rest => Z.opp <$> int_unsigned rest
  | t => int_unsigned t
  end.

(** [os.path.join(a, b)] for two components. *)
Definition path_join (a b : string) : string :=
  if startswith b "/" then b
  else match last_char a with
       | None => b
       | Some c => if decide (c = "/"%char) then a +:+ b else a +:+ "/" +:+ b
       end.

End Py.

(** ** Exceptions and the state-and-exception monad *)

(** The exceptions the two classes raise or let through. *)
Inductive exn :=
| RuntimeError (msg : string)
| ValueError (msg : string)
| OSError (msg : string)
| TimeoutExpired.

(** What a call does: return a value, raise, or block for ever. *)
Inductive outcome (A : Type) :=
| Ok (a : A)
| Raise (e : exn)
| Hang.
Arguments Ok {A} a.
Arguments Raise {A} e.
Arguments Hang {A}.

(** A Python exception leaves the mutations made before it in place, so the
    state is returned with every outcome. *)
Definition M (S A : Type) : Type := S → outcome A * S.

Global Instance M_ret {S} : MRet (M S) := λ A a s, (Ok a, s).

Global Instance M_bind {S} : MBind (M S) :=
  λ A B k m s, match m s with
               | (Ok a, s') => k a s'
               | (Raise e, s') => (Raise e, s')
               | (Hang, s') => (Hang, s')
               end.

Definition raise {S A} (e : exn) : M S A := λ s, (Raise e, s).
Definition hang {S A} : M S A := λ s, (Hang, s).
Definition get {S} : M S S := λ s, (Ok s, s).
Definition gets {S A} (f : S → A) : M S A := λ s, (Ok (f s), s).
Definition modify {S} (f : S → S) : M S unit := λ s, (Ok tt, f s).

(** [try: body  except subprocess.TimeoutExpired: handler]. *)
Definition try_except_timeout {S A} (body handler : M S A) : M S A :=
  λ s, match body s with
       | (Raise TimeoutExpired, s') => handler s'
       | r => r
       end.

(** [try: body  except OSError: handler]. *)
Definition try_except_oserror {S A} (body handler : M S A) : M S A :=
  λ s, match body s with
       | (Raise (OSError _), s') => handler s'
       | r => r
       end.

(** ** The operating system as the two classes see it

    Times are integers in milliseconds.  A child process is described by how
    long it would run by itself and by how it reacts to SIGTERM; SIGKILL
    cannot be ignored. *)

Inductive proc_status :=
| Alive (lifetime : option Z) (on_term : option Z)
    (** running; exits by itself after [lifetime] (never if [None]); once
        SIGTERM arrives it exits after [on_term], or ignores the signal if
        [None] *)
| Dying (remaining : Z)
    (** SIGTERM was delivered; the process exits after [remaining] *)
| Exited (returncode : Z).

(** A [subprocess.Popen] object: the child's pid and its two pipe objects
    ([None] unless the stream was opened with [PIPE]); a pipe is given by
    the lines [readline] will hand out before end of file. *)
Record Popen := {
  pid : nat;
  stdout : option (list string);
  stderr : option (list string);
}.

(** A reader thread running [LogCapture._read_stream(stream, prefix)]. *)
Record reader := {
  rd_stream : list string;
  rd_prefix : string;
  rd_finished : bool;
}.

Inductive fs_node :=
| Dir (entries : list string)
| File.

(** What [Popen(args)] starts for a given command line. *)
Record program := {
  prog_status : proc_status;
  prog_stdout : list string;
  prog_stderr : list string;
}.

Inductive connect_result :=
| Connected
| Refused
| ConnectTimeout
| ConnectError (msg : string).

(** The externally visible actions, in the order they are performed. *)
Inductive event :=
| EvSpawn (p : nat) (args : list string) (env : option (gmap string string))
| EvTerminate (p : nat)
| EvKill (p : nat)
| EvWait (p : nat) (timeout : option Z)
| EvThreadStart (tid : nat)
| EvJoin (tid : nat) (timeout : Z)
| EvSleep (ms : Z)
| EvConnect (h : string) (p : Z)
| EvWarn (msg : string).

Record World := {
  w_clock : Z;
  w_procs : gmap nat proc_status;
  w_next_pid : nat;
  w_threads : list reader;
  w_fs : gmap string fs_node;
  w_programs : list string → option program;
  w_connect : string → Z → Z → connect_result;
  w_free_port : Z;
  w_platform : string;
  w_tmpdir : string;
  w_environ : gmap string string;
  w_trace : list event;
}.

Definition with_time (c : Z) (ps : gmap nat proc_status) (w : World) : World :=
  {| w_clock := c; w_procs := ps; w_next_pid := w_next_pid w;
     w_threads := w_threads w; w_fs := w_fs w; w_programs := w_programs w;
     w_connect := w_connect w; w_free_port := w_free_port w;
     w_platform := w_platform w;
     w_tmpdir := w_tmpdir w; w_environ := w_environ w;
     w_trace := w_trace w |}.

Definition with_procs (ps : gmap nat proc_status) (w : World) : World :=
  with_time (w_clock w) ps w.

Definition with_next_pid (n : nat) (w : World) : World :=
  {| w_clock := w_clock w; w_procs := w_procs w; w_next_pid := n;
     w_threads := w_threads w; w_fs := w_fs w; w_programs := w_programs w;
     w_connect := w_connect w; w_free_port := w_free_port w;
     w_platform := w_platform w;
     w_tmpdir := w_tmpdir w; w_environ := w_environ w;
     w_trace := w_trace w |}.

Definition with_threads (ts : list reader) (w : World) : World :=
  {| w_clock := w_clock w; w_procs := w_procs w; w_next_pid := w_next_pid w;
     w_threads := ts; w_fs := w_fs w; w_programs := w_programs w;
     w_connect := w_connect w; w_free_port := w_free_port w;
     w_platform := w_platform w;
     w_tmpdir := w_tmpdir w; w_environ := w_environ w;
     w_trace := w_trace w |}.

Definition with_trace (t : list event) (w : World) : World :=
  {| w_clock := w_clock w; w_procs := w_procs w; w_next_pid := w_next_pid w;
     w_threads := w_threads w; w_fs := w_fs w; w_programs := w_programs w;
     w_connect := w_connect w; w_free_port := w_free_port w;
     w_platform := w_platform w;
     w_tmpdir := w_tmpdir w; w_environ := w_environ w;
     w_trace := t |}.

Definition emit (e : event) (w : World) : World :=
  with_trace (w_trace w ++ [e]) w.

(** The status of a child; a pid that is no longer in the table stands for a
    child that was already reaped. *)
Definition status_of (w : World) (p : nat) : proc_status :=
  default (Exited 0) (w_procs w !! p).

(** How a process changes while [t] milliseconds pass. *)
Definition age (t : Z) (st : proc_status) : proc_status :=
  match st with
  | Alive (Some l) d => if decide (l ≤ t) then Exited 0 else Alive (Some (l - t)) d
  | Alive None d => Alive None d
  | Dying r => if decide (r ≤ t) then Exited (-15) else Dying (r - t)
  | Exited rc => Exited rc
  end.

Definition advance (t : Z) (w : World) : World :=
  with_time (w_clock w + Z.max 0 t) (age (Z.max 0 t) <$> w_procs w) w.

(** Time left until the process exits, if it ever does. *)
Definition time_to_exit (st : proc_status) : option Z :=
  match st with
  | Alive l _ => l
  | Dying r => Some r
  | Exited _ => Some 0
  end.

Definition on_sigterm (st : proc_status) : proc_status :=
  match st with
  | Alive l (Some d) => Dying (match l with Some l => Z.min l d | None => d end)
  | other => other
  end.

Definition on_sigkill (st : proc_status) : proc_status :=
  match st with
  | Exited rc => Exited rc
  | _ => Exited (-9)
  end.

Definition signal (f : proc_status → proc_status) (p : nat) (w : World) : World :=
  with_procs (alter f p (w_procs w)) w.

(** [Popen.poll()]. *)
Definition poll (w : World) (h : Popen) : option Z :=
  match status_of w (pid h) with
  | Exited rc => Some rc
  | _ => None
  end.

(** Whether [wait(timeout=t)] issued now would raise [TimeoutExpired]. *)
Definition wait_expires (w : World) (p : nat) (t : Z) : bool :=
  match status_of w p with
  | Exited _ => false
  | st => match time_to_exit st with
          | Some r => bool_decide (t < r)
          | None => true
          end
  end.

Section os_calls.

(** [time.sleep(ms / 1000)]. *)
Definition sleep (ms : Z) : M World unit :=
  λ w, (Ok tt, advance ms (emit (EvSleep ms) w)).

(** [subprocess.Popen(args, stdout=..., stderr=..., env=...)]; [pipes]
    tells whether both streams are [PIPE].  The arguments are taken to be
    free of NUL characters (with one, [Popen] raises [ValueError]), and the
    one failure is that of a program that cannot be started. *)
Definition Popen_new (args : list string) (pipes : bool)
    (env : option (gmap string string)) : M World Popen :=
  λ w, match w_programs w args with
       | None => (Raise (OSError "No such file or directory"), w)
       | Some prog =>
           let p := w_next_pid w in
           (Ok {| pid := p;
                  stdout := if pipes then Some (prog_stdout prog) else None;
                  stderr := if pipes then Some (prog_stderr prog) else None |},
            emit (EvSpawn p args env)
              (with_next_pid (S p)
                 (with_procs (<[p := prog_status prog]> (w_procs w)) w)))
       end.

(** [Popen.terminate()]. *)
Definition terminate (h : Popen) : M World unit :=
  λ w, (Ok tt, signal on_sigterm (pid h) (emit (EvTerminate (pid h)) w)).

(** [Popen.kill()]. *)
Definition kill (h : Popen) : M World unit :=
  λ w, (Ok tt, signal on_sigkill (pid h) (emit (EvKill (pid h)) w)).

(** [Popen.wait(timeout=t)], [t] in seconds. *)
Definition wait_timeout (h : Popen) (t : Z) : M World unit :=
  λ w, let w1 := emit (EvWait (pid h) (Some t)) w in
       if wait_expires w1 (pid h) (1000 * t)
       then (Raise TimeoutExpired, advance (1000 * t) w1)
       else (Ok tt, advance (default 0 (time_to_exit (status_of w1 (pid h)))) w1).

(** [Popen.wait()]: blocks until the child has exited. *)
Definition wait (h : Popen) : M World unit :=
  λ w, let w1 := emit (EvWait (pid h) None) w in
       match time_to_exit (status_of w1 (pid h)) with
       | Some r => (Ok tt, advance r w1)
       | None => (Hang, w1)
       end.

(** [threading.Thread(target=self._read_stream, args=(stream, prefix),
    daemon=True)] followed by [start()]; the thread id is its index in the
    thread table. *)
Definition Thread_start (stream : list string) (prefix : string) : M World nat :=
  λ w, let tid := length (w_threads w) in
       (Ok tid,
        emit (EvThreadStart tid)
          (with_threads
             (w_threads w ++
              [{| rd_stream := stream; rd_prefix := prefix;
                  rd_finished := false |}]) w)).

Definition thread_finished (w : World) (tid : nat) : bool :=
  match w_threads w !! tid with
  | Some r => rd_finished r
  | None => true
  end.

(** [Thread.join(timeout=t)], [t] in seconds: returns at once when the
    thread has finished and gives up after [t] otherwise. *)
Definition join (tid : nat) (t : Z) : M World unit :=
  λ w, let w1 := emit (EvJoin tid t) w in
       (Ok tt, if thread_finished w1 tid then w1 else advance (1000 * t) w1).

(** [os.path.exists(path)]. *)
Definition path_exists (w : World) (path : string) : bool :=
  bool_decide (is_Some (w_fs w !! path)).

(** [os.listdir(path)]. *)
Definition listdir (path : string) : M World (list string) :=
  λ w, match w_fs w !! path with
       | Some (Dir entries) => (Ok entries, w)
       | Some File => (Raise (OSError "Not a directory"), w)
       | None => (Raise (OSError "No such file or directory"), w)
       end.

(** A socket with [settimeout(1)] on which [connect_ex((host, port))] is
    called: the result is an errno, except for failures that Python
    reports by raising.  The host is taken to be an ASCII string free of
    NUL characters and the port to lie in 0..65535: there every error
    raised is an [OSError] (outside, [connect_ex] raises [OverflowError],
    [TypeError] or [UnicodeError]). *)
Definition connect_ex (h : string) (p : Z) : M World Z :=
  λ w, let w1 := emit (EvConnect h p) w in
       match w_connect w h p (w_clock w) with
       | Connected => (Ok 0, w1)
       | Refused => (Ok 111, w1)
       | ConnectTimeout => (Ok 11, advance 1000 w1)
       | ConnectError msg => (Raise (OSError msg), w1)
       end.

(** [warnings.warn(msg)], with no filter that turns warnings into
    exceptions. *)
Definition warn (msg : string) : M World unit :=
  λ w, (Ok tt, emit (EvWarn msg) w).

End os_calls.

Arguments emit : simpl never.
Arguments advance : simpl never.
Arguments signal : simpl never.
Arguments sleep : simpl never.
Arguments Popen_new : simpl never.
Arguments terminate : simpl never.
Arguments kill : simpl never.
Arguments wait_timeout : simpl never.
Arguments wait : simpl never.
Arguments Thread_start : simpl never.
Arguments join : simpl never.
Arguments listdir : simpl never.
Arguments connect_ex : simpl never.
Arguments warn : simpl never.

(** A call that only involves the operating system, made from a method of
    an object with state [X]. *)
Definition os {X A} (m : M World A) : M (X * World) A :=
  λ xw, match m xw.2 with
        | (o, w') => (o, (xw.1, w'))
        end.

(** Reading and updating [self]. *)
Definition self {X} : M (X * World) X := gets fst.
Definition world {X} : M (X * World) World := gets snd.
Definition update {X} (f : X → X) : M (X * World) unit :=
  modify (λ xw, (f xw.1, xw.2)).

(** ** [logs.py]: class [LogCapture] *)

Module LogCapture.

(** The attributes of a [LogCapture]; a thread attribute holds the id of
    the thread object.  [_lock] only serialises the buffer operations,
    each of which is one atomic step here; [_stop_event] is the flag
    [stop_event]. *)
Record t := {
  stdout_thread : option nat;
  stderr_thread : option nat;
  buffer : list string;
  stop_event : bool;
}.

Definition __init__ : t :=
  {| stdout_thread := None; stderr_thread := None; buffer := [];
     stop_event := false |}.

Definition set_stdout_thread (v : option nat) (lc : t) : t :=
  {| stdout_thread := v; stderr_thread := stderr_thread lc;
     buffer := buffer lc; stop_event := stop_event lc |}.
Definition set_stderr_thread (v : option nat) (lc : t) : t :=
  {| stdout_thread := stdout_thread lc; stderr_thread := v;
     buffer := buffer lc; stop_event := stop_event lc |}.
Definition set_buffer (v : list string) (lc : t) : t :=
  {| stdout_thread := stdout_thread lc; stderr_thread := stderr_thread lc;
     buffer := v; stop_event := stop_event lc |}.
Definition set_stop_event (v : bool) (lc : t) : t :=
  {| stdout_thread := stdout_thread lc; stderr_thread := stderr_thread lc;
     buffer := buffer lc; stop_event := v |}.

(** [attach(process)]. *)
Definition attach (process : Popen) : M (t * World) unit :=
  match stdout process, stderr process with
  | Some out, Some err =>
      update (set_stop_event false);;
      tid_out ← os (Thread_start out "STDOUT");
      update (set_stdout_thread (Some tid_out));;
      tid_err ← os (Thread_start err "STDERR");
      update (set_stderr_thread (Some tid_err))
  | _, _ =>
      raise (ValueError "Process must have stdout and stderr set to PIPE")
  end.

(** [stop()]. *)
Definition stop : M (t * World) unit :=
  update (set_stop_event true);;
  lc ← self;
  match stdout_thread lc with
  | Some tid => os (join tid 2)
  | None => mret tt
  end;;
  match stderr_thread lc with
  | Some tid => os (join tid 2)
  | None => mret tt
  end.

(** [get_output()]. *)
Definition get_output (lc : t) : string := Py.join Py.newline (buffer lc).

(** [get_lines()]. *)
Definition get_lines (lc : t) : list string := buffer lc.

(** [clear()]. *)
Definition clear (lc : t) : t := set_buffer [] lc.

(** [stream.readline()]: the next line, or [""] at end of file. *)
Definition readline (stream : list string) : string * list string :=
  match stream with
  | [] => ("", [])
  | line :: rest => (line, rest)
  end.

(** The entry [f"[{prefix}] {decoded}"]. *)
Definition entry (prefix decoded : string) : string :=
  "[" +:+ prefix +:+ "] " +:+ decoded.

(** One iteration of the loop of [_read_stream(stream, prefix)], run by
    the reader thread [r]: [iter(stream.readline, "")] ends the loop on
    [""], otherwise the stripped line is appended under the lock and the
    stop flag is looked at. *)
Definition _read_stream (r : reader) (lc : t) : reader * t :=
  let (line, rest) := readline (rd_stream r) in
  if decide (line = "") then
    ({| rd_stream := rest; rd_prefix := rd_prefix r; rd_finished := true |},
     lc)
  else
    let decoded := Py.rstrip Py.LF_CR line in
    let lc' := set_buffer (buffer lc ++ [entry (rd_prefix r) decoded]) lc in
    ({| rd_stream := rest; rd_prefix := rd_prefix r;
        rd_finished := stop_event lc' |},
     lc').

End LogCapture.

(** ** [server.py]: class [XpraServer] *)

Module XpraServer.

Record t := {
  host : string;
  port : Z;
  display : option string;
  process : option Popen;
  log_capture : LogCapture.t;
  xvfb_process : option Popen;
  platform : string;
}.

Definition set_display (v : option string) (s : t) : t :=
  {| host := host s; port := port s; display := v; process := process s;
     log_capture := log_capture s; xvfb_process := xvfb_process s;
     platform := platform s |}.
Definition set_process (v : option Popen) (s : t) : t :=
  {| host := host s; port := port s; display := display s; process := v;
     log_capture := log_capture s; xvfb_process := xvfb_process s;
     platform := platform s |}.
Definition set_log_capture (v : LogCapture.t) (s : t) : t :=
  {| host := host s; port := port s; display := display s;
     process := process s; log_capture := v;
     xvfb_process := xvfb_process s; platform := platform s |}.
Definition set_xvfb_process (v : option Popen) (s : t) : t :=
  {| host := host s; port := port s; display := display s;
     process := process s; log_capture := log_capture s;
     xvfb_process := v; platform := platform s |}.

(** A method of [self.log_capture] called from a method of the server. *)
Definition on_log {A} (m : M (LogCapture.t * World) A) : M (t * World) A :=
  λ sw, match m (log_capture sw.1, sw.2) with
        | (o, (lc, w')) => (o, (set_log_capture lc sw.1, w'))
        end.

(** [_get_free_port()]: the port the kernel hands out for a bind to
    port 0. *)
Definition _get_free_port (w : World) : Z := w_free_port w.

(** [__init__(host, port)]; [port or ...] also replaces port 0. *)
Definition __init__ (h : string) (p : option Z) (w : World) : t :=
  {| host := h;
     port := match p with
             | Some n => if decide (n = 0) then _get_free_port w else n
             | None => _get_free_port w
             end;
     display := None;
     process := None;
     log_capture := LogCapture.__init__;
     xvfb_process := None;
     platform := w_platform w |}.

Definition x11_socket_dir : string := "/tmp/.X11-unix".

(** The body of the loop over [os.listdir(x11_socket_dir)]. *)
Definition add_display (used : gset Z) (filename : string) : gset Z :=
  if Py.startswith filename "X" then
    match Py.int (Py.tail filename) with
    | Some display_num => {[display_num]} ∪ used
    | None => used
    end
  else used.

Definition used_displays (filenames : list string) : gset Z :=
  foldl add_display ∅ filenames.

Definition socket_path (display_num : Z) : string :=
  Py.path_join x11_socket_dir ("X" +:+ Py.str display_num).

(** The loop [for display_num in range(100, 10000)], over the candidates
    that are left. *)
Fixpoint scan_displays (used : gset Z) (w : World) (candidates : list Z)
  : option Z :=
  match candidates with
  | [] => None
  | display_num :: rest =>
      if decide (display_num ∉ used) then
        if negb (path_exists w (socket_path display_num))
        then Some display_num
        else scan_displays used w rest
      else scan_displays used w rest
  end.

Definition candidates : list Z := seqZ 100 (10000 - 100).

Definition unsupported_display (plat : string) : string :=
  "Display management is only supported on Linux/X11, not on " +:+ plat
  +:+ ". On macOS and Windows, Xpra uses the native display system.".

(** [_find_free_display()]. *)
Definition _find_free_display : M (t * World) string :=
  s ← self;
  if decide (platform s ≠ "Linux") then
    raise (RuntimeError (unsupported_display (platform s)))
  else
    w ← world;
    used ← (if path_exists w x11_socket_dir
            then filenames ← os (listdir x11_socket_dir);
                 mret (used_displays filenames)
            else mret ∅);
    match scan_displays used w candidates with
    | Some display_num => mret (":" +:+ Py.str display_num)
    | None => raise (RuntimeError "Could not find free X11 display")
    end.

Definition unsupported_xvfb (plat : string) : string :=
  "Xvfb is only supported on Linux/X11, not on " +:+ plat
  +:+ ". On macOS and Windows, Xpra uses the native display system.".

Definition xvfb_cmd (d : string) : list string :=
  ["Xvfb"; d; "-screen"; "0"; "1280x1024x24"; "-ac"; "-noreset"].

(** [_start_xvfb(display)]. *)
Definition _start_xvfb (d : string) : M (t * World) Popen :=
  s ← self;
  if decide (platform s ≠ "Linux") then
    raise (RuntimeError (unsupported_xvfb (platform s)))
  else
    proc ← os (Popen_new (xvfb_cmd d) false None);
    os (sleep 500);;
    w ← world;
    match poll w proc with
    | Some _ => raise (RuntimeError ("Xvfb failed to start on " +:+ d))
    | None => mret proc
    end.

(** One pass through the [try] block of [_wait_for_socket]: [true] when
    [connect_ex] returned 0. *)
Definition probe (h : string) (p : Z) : M World bool :=
  try_except_oserror
    (result ← connect_ex h p; mret (bool_decide (result = 0)))
    (mret false).

(** The [while] loop of [_wait_for_socket]; [fuel] bounds the number of
    times the loop condition is evaluated. *)
Fixpoint wait_loop (fuel : nat) (start timeout : Z) (h : string) (p : Z)
  : M World unit :=
  match fuel with
  | O => hang
  | S fuel' =>
      w ← get;
      if decide (w_clock w - start < 1000 * timeout) then
        ready ← probe h p;
        if ready : bool then mret tt
        else sleep 200;; wait_loop fuel' start timeout h p
      else
        raise (RuntimeError ("WebSocket endpoint not ready after "
                             +:+ Py.str timeout +:+ " seconds"))
  end.

(** Every pass sleeps 0.2 s, so the condition is evaluated at most
    [5 * timeout + 1] times. *)
Definition wait_fuel (timeout : Z) : nat := S (Z.to_nat (5 * timeout)).

(** [_wait_for_socket(timeout)]. *)
Definition _wait_for_socket (timeout : Z) : M (t * World) unit :=
  s ← self;
  start ← gets (λ sw : t * World, w_clock sw.2);
  os (wait_loop (wait_fuel timeout) start timeout (host s) (port s)).

Definition xvfb_ignored (plat : string) : string :=
  "use_xvfb=True is ignored on " +:+ plat
  +:+ " (native display is used instead)".

(** [start], "Platform-specific display setup". *)
Definition display_setup (use_xvfb : bool) : M (t * World) unit :=
  s ← self;
  if bool_decide (platform s = "Linux") && use_xvfb then
    d ← _find_free_display;
    update (set_display (Some d));;
    x ← _start_xvfb d;
    update (set_xvfb_process (Some x));;
    os (sleep 1000)
  else if bool_decide (platform s = "Darwin")
          || bool_decide (platform s = "Windows") then
    if use_xvfb then os (warn (xvfb_ignored (platform s))) else mret tt
  else mret tt.

(** Truth value of a [str | None] and of a [List[str] | None]. *)
Definition truthy_str (v : option string) : bool :=
  match v with
  | Some (String _ _) => true
  | _ => false
  end.

(** [start], "Build xpra command". *)
Definition xpra_args (s : t) (app_command : string)
    (extra_args : option (list string)) : list string :=
  ["xpra";
   "seamless";
   "--start=" +:+ app_command;
   "--bind-ws=" +:+ host s +:+ ":" +:+ Py.str (port s);
   "--no-daemon";
   "--speaker=no";
   "--microphone=no"]
  ++ (if truthy_str (display s)
      then ["--display=" +:+ default "" (display s)] else [])
  ++ (match extra_args with
      | Some (a :: l) => a :: l
      | _ => []
      end).

(** [start], "Set up environment". *)
Definition xpra_env (w : World) : gmap string string :=
  <["XPRA_NOTTY" := "1"]> (<["XPRA_LOG_DIR" := w_tmpdir w]> (w_environ w)).

(** [start], from "Build xpra command" to "Attach log capture". *)
Definition spawn_xpra (app_command : string)
    (extra_args : option (list string)) : M (t * World) unit :=
  s ← self;
  w ← world;
  proc ← os (Popen_new (xpra_args s app_command extra_args) true
               (Some (xpra_env w)));
  update (set_process (Some proc));;
  on_log (LogCapture.attach proc).

(** [start] up to and including the attachment of the log capture, that
    is, everything before the call of [_wait_for_socket]. *)
Definition launch (app_command : string) (extra_args : option (list string))
    (use_xvfb : bool) : M (t * World) unit :=
  s ← self;
  match process s with
  | Some _ => raise (RuntimeError "Server already running")
  | None =>
      display_setup use_xvfb;;
      spawn_xpra app_command extra_args
  end.

(** [start(app_command, extra_args, use_xvfb)]. *)
Definition start (app_command : string) (extra_args : option (list string))
    (use_xvfb : bool) : M (t * World) string :=
  launch app_command extra_args use_xvfb;;
  _wait_for_socket 10;;
  s ← self;
  mret ("ws://" +:+ host s +:+ ":" +:+ Py.str (port s) +:+ "/").

(** The [try]/[except] block of [stop] for one process. *)
Definition shut_down (proc : Popen) (timeout : Z) : M World unit :=
  try_except_timeout
    (terminate proc;; wait_timeout proc timeout)
    (kill proc;; wait proc).

(** [stop(timeout)]. *)
Definition stop (timeout : Z) : M (t * World) unit :=
  on_log LogCapture.stop;;
  s ← self;
  match process s with
  | Some proc => os (shut_down proc timeout);; update (set_process None)
  | None => mret tt
  end;;
  s ← self;
  match xvfb_process s with
  | Some proc => os (shut_down proc 5);; update (set_xvfb_process None)
  | None => mret tt
  end.

(** The default of [stop]'s [timeout] parameter. *)
Definition default_timeout : Z := 10.

(** [get_logs()]. *)
Definition get_logs (s : t) : string :=
  LogCapture.get_output (log_capture s).

(** [is_running()]. *)
Definition is_running (s : t) (w : World) : bool :=
  match process s with
  | Some proc => bool_decide (poll w proc = None)
  | None => false
  end.

End XpraServer.

(** ** A session over time

    The foreground thread calls the public methods; between any two calls a
    reader thread that has not finished may run one iteration of its loop,
    and time may pass. *)

Inductive step : XpraServer.t * World → XpraServer.t * World → Prop :=
| step_start app_command extra_args use_xvfb sw :
    step sw (XpraServer.start app_command extra_args use_xvfb sw).2
| step_stop timeout sw :
    step sw (XpraServer.stop timeout sw).2
| step_clear s w :
    step (s, w)
      (XpraServer.set_log_capture
         (LogCapture.clear (XpraServer.log_capture s)) s, w)
| step_reader tid r s w :
    w_threads w !! tid = Some r →
    rd_finished r = false →
    step (s, w)
      (XpraServer.set_log_capture
         (LogCapture._read_stream r (XpraServer.log_capture s)).2 s,
       with_threads
         (<[tid := (LogCapture._read_stream r (XpraServer.log_capture s)).1]>
            (w_threads w)) w)
| step_time t s w :
    step (s, w) (s, advance t w).

Inductive reachable : XpraServer.t * World → Prop :=
| reach_init h p w :
    w_threads w = [] → reachable (XpraServer.__init__ h p w, w)
| reach_step sw sw' :
    reachable sw → step sw sw' → reachable sw'.

(** ** Concrete worlds for the examples *)

Module Demo.

(** The X11 socket directory with the given entries, every entry being an
    existing file. *)
Definition x11_fs (names : list string) : gmap string fs_node :=
  <[XpraServer.x11_socket_dir := Dir names]>
    (list_to_map
       ((λ n, (Py.path_join XpraServer.x11_socket_dir n, File)) <$> names)).

(** [xpra] needs 300 ms to exit on SIGTERM and writes two lines on each
    stream; [Xvfb] exits 100 ms after SIGTERM; nothing else is installed. *)
Definition xpra_program : program :=
  {| prog_status := Alive None (Some 300);
     prog_stdout := ["xpra starting" +:+ Py.newline; "ready" +:+ Py.LF_CR];
     prog_stderr := ["warning: no audio" +:+ Py.newline] |}.

Definition programs (args : list string) : option program :=
  match args with
  | "xpra" :: _ => Some xpra_program
  | "Xvfb" :: _ =>
      Some {| prog_status := Alive None (Some 100);
              prog_stdout := []; prog_stderr := [] |}
  | _ => None
  end.

(** A main process that ignores SIGTERM. *)
Definition stubborn (args : list string) : option program :=
  match args with
  | "xpra" :: _ =>
      Some {| prog_status := Alive None None;
              prog_stdout := []; prog_stderr := [] |}
  | other => programs other
  end.

(** The endpoint accepts connections from 2.5 s on. *)
Definition ready_after (ms : Z) (h : string) (p : Z) (now : Z)
  : connect_result :=
  if decide (ms ≤ now) then Connected else Refused.

Definition never_ready (h : string) (p : Z) (now : Z) : connect_result :=
  Refused.

Definition make (plat : string) (names : list string)
    (progs : list string → option program)
    (conn : string → Z → Z → connect_result) : World :=
  {| w_clock := 0; w_procs := ∅; w_next_pid := 4000; w_threads := [];
     w_fs := x11_fs names; w_programs := progs; w_connect := conn;
     w_free_port := 14500; w_platform := plat; w_tmpdir := "/tmp";
     w_environ := {["HOME" := "/root"]}; w_trace := [] |}.

Definition sockets (a b : Z) : list string :=
  (λ n, "X" +:+ Py.str n) <$> seqZ a (b - a + 1).

Definition linux : World :=
  make "Linux" (sockets 100 105) programs (ready_after 2500).
Definition darwin : World :=
  make "Darwin" [] programs (ready_after 2500).
Definition freebsd : World :=
  make "FreeBSD" [] programs (ready_after 2500).

Definition server (w : World) : XpraServer.t :=
  XpraServer.__init__ "127.0.0.1" None w.

(** A session whose main process is recorded. *)
Definition child : Popen :=
  {| pid := 4001; stdout := Some ["ready" +:+ Py.newline];
     stderr := Some [] |}.
Definition running : XpraServer.t :=
  XpraServer.set_process (Some child) (server darwin).

End Demo.

(** ** Vocabulary of the statements *)

(** The session [stop] leaves behind: both process handles cleared and the
    stop flag of the capture set; every other attribute as it was. *)
Definition stopped (s : XpraServer.t) : XpraServer.t :=
  {| XpraServer.host := XpraServer.host s;
     XpraServer.port := XpraServer.port s;
     XpraServer.display := XpraServer.display s;
     XpraServer.process := None;
     XpraServer.log_capture :=
       LogCapture.set_stop_event true (XpraServer.log_capture s);
     XpraServer.xvfb_process := None;
     XpraServer.platform := XpraServer.platform s |}.

(** Graceful-then-forced shutdown of [proc], requested in world [w] with
    [timeout] seconds of grace: SIGTERM, a bounded wait, and only when that
    wait expires SIGKILL and an unbounded wait. *)
Definition escalation (w : World) (proc : Popen) (timeout : Z) : list event :=
  [EvTerminate (pid proc); EvWait (pid proc) (Some timeout)]
  ++ (if wait_expires (signal on_sigterm (pid proc) w) (pid proc)
           (1000 * timeout)
      then [EvKill (pid proc); EvWait (pid proc) None]
      else []).

(** The joins made by [LogCapture.stop]. *)
Definition joins (lc : LogCapture.t) : list event :=
  match LogCapture.stdout_thread lc with
  | Some tid => [EvJoin tid 2]
  | None => []
  end
  ++ match LogCapture.stderr_thread lc with
     | Some tid => [EvJoin tid 2]
     | None => []
     end.

(** The worlds [stop(timeout)] goes through: after the capture was stopped,
    after the main process was shut down, and at the end. *)
Definition world_after_capture (s : XpraServer.t) (w : World) : World :=
  (LogCapture.stop (XpraServer.log_capture s, w)).2.2.

Definition world_after_main (timeout : Z) (s : XpraServer.t) (w : World)
  : World :=
  match XpraServer.process s with
  | Some proc => (XpraServer.shut_down proc timeout (world_after_capture s w)).2
  | None => world_after_capture s w
  end.

Definition has_exited (w : World) (proc : Popen) : Prop :=
  ∃ rc, status_of w (pid proc) = Exited rc.

(** The display numbers [_find_free_display] takes to be in use: those
    parsed from the entries of the socket directory. *)
Definition in_use (w : World) : gset Z :=
  match w_fs w !! XpraServer.x11_socket_dir with
  | Some (Dir filenames) => XpraServer.used_displays filenames
  | _ => ∅
  end.




(** The world after the warning of [start] about an ignored [use_xvfb]:
    the warning is issued on Darwin and on Windows only. *)
Definition warned (plat : string) (w : World) : World :=
  if bool_decide (plat = "Darwin") || bool_decide (plat = "Windows")
  then emit (EvWarn (XpraServer.xvfb_ignored plat)) w
  else w.

(** The URL [start] returns. *)
Definition ws_url (s : XpraServer.t) : string :=
  "ws://" +:+ XpraServer.host s +:+ ":" +:+ Py.str (XpraServer.port s) +:+ "/".

(** The handle and the world [Popen(args, ...)] gives when [args] starts
    the program [prog]. *)
Definition child_of (w : World) (prog : program) (pipes : bool) : Popen :=
  {| pid := w_next_pid w;
     stdout := if pipes then Some (prog_stdout prog) else None;
     stderr := if pipes then Some (prog_stderr prog) else None |}.

Definition spawned (args : list string) (env : option (gmap string string))
    (prog : program) (w : World) : World :=
  emit (EvSpawn (w_next_pid w) args env)
    (with_next_pid (S (w_next_pid w))
       (with_procs (<[w_next_pid w := prog_status prog]> (w_procs w)) w)).

(** The capture and the world after [attach] started its two readers. *)
Definition attached_capture (w : World) (lc : LogCapture.t) : LogCapture.t :=
  LogCapture.set_stderr_thread (Some (S (length (w_threads w))))
    (LogCapture.set_stdout_thread (Some (length (w_threads w)))
       (LogCapture.set_stop_event false lc)).

Definition attached (out err : list string) (w : World) : World :=
  (Thread_start err "STDERR" (Thread_start out "STDOUT" w).2).2.

(** The session and the world after the main process was spawned and the
    capture attached. *)
Definition launched_session (app_command : string)
    (extra_args : option (list string)) (prog : program)
    (s : XpraServer.t) (w : World) : XpraServer.t :=
  XpraServer.set_log_capture
    (attached_capture w (XpraServer.log_capture s))
    (XpraServer.set_process (Some (child_of w prog true)) s).

Definition launched_world (app_command : string)
    (extra_args : option (list string)) (prog : program)
    (s : XpraServer.t) (w : World) : World :=
  attached (prog_stdout prog) (prog_stderr prog)
    (spawned (XpraServer.xpra_args s app_command extra_args)
       (Some (XpraServer.xpra_env w)) prog w).

(** The events of the readiness probe. *)
Definition probe_event (e : event) : Prop :=
  match e with
  | EvConnect _ _ | EvSleep _ => True
  | _ => False
  end.

(** The error of [_wait_for_socket] (the spec's ReadinessTimeoutError). *)
Definition not_ready (timeout : Z) : exn :=
  RuntimeError ("WebSocket endpoint not ready after " +:+ Py.str timeout
                +:+ " seconds").

(** The two stream tags [attach] hands to its readers. *)
Definition tag (prefix : string) : Prop :=
  prefix = "STDOUT" ∨ prefix = "STDERR".

(** A character that ends a line: the two characters [_read_stream]
    strips. *)
Definition line_terminator (c : ascii) : Prop := c = Py.LF ∨ c = Py.CR.

(** An entry as a reader writes it: the tag in brackets, a space, and a
    line without its trailing newlines and carriage returns. *)
Definition entry_ok (e : string) : Prop :=
  ∃ prefix line,
    tag prefix ∧ e = LogCapture.entry prefix (Py.rstrip Py.LF_CR line).

(** A display attribute is unset or holds a display string. *)
Definition display_ok (d : option string) : Prop :=
  d = None ∨ ∃ n, d = Some (":" +:+ Py.str n).

(** What holds of a session at any time. *)
Definition session_ok (sw : XpraServer.t * World) : Prop :=
  Forall entry_ok (LogCapture.buffer (XpraServer.log_capture sw.1))
  ∧ Forall (λ r, tag (rd_prefix r)) (w_threads sw.2)
  ∧ display_ok (XpraServer.display sw.1).

(** The loop of [_read_stream] run by one reader with no other thread in
    between, for at most [fuel] iterations. *)
Fixpoint run_reader (fuel : nat) (r : reader) (lc : LogCapture.t)
  : reader * LogCapture.t :=
  match fuel with
  | O => (r, lc)
  | S fuel' =>
      if rd_finished r then (r, lc)
      else run_reader fuel' (LogCapture._read_stream r lc).1
             (LogCapture._read_stream r lc).2
  end.

(** The entries a reader with tag [prefix] writes for the lines [lines]. *)
Definition entries (prefix : string) (lines : list string) : list string :=
  (λ line, LogCapture.entry prefix (Py.rstrip Py.LF_CR line)) <$> lines.

(** A new reader on [stream]. *)
Definition new_reader (stream : list string) (prefix : string) : reader :=
  {| rd_stream := stream; rd_prefix := prefix; rd_finished := false |}.

(** An endpoint [connect_ex] takes without an error of its own: an ASCII
    host free of NUL characters and a port in 0..65535. *)
Fixpoint host_ok (h : string) : bool :=
  match h with
  | "" => true
  | String c rest =>
      (0 <? nat_of_ascii c)%nat && (nat_of_ascii c <? 128)%nat && host_ok rest
  end.

Definition valid_endpoint (s : XpraServer.t) : bool :=
  host_ok (XpraServer.host s)
  && bool_decide (0 ≤ XpraServer.port s ≤ 65535).

(** The errors of [start] that are told apart in the model of the
    machine, for a call with [use_xvfb] on the session [s]. *)
Inductive start_error (s : XpraServer.t) (use_xvfb : bool) : exn → Prop :=
| already_running :
    is_Some (XpraServer.process s) →
    start_error s use_xvfb (RuntimeError "Server already running")
| no_free_display :
    XpraServer.platform s = "Linux" → use_xvfb = true →
    start_error s use_xvfb (RuntimeError "Could not find free X11 display")
| socket_dir_not_a_directory :
    XpraServer.platform s = "Linux" → use_xvfb = true →
    start_error s use_xvfb (OSError "Not a directory")
| xvfb_exited n :
    XpraServer.platform s = "Linux" → use_xvfb = true →
    start_error s use_xvfb
      (RuntimeError ("Xvfb failed to start on " +:+ ":" +:+ Py.str n))
| program_missing :
    XpraServer.process s = None →
    start_error s use_xvfb (OSError "No such file or directory")
| endpoint_not_ready :
    XpraServer.process s = None →
    start_error s use_xvfb (not_ready 10).

(** A machine on which [Xvfb] is installed and [xpra] is not. *)
Definition xvfb_only (args : list string) : option program :=
  match args with
  | "Xvfb" :: _ => Demo.programs args
  | _ => None
  end.

(** Two sessions with the same endpoint and platform. *)
Definition same_endpoint (s s' : XpraServer.t) : Prop :=
  XpraServer.host s' = XpraServer.host s
  ∧ XpraServer.port s' = XpraServer.port s
  ∧ XpraServer.platform s' = XpraServer.platform s.

(** * The callers of the two classes

    [client.py], [test_case.py] and the fixtures of [conftest.py] drive a
    browser through Playwright besides the server.  Playwright is outside
    the package: every call into it is recorded, and what the call does is
    given by the machine the code runs on. *)

(** ** Exceptions and values of the callers *)

(** The exceptions met in the three files: those of the server, and
    [ImportError], [AssertionError] and the errors of Playwright. *)
Inductive exception :=
| Std (e : exn)
| ImportError (msg : string)
| AssertionError (msg : string)
| PlaywrightError (msg : string).

(** A Python value handed back by Playwright. *)
Inductive pyval :=
| PyNone
| PyBool (b : bool)
| PyInt (z : Z)
| PyStr (s : string)
| PyObject (id : nat).

(** The calls into Playwright; objects (the playwright instance, browsers,
    pages) are named by numbers. *)
Inductive call :=
| ImportSyncApi
    (** [from playwright.sync_api import sync_playwright] *)
| SyncPlaywrightStart
    (** [sync_playwright().start()] *)
| ChromiumLaunch (playwright : nat) (headless : bool)
    (** [playwright.chromium.launch(headless=headless)] *)
| NewPage (browser : nat)
    (** [browser.new_page()] *)
| Goto (page : nat) (url : string)
    (** [page.goto(url)] *)
| WaitForSelector (page : nat) (selector : string) (timeout : Z)
    (** [page.wait_for_selector(selector, timeout=timeout)] *)
| BrowserClose (browser : nat)
    (** [browser.close()] *)
| PlaywrightStop (playwright : nat)
    (** [playwright.stop()] *)
| CanvasScreenshot (page : nat) (path : string)
    (** [page.locator("canvas").first.screenshot(path=path)] *)
| PageClick (page : nat) (selector : string) (timeout : Z)
    (** [page.click(selector, timeout=timeout)] *)
| CanvasClick (page : nat) (x y : Z)
    (** [page.locator("canvas").first.click(button="left",
        position={"x": x, "y": y})] *)
| CanvasEvaluate (page : nat) (expression : string)
    (** [page.locator("canvas").first.evaluate(expression)] *)
| PageEvaluate (page : nat) (script : string) (args : list pyval)
    (** [page.evaluate(script, *args)] *).

(** What a call into Playwright does. *)
Inductive reply :=
| Returns (v : pyval)
| Throws (e : exception)
| Never.

(** The machine: the operating system, the calls made into Playwright so
    far, and what the next call will do and how long it will take (in
    milliseconds), which may depend on the calls made before. *)
Record Machine := {
  m_world : World;
  m_calls : list call;
  m_reply : list call → call → reply;
  m_elapsed : list call → call → Z;
}.

Definition with_world (w : World) (m : Machine) : Machine :=
  {| m_world := w; m_calls := m_calls m; m_reply := m_reply m;
     m_elapsed := m_elapsed m |}.

(** What a call of the callers does: return a value, raise, or block for
    ever. *)
Inductive result (A : Type) :=
| Value (a : A)
| Error (e : exception)
| Blocked.
Arguments Value {A} a.
Arguments Error {A} e.
Arguments Blocked {A}.

Definition C (S A : Type) : Type := S → result A * S.

Global Instance C_ret {S} : MRet (C S) := λ A a s, (Value a, s).

Global Instance C_bind {S} : MBind (C S) :=
  λ A B k m s, match m s with
               | (Value a, s') => k a s'
               | (Error e, s') => (Error e, s')
               | (Blocked, s') => (Blocked, s')
               end.

Definition throw {S A} (e : exception) : C S A := λ s, (Error e, s).

(** [try: body  except Exception: handler]. *)
Definition try_except {S A} (body : C S A) (handler : exception → C S A)
  : C S A :=
  λ s, match body s with
       | (Error e, s') => handler e s'
       | r => r
       end.

(** Reading and updating [self], and calls that only involve the machine,
    from a method of an object with state [X]. *)
Definition this {X} : C (X * Machine) X := λ xm, (Value xm.1, xm).
Definition machine {X} : C (X * Machine) Machine := λ xm, (Value xm.2, xm).
Definition assign {X} (f : X → X) : C (X * Machine) unit :=
  λ xm, (Value tt, (f xm.1, xm.2)).
Definition ext {X A} (m : C Machine A) : C (X * Machine) A :=
  λ xm, match m xm.2 with
        | (r, m') => (r, (xm.1, m'))
        end.

(** A call into Playwright: it is recorded, takes its time, and returns,
    raises or blocks as the machine has it. *)
Definition playwright_call (c : call) : C Machine pyval :=
  λ m, let m' := {| m_world := advance (m_elapsed m (m_calls m) c) (m_world m);
                    m_calls := m_calls m ++ [c];
                    m_reply := m_reply m;
                    m_elapsed := m_elapsed m |} in
       match m_reply m (m_calls m) c with
       | Returns v => (Value v, m')
       | Throws e => (Error e, m')
       | Never => (Blocked, m')
       end.

(** A call that hands back a new object, named by the position of the
    call among all calls. *)
Definition playwright_new (c : call) : C Machine nat :=
  λ m, match playwright_call c m with
       | (Value _, m') => (Value (length (m_calls m)), m')
       | (Error e, m') => (Error e, m')
       | (Blocked, m') => (Blocked, m')
       end.

(** A method of the server called by one of the callers. *)
Definition of_outcome {A} (o : outcome A) : result A :=
  match o with
  | Ok a => Value a
  | Raise e => Error (Std e)
  | Hang => Blocked
  end.

Definition server_call {A} (m : M (XpraServer.t * World) A)
  : C (XpraServer.t * Machine) A :=
  λ sm, match m (sm.1, m_world sm.2) with
        | (o, (s', w')) => (of_outcome o, (s', with_world w' sm.2))
        end.

(** ** [str.replace] *)

(** [s.replace(old, new)] for a non-empty [old], from left to right;
    [skip] counts the characters of a match that are still to be
    dropped. *)
Fixpoint replace_from (skip : nat) (old new s : string) : string :=
  match s with
  | "" => ""
  | String c rest =>
      match skip with
      | S k => replace_from k old new rest
      | O =>
          if Py.startswith s old
          then new +:+ replace_from (String.length old - 1) old new rest
          else String c (replace_from 0 old new rest)
      end
  end.

(** With an empty [old], [new] goes before every character and at the
    end. *)
Fixpoint replace_empty (new s : string) : string :=
  match s with
  | "" => new
  | String c rest => new +:+ String c (replace_empty new rest)
  end.

Definition replace (old new s : string) : string :=
  match old with
  | "" => replace_empty new s
  | _ => replace_from 0 old new s
  end.

(** ** [client.py]: class [PlaywrightClient] *)

Module PlaywrightClient.

Record t := {
  ws_url : string;
  headless : bool;
  playwright : option nat;
  browser : option nat;
  page : option nat;
  _connected : bool;
}.

(** [__init__(ws_url, headless)]. *)
Definition __init__ (url : string) (hl : bool) : t :=
  {| ws_url := url; headless := hl; playwright := None; browser := None;
     page := None; _connected := false |}.

Definition set_playwright (v : option nat) (c : t) : t :=
  {| ws_url := ws_url c; headless := headless c; playwright := v;
     browser := browser c; page := page c; _connected := _connected c |}.
Definition set_browser (v : option nat) (c : t) : t :=
  {| ws_url := ws_url c; headless := headless c; playwright := playwright c;
     browser := v; page := page c; _connected := _connected c |}.
Definition set_page (v : option nat) (c : t) : t :=
  {| ws_url := ws_url c; headless := headless c; playwright := playwright c;
     browser := browser c; page := v; _connected := _connected c |}.
Definition set_connected (v : bool) (c : t) : t :=
  {| ws_url := ws_url c; headless := headless c; playwright := playwright c;
     browser := browser c; page := page c; _connected := v |}.

(** The selectors [_wait_for_canvas] tries, in its order. *)
Definition selectors : list string :=
  ["canvas[keyboard='true']";
   "canvas[keyboard=true]";
   "canvas.xpra-canvas";
   "#xpra-canvas";
   "canvas"].

(** The loop of [_wait_for_canvas] over the selectors still to try; the
    result tells whether one of them was found.  Without a page every
    iteration ends in the [AttributeError] of [None.wait_for_selector],
    which the [except] clause swallows like any other exception. *)
Fixpoint try_selectors (pg : option nat) (timeout : Z) (sels : list string)
  : C Machine bool :=
  match sels with
  | [] => mret false
  | selector :: rest =>
      match pg with
      | Some p =>
          try_except
            (playwright_call (WaitForSelector p selector timeout);; mret true)
            (λ _, try_selectors pg timeout rest)
      | None => try_selectors pg timeout rest
      end
  end.

(** [_wait_for_canvas(timeout)]. *)
Definition _wait_for_canvas (timeout : Z) : C (t * Machine) unit :=
  c ← this;
  found ← ext (try_selectors (page c) timeout selectors);
  if found : bool then mret tt
  else throw (Std (RuntimeError ("Xpra canvas not found after "
                                 +:+ Py.str timeout +:+ "ms"))).

(** The import at the head of [connect]: an [ImportError] is raised again
    with the message of the package. *)
Definition import_sync_api : C Machine unit :=
  λ m, match playwright_call ImportSyncApi m with
       | (Value _, m') => (Value tt, m')
       | (Error (ImportError _), m') =>
           (Error (ImportError
                     "playwright is required. Install with: pip install playwright"),
            m')
       | (Error e, m') => (Error e, m')
       | (Blocked, m') => (Blocked, m')
       end.

(** The address [connect] navigates to. *)
Definition page_url (url : string) : string :=
  "http://" +:+ replace "ws://" "" url +:+ "?connect=" +:+ url.

(** [connect()]. *)
Definition connect : C (t * Machine) unit :=
  c ← this;
  if _connected c then throw (Std (RuntimeError "Already connected"))
  else
    ext import_sync_api;;
    pw ← ext (playwright_new SyncPlaywrightStart);
    assign (set_playwright (Some pw));;
    c ← this;
    b ← ext (playwright_new (ChromiumLaunch pw (headless c)));
    assign (set_browser (Some b));;
    pg ← ext (playwright_new (NewPage b));
    assign (set_page (Some pg));;
    c ← this;
    ext (playwright_call (Goto pg (page_url (ws_url c))));;
    _wait_for_canvas 10000;;
    assign (set_connected true).

(** [disconnect()]. *)
Definition disconnect : C (t * Machine) unit :=
  c ← this;
  match browser c with
  | Some b => ext (playwright_call (BrowserClose b));; assign (set_browser None)
  | None => mret tt
  end;;
  c ← this;
  match playwright c with
  | Some pw =>
      ext (playwright_call (PlaywrightStop pw));; assign (set_playwright None)
  | None => mret tt
  end;;
  assign (set_page None);;
  assign (set_connected false).

(** The test at the head of every operation: [if not self._connected or
    not self.page: raise RuntimeError("Not connected")]; it hands on
    [self.page]. *)
Definition connected_page : C (t * Machine) nat :=
  c ← this;
  match page c with
  | Some pg =>
      if _connected c then mret pg
      else throw (Std (RuntimeError "Not connected"))
  | None => throw (Std (RuntimeError "Not connected"))
  end.

(** [screenshot(path)]. *)
Definition screenshot (path : string) : C (t * Machine) unit :=
  pg ← connected_page;
  ext (playwright_call (CanvasScreenshot pg path));;
  mret tt.

(** [click(selector, timeout)]. *)
Definition click (selector : string) (timeout : Z) : C (t * Machine) unit :=
  pg ← connected_page;
  ext (playwright_call (PageClick pg selector timeout));;
  mret tt.

(** [click_canvas_at(x, y)]. *)
Definition click_canvas_at (x y : Z) : C (t * Machine) unit :=
  pg ← connected_page;
  ext (playwright_call (CanvasClick pg x y));;
  mret tt.

(** [wait_for_element(selector, timeout)]. *)
Definition wait_for_element (selector : string) (timeout : Z)
  : C (t * Machine) pyval :=
  pg ← connected_page;
  ext (playwright_call (WaitForSelector pg selector timeout)).

(** [wait_for_canvas(timeout)]. *)
Definition wait_for_canvas (timeout : Z) : C (t * Machine) unit :=
  connected_page;;
  _wait_for_canvas timeout.

(** [get_canvas_size()]. *)
Definition get_canvas_size : C (t * Machine) (pyval * pyval) :=
  pg ← connected_page;
  width ← ext (playwright_call (CanvasEvaluate pg "el => el.width"));
  height ← ext (playwright_call (CanvasEvaluate pg "el => el.height"));
  mret (width, height).

(** [execute_script(script, *args)]. *)
Definition execute_script (script : string) (args : list pyval)
  : C (t * Machine) pyval :=
  pg ← connected_page;
  ext (playwright_call (PageEvaluate pg script args)).

(** [is_connected()]. *)
Definition is_connected (c : t) : bool := _connected c.

(** [__enter__()] (which returns [self]) and [__exit__]. *)
Definition __enter__ : C (t * Machine) unit := connect.
Definition __exit__ : C (t * Machine) unit := disconnect.

End PlaywrightClient.

(** A method of a client object [c] that an attribute or a variable of the
    caller refers to: the object is changed in place, and [store] says
    where the caller keeps it. *)
Definition client_call {X A} (store : PlaywrightClient.t → X → X)
    (m : C (PlaywrightClient.t * Machine) A) (c : PlaywrightClient.t)
  : C (X * Machine) A :=
  λ xm, match m (c, xm.2) with
        | (r, (c', m')) => (r, (store c' xm.1, m'))
        end.

(** A method of a client object [c] that only a local variable of the
    caller refers to; the object is handed on when the method returns. *)
Definition local_client {X} (m : C (PlaywrightClient.t * Machine) unit)
    (c : PlaywrightClient.t) : C (X * Machine) PlaywrightClient.t :=
  λ xm, match m (c, xm.2) with
        | (Value _, (c', m')) => (Value c', (xm.1, m'))
        | (Error e, (_, m')) => (Error e, (xm.1, m'))
        | (Blocked, (_, m')) => (Blocked, (xm.1, m'))
        end.

(** ** [test_case.py]: class [XpraGUITestCase] *)

Module XpraGUITestCase.

Record t := {
  server : option XpraServer.t;
  client : option PlaywrightClient.t;
}.

Definition set_server (v : option XpraServer.t) (self : t) : t :=
  {| server := v; client := client self |}.
Definition set_client (v : option PlaywrightClient.t) (self : t) : t :=
  {| server := server self; client := v |}.

(** A method of [self.server]. *)
Definition on_server {A} (m : M (XpraServer.t * World) A) (s : XpraServer.t)
  : C (t * Machine) A :=
  λ tm, match server_call m (s, tm.2) with
        | (r, (s', m')) => (r, (set_server (Some s') tm.1, m'))
        end.

(** A method of [self.client]. *)
Definition on_client {A} (m : C (PlaywrightClient.t * Machine) A)
    (c : PlaywrightClient.t) : C (t * Machine) A :=
  client_call (λ c', set_client (Some c')) m c.

(** [setUp()]. *)
Definition setUp : C (t * Machine) unit :=
  assign (set_server None);;
  assign (set_client None).

(** [tearDown()]. *)
Definition tearDown : C (t * Machine) unit :=
  self ← this;
  match client self with
  | Some c =>
      try_except (on_client PlaywrightClient.disconnect c) (λ _, mret tt);;
      assign (set_client None)
  | None => mret tt
  end;;
  self ← this;
  match server self with
  | Some s =>
      try_except (on_server (XpraServer.stop XpraServer.default_timeout) s)
        (λ _, mret tt);;
      assign (set_server None)
  | None => mret tt
  end.

(** [start_gui(app_command, headless, use_xvfb, extra_args)]; what it
    returns is [self.client], the object the attribute holds. *)
Definition start_gui (app_command : string) (headless use_xvfb : bool)
    (extra_args : option (list string)) : C (t * Machine) unit :=
  self ← this;
  match server self with
  | Some _ => throw (Std (RuntimeError "Server already running"))
  | None =>
      m ← machine;
      let s := XpraServer.__init__ "127.0.0.1" None (m_world m) in
      assign (set_server (Some s));;
      ws_url ← on_server (XpraServer.start app_command extra_args use_xvfb) s;
      let c := PlaywrightClient.__init__ ws_url headless in
      assign (set_client (Some c));;
      on_client PlaywrightClient.connect c
  end.

(** [get_server_logs()]. *)
Definition get_server_logs (self : t) : string :=
  match server self with
  | Some s => XpraServer.get_logs s
  | None => "No server running"
  end.

(** [save_screenshot(path)]. *)
Definition save_screenshot (path : string) : C (t * Machine) unit :=
  self ← this;
  match client self with
  | Some c => on_client (PlaywrightClient.screenshot path) c
  | None => throw (Std (RuntimeError "No client connected"))
  end.

(** [assert_server_running()]. *)
Definition assert_server_running : C (t * Machine) unit :=
  self ← this;
  match server self with
  | None => throw (AssertionError "No server instance")
  | Some s =>
      m ← machine;
      if XpraServer.is_running s (m_world m) then mret tt
      else throw (AssertionError "Server is not running")
  end.

End XpraGUITestCase.

(** ** [conftest.py]: the fixtures *)

Module Conftest.

(** Fixture [xpra_server]: the server it yields, and its cleanup. *)
Definition xpra_server (w : World) : XpraServer.t :=
  XpraServer.__init__ "127.0.0.1" None w.

Definition xpra_server_cleanup : M (XpraServer.t * World) unit :=
  s ← self;
  w ← world;
  if XpraServer.is_running s w then XpraServer.stop XpraServer.default_timeout
  else mret tt.

(** Fixture [xpra_server_with_display]: [_create_client(app_command,
    headless, use_xvfb)], on the server of [xpra_server]; the client is a
    local object, handed to the caller when [connect] has returned. *)
Definition _create_client (app_command : string) (headless use_xvfb : bool)
  : C (XpraServer.t * Machine) PlaywrightClient.t :=
  s ← this;
  m ← machine;
  if XpraServer.is_running s (m_world m)
  then throw (Std (RuntimeError "Server already running"))
  else
    ws_url ← server_call (XpraServer.start app_command None use_xvfb);
    local_client PlaywrightClient.connect
      (PlaywrightClient.__init__ ws_url headless).

(** Fixture [gui_client]: class [_GUIClientFixture]; its [server] is the
    object of the fixture [xpra_server]. *)
Module _GUIClientFixture.

Record t := {
  server : XpraServer.t;
  client : option PlaywrightClient.t;
}.

Definition __init__ (s : XpraServer.t) : t :=
  {| server := s; client := None |}.

Definition set_server (v : XpraServer.t) (self : t) : t :=
  {| server := v; client := client self |}.
Definition set_client (v : option PlaywrightClient.t) (self : t) : t :=
  {| server := server self; client := v |}.

(** A method of [self.server]. *)
Definition on_server {A} (m : M (XpraServer.t * World) A)
  : C (t * Machine) A :=
  λ tm, match server_call m (server tm.1, tm.2) with
        | (r, (s', m')) => (r, (set_server s' tm.1, m'))
        end.

(** [start_and_connect(app_command, headless, use_xvfb)]; what it returns
    is [self.client]. *)
Definition start_and_connect (app_command : string) (headless use_xvfb : bool)
  : C (t * Machine) unit :=
  self ← this;
  match client self with
  | Some _ => throw (Std (RuntimeError "Client already connected"))
  | None =>
      ws_url ← on_server (XpraServer.start app_command None use_xvfb);
      let c := PlaywrightClient.__init__ ws_url headless in
      assign (set_client (Some c));;
      client_call (λ c', set_client (Some c')) PlaywrightClient.connect c
  end.

(** [disconnect()]. *)
Definition disconnect : C (t * Machine) unit :=
  self ← this;
  match client self with
  | Some c =>
      client_call (λ c', set_client (Some c')) PlaywrightClient.disconnect c;;
      assign (set_client None)
  | None => mret tt
  end.

(** [__exit__], also the cleanup of the fixture [gui_client]. *)
Definition __exit__ : C (t * Machine) unit := disconnect.

End _GUIClientFixture.

End Conftest.

(** ** Vocabulary of the statements about the callers *)

(** The machine after the call [c] into Playwright. *)
Definition after_call (c : call) (m : Machine) : Machine :=
  {| m_world := advance (m_elapsed m (m_calls m) c) (m_world m);
     m_calls := m_calls m ++ [c];
     m_reply := m_reply m;
     m_elapsed := m_elapsed m |}.

(** The waits of [_wait_for_canvas] for the given selectors. *)
Definition waits (pg : nat) (timeout : Z) (sels : list string) : list call :=
  (λ selector, WaitForSelector pg selector timeout) <$> sels.

(** Made one after the other from machine [m] on, each of the calls [cs]
    raises. *)
Definition all_throw (m : Machine) (cs : list call) : Prop :=
  ∀ i c, cs !! i = Some c →
         ∃ e, m_reply m (m_calls m ++ take i cs) c = Throws e.

(** The calls of a [connect] that goes through, when [n] calls were made
    before: the objects are named by the positions of the calls that made
    them. *)
Definition connect_script (n : nat) (c : PlaywrightClient.t) : list call :=
  [ImportSyncApi;
   SyncPlaywrightStart;
   ChromiumLaunch (n + 1) (PlaywrightClient.headless c);
   NewPage (n + 2);
   Goto (n + 3) (PlaywrightClient.page_url (PlaywrightClient.ws_url c))]
  ++ waits (n + 3) 10000 PlaywrightClient.selectors.

(** The error of every operation of a client that is not connected. *)
Definition not_connected : exception := Std (RuntimeError "Not connected").

(** A machine on which every call into Playwright returns [None] at
    once, and one on which no selector ever appears. *)
Definition obliging (w : World) : Machine :=
  {| m_world := w; m_calls := [];
     m_reply := λ _ _, Returns PyNone;
     m_elapsed := λ _ _, 0 |}.

Definition blank_page (w : World) : Machine :=
  {| m_world := w; m_calls := [];
     m_reply := λ _ c, match c with
                       | WaitForSelector _ _ _ =>
                           Throws (PlaywrightError "Timeout exceeded")
                       | _ => Returns PyNone
                       end;
     m_elapsed := λ _ c, match c with
                         | WaitForSelector _ _ timeout => timeout
                         | _ => 0
                         end |}.

(** The calls of a [disconnect] that goes through. *)
Definition closes (c : PlaywrightClient.t) : list call :=
  match PlaywrightClient.browser c with
  | Some b => [BrowserClose b]
  | None => []
  end
  ++ match PlaywrightClient.playwright c with
     | Some pw => [PlaywrightStop pw]
     | None => []
     end.

(** [old in s] for strings. *)
Fixpoint str_in (old s : string) : bool :=
  Py.startswith s old
  || match s with
     | "" => false
     | String _ rest => str_in old rest
     end.

(** * Properties *)

(** ** The monad *)

(** A bind is run by running its first part and continuing with what it
    gives. *)
Lemma bind_eval {S A B} (m : M S A) (k : A → M S B) (s s1 : S)
    (o : outcome A) (r : outcome B * S) :
  m s = (o, s1) →
  match o with
  | Ok a => k a s1
  | Raise e => (Raise e, s1)
  | Hang => (Hang, s1)
  end = r →
  (m ≫= k) s = r.
Proof.
  intros Hm Hk. unfold mbind, M_bind. rewrite Hm. by destruct o.
Qed.

(** What is known when a bind returned normally. *)
Lemma bind_inv_ok {S A B} (m : M S A) (k : A → M S B) (s s2 : S) (b : B) :
  (m ≫= k) s = (Ok b, s2) →
  ∃ a s1, m s = (Ok a, s1) ∧ k a s1 = (Ok b, s2).
Proof.
  unfold mbind, M_bind. destruct (m s) as [[a|e|] s1]; [eauto|done..].
Qed.

Lemma pair_eval {S A} (m : M S A) (s : S) (o : outcome A) :
  (m s).1 = o → m s = (o, (m s).2).
Proof. intros <-. by destruct (m s). Qed.

Lemma os_eval {X A} (m : M World A) (x : X) (w w' : World) (o : outcome A) :
  m w = (o, w') → os m (x, w) = (o, (x, w')).
Proof. unfold os. simpl. by intros ->. Qed.

Lemma ret_run {S A} (a : A) (s : S) : (mret a : M S A) s = (Ok a, s).
Proof. reflexivity. Qed.

Lemma raise_run {S A} (e : exn) (s : S) : raise (A:=A) e s = (Raise e, s).
Proof. reflexivity. Qed.

Lemma update_run {X} (f : X → X) (x : X) (w : World) :
  update f (x, w) = (Ok tt, (f x, w)).
Proof. reflexivity. Qed.

Lemma self_run {X} (x : X) (w : World) : self (x, w) = (Ok x, (x, w)).
Proof. reflexivity. Qed.

Lemma world_run {X} (x : X) (w : World) : world (x, w) = (Ok w, (x, w)).
Proof. reflexivity. Qed.

Lemma get_run {S} (s : S) : get s = (Ok s, s).
Proof. reflexivity. Qed.

Lemma gets_run {S A} (f : S → A) (s : S) : gets f s = (Ok (f s), s).
Proof. reflexivity. Qed.

(** The system calls that cannot fail. *)
Lemma sleep_ok ms w : (sleep ms w).1 = Ok tt.
Proof. reflexivity. Qed.
Lemma terminate_ok h w : (terminate h w).1 = Ok tt.
Proof. reflexivity. Qed.
Lemma kill_ok h w : (kill h w).1 = Ok tt.
Proof. reflexivity. Qed.
Lemma join_ok tid t w : (join tid t w).1 = Ok tt.
Proof. reflexivity. Qed.
Lemma warn_ok msg w : (warn msg w).1 = Ok tt.
Proof. reflexivity. Qed.
Lemma Thread_start_ok stream prefix w :
  (Thread_start stream prefix w).1 = Ok (length (w_threads w)).
Proof. reflexivity. Qed.

(** Reading attributes of records that are given explicitly. *)
Ltac fields :=
  cbn [fst snd
    XpraServer.host XpraServer.port XpraServer.display XpraServer.process
    XpraServer.log_capture XpraServer.xvfb_process XpraServer.platform
    XpraServer.set_display XpraServer.set_process XpraServer.set_log_capture
    XpraServer.set_xvfb_process
    LogCapture.stdout_thread LogCapture.stderr_thread LogCapture.buffer
    LogCapture.stop_event LogCapture.set_stdout_thread
    LogCapture.set_stderr_thread LogCapture.set_buffer
    LogCapture.set_stop_event].

(** Symbolic execution of a goal [m s = r]: the calls whose result is
    known are run one after the other; [extra] runs the calls that have
    lemmas of their own. *)
Ltac meval_with extra :=
  fields;
  lazymatch goal with
  | |- (?m ≫= ?k) ?s = _ =>
      eapply bind_eval; [meval_with extra | meval_with extra]
  | |- update _ _ = _ => apply update_run
  | |- self _ = _ => apply self_run
  | |- world _ = _ => apply world_run
  | |- mret _ _ = _ => apply ret_run
  | |- raise _ _ = _ => apply raise_run
  | |- get _ = _ => apply get_run
  | |- gets _ _ = _ => apply gets_run
  | |- os (sleep _) _ = _ => apply os_eval; apply pair_eval; apply sleep_ok
  | |- os (terminate _) _ = _ =>
      apply os_eval; apply pair_eval; apply terminate_ok
  | |- os (kill _) _ = _ => apply os_eval; apply pair_eval; apply kill_ok
  | |- os (join _ _) _ = _ => apply os_eval; apply pair_eval; apply join_ok
  | |- os (warn _) _ = _ => apply os_eval; apply pair_eval; apply warn_ok
  | |- os (Thread_start _ _) _ = _ =>
      apply os_eval; apply pair_eval; apply Thread_start_ok
  | |- _ => first [extra | idtac]
  end.
Ltac meval := meval_with fail.

(** Run the left-hand side of [m s = r], then compare. *)
Ltac mrun_with extra := etransitivity; [meval_with extra|].
Ltac mrun := mrun_with fail.

(** ** Python built-ins *)

Example int_information_separator :
  Py.int (String "028" "100") = None ∧ Py.int ("100" +:+ String "031" "") = None.
Proof. split; reflexivity. Qed.
Example int_c_whitespace :
  Py.int (String "011" (String "009" "100" +:+ String "012" (String "013" "")))
  = Some 100.
Proof. reflexivity. Qed.
Example int_plain : Py.int "100" = Some 100.
Proof. reflexivity. Qed.
Example int_leading_zero : Py.int "0100" = Some 100.
Proof. reflexivity. Qed.
Example int_signed : Py.int "-7" = Some (-7).
Proof. reflexivity. Qed.
Example int_spaces : Py.int " 42 " = Some 42.
Proof. reflexivity. Qed.
Example int_underscore : Py.int "1_0" = Some 10.
Proof. reflexivity. Qed.
Example int_double_underscore : Py.int "1__0" = None.
Proof. reflexivity. Qed.
Example int_trailing_underscore : Py.int "10_" = None.
Proof. reflexivity. Qed.
Example int_empty : Py.int "" = None.
Proof. reflexivity. Qed.
Example int_lock_suffix : Py.int "100-lock" = None.
Proof. reflexivity. Qed.
Example rstrip_crlf : Py.rstrip Py.LF_CR ("ab" +:+ Py.LF_CR) = "ab".
Proof. reflexivity. Qed.
Example rstrip_inner : Py.rstrip Py.LF_CR ("a" +:+ Py.newline +:+ "b") = "a" +:+ Py.newline +:+ "b".
Proof. reflexivity. Qed.
Example join_three : Py.join ", " ["a"; "b"; "c"] = "a, b, c".
Proof. reflexivity. Qed.
Example path_join_socket :
  Py.path_join "/tmp/.X11-unix" "X100" = "/tmp/.X11-unix/X100".
Proof. reflexivity. Qed.

(** ** A full run on Linux *)

Example demo_start_url :
  (XpraServer.start "xeyes" None true (Demo.server Demo.linux, Demo.linux)).1
  = Ok "ws://127.0.0.1:14500/".
Proof. vm_compute. reflexivity. Qed.

(** ** [start] on a session that already has a main process *)

(** C1. [start] on a session whose main process handle is recorded raises
    [RuntimeError("Server already running")] (the spec's
    AlreadyRunningError) at once: the session, including the recorded
    handle, and the world, including its trace of spawns and other actions,
    are exactly what they were. *)
Theorem start_already_running (app_command : string)
    (extra_args : option (list string)) (use_xvfb : bool)
    (s : XpraServer.t) (w : World) (proc : Popen) :
  XpraServer.process s = Some proc →
  XpraServer.start app_command extra_args use_xvfb (s, w)
  = (Raise (RuntimeError "Server already running"), (s, w)).
Proof.
  intros Hproc.
  unfold XpraServer.start, XpraServer.launch.
  eapply bind_eval.
  - eapply bind_eval; [apply self_run|]. cbn beta iota. rewrite Hproc.
    apply raise_run.
  - reflexivity.
Qed.

Lemma start_already_running_witness :
  XpraServer.start "xcalc" None true (Demo.running, Demo.darwin)
  = (Raise (RuntimeError "Server already running"),
     (Demo.running, Demo.darwin)).
Proof.
  exact (start_already_running "xcalc" None true Demo.running Demo.darwin
           Demo.child eq_refl).
Defined.

(** ** Processes and signals *)

Lemma status_of_emit e w p : status_of (emit e w) p = status_of w p.
Proof. reflexivity. Qed.

Lemma status_of_advance t w p :
  status_of (advance t w) p = age (Z.max 0 t) (status_of w p).
Proof.
  unfold status_of, advance. simpl. rewrite lookup_fmap.
  by destruct (w_procs w !! p).
Qed.

Lemma status_of_signal_eq f w p :
  f (Exited 0) = Exited 0 →
  status_of (signal f p w) p = f (status_of w p).
Proof.
  intros Hf. unfold status_of, signal. simpl. rewrite lookup_alter_eq.
  by destruct (w_procs w !! p).
Qed.

Lemma status_of_signal_ne f w p q :
  p ≠ q → status_of (signal f p w) q = status_of w q.
Proof.
  intros Hne. unfold status_of, signal. simpl. by rewrite lookup_alter_ne.
Qed.

Lemma age_exited t rc : age t (Exited rc) = Exited rc.
Proof. reflexivity. Qed.

Lemma age_to_exit st r :
  time_to_exit st = Some r → ∃ rc, age (Z.max 0 r) st = Exited rc.
Proof.
  destruct st as [[l|] d|q|rc]; simpl; intros [= <-]; eauto.
  - rewrite decide_True by lia. eauto.
  - rewrite decide_True by lia. eauto.
Qed.

Lemma on_sigkill_exited st : ∃ rc, on_sigkill st = Exited rc.
Proof. destruct st; simpl; eauto. Qed.

Lemma has_exited_emit e w proc : has_exited w proc → has_exited (emit e w) proc.
Proof. done. Qed.

Lemma has_exited_advance t w proc :
  has_exited w proc → has_exited (advance t w) proc.
Proof.
  intros [rc Hrc]. exists rc. by rewrite status_of_advance, Hrc.
Qed.

Lemma has_exited_signal f w p proc :
  (∀ rc, f (Exited rc) = Exited rc) →
  has_exited w proc → has_exited (signal f p w) proc.
Proof.
  intros Hf [rc Hrc]. exists rc.
  destruct (decide (p = pid proc)) as [->|Hne].
  - by rewrite status_of_signal_eq, Hrc.
  - by rewrite status_of_signal_ne.
Qed.

Lemma wait_expires_emit e w p t :
  wait_expires (emit e w) p t = wait_expires w p t.
Proof. reflexivity. Qed.

(** The [try]/[except] block of [stop], step by step. *)
Lemma shut_down_unfold proc timeout w :
  XpraServer.shut_down proc timeout w
  = let w1 := signal on_sigterm (pid proc) (emit (EvTerminate (pid proc)) w) in
    let w2 := emit (EvWait (pid proc) (Some timeout)) w1 in
    if wait_expires w2 (pid proc) (1000 * timeout) then
      let w3 := signal on_sigkill (pid proc)
                  (emit (EvKill (pid proc)) (advance (1000 * timeout) w2)) in
      let w4 := emit (EvWait (pid proc) None) w3 in
      match time_to_exit (status_of w4 (pid proc)) with
      | Some r => (Ok tt, advance r w4)
      | None => (Hang, w4)
      end
    else
      (Ok tt, advance (default 0 (time_to_exit (status_of w2 (pid proc)))) w2).
Proof.
  cbv [XpraServer.shut_down try_except_timeout terminate wait_timeout kill
       wait mbind M_bind].
  cbv zeta.
  destruct (wait_expires _ _ _); [|done].
  by destruct (time_to_exit _).
Qed.

(** The [try]/[except] block of [stop] never raises and never blocks for
    ever; it leaves the process exited and performs exactly the events of
    [escalation]. *)
Lemma shut_down_run proc timeout w :
  (XpraServer.shut_down proc timeout w).1 = Ok tt
  ∧ w_trace (XpraServer.shut_down proc timeout w).2
    = w_trace w ++ escalation w proc timeout
  ∧ has_exited (XpraServer.shut_down proc timeout w).2 proc
  ∧ w_threads (XpraServer.shut_down proc timeout w).2 = w_threads w
  ∧ ∀ other, has_exited w other →
             has_exited (XpraServer.shut_down proc timeout w).2 other.
Proof.
  rewrite shut_down_unfold. unfold escalation. cbv zeta.
  rewrite wait_expires_emit.
  set (w1 := signal on_sigterm (pid proc) (emit (EvTerminate (pid proc)) w)).
  change (wait_expires (signal on_sigterm (pid proc) w) (pid proc)
            (1000 * timeout))
    with (wait_expires w1 (pid proc) (1000 * timeout)).
  assert (∀ other, has_exited w other → has_exited w1 other) as Hw1.
  { intros other Hother. unfold w1.
    apply has_exited_signal; [by intros; simpl|]. by apply has_exited_emit. }
  destruct (wait_expires w1 (pid proc) (1000 * timeout)) eqn:Hexp.
  - (* the bounded wait expired: kill, then wait *)
    set (w2 := advance (1000 * timeout)
                 (emit (EvWait (pid proc) (Some timeout)) w1)).
    rewrite status_of_emit, status_of_signal_eq by done.
    destruct (on_sigkill_exited
                (status_of (emit (EvKill (pid proc)) w2) (pid proc)))
      as [rc Hrc].
    rewrite Hrc. simpl.
    split; [done|]. split; [by rewrite <- !app_assoc|].
    split.
    + exists rc. rewrite status_of_advance, status_of_emit.
      rewrite status_of_signal_eq by done. by rewrite Hrc.
    + split; [done|]. intros other Hother.
      apply has_exited_advance, has_exited_emit, has_exited_signal;
        [by intros; simpl|].
      apply has_exited_emit. unfold w2.
      by apply has_exited_advance, has_exited_emit, Hw1.
  - (* the process exited within the timeout *)
    simpl. split; [done|]. split; [by rewrite <- !app_assoc|].
    assert (∃ r, time_to_exit (status_of w1 (pid proc)) = Some r) as [r Hr].
    { unfold wait_expires in Hexp.
      destruct (status_of w1 (pid proc)) as [[l|] d|q|rc]; simpl in *; eauto;
        done. }
    rewrite status_of_emit, Hr. simpl.
    split.
    + destruct (age_to_exit _ _ Hr) as [rc Hrc]. exists rc.
      by rewrite status_of_advance, status_of_emit.
    + split; [done|]. intros other Hother.
      by apply has_exited_advance, has_exited_emit, Hw1.
Qed.

(** ** [stop] *)

Lemma join_run tid t w :
  join tid t w = (Ok tt, (join tid t w).2)
  ∧ w_trace (join tid t w).2 = w_trace w ++ [EvJoin tid t]
  ∧ w_threads (join tid t w).2 = w_threads w
  ∧ ∀ proc, has_exited w proc → has_exited (join tid t w).2 proc.
Proof.
  unfold join. simpl. repeat split.
  - by destruct (thread_finished _ _).
  - by destruct (thread_finished _ _).
  - intros proc Hproc. destruct (thread_finished _ _).
    + by apply has_exited_emit.
    + by apply has_exited_advance, has_exited_emit.
Qed.

(** [LogCapture.stop] sets the flag and joins the recorded threads; it
    never raises. *)
Lemma capture_stop_run lc w :
  (LogCapture.stop (lc, w)).1 = Ok tt
  ∧ (LogCapture.stop (lc, w)).2.1 = LogCapture.set_stop_event true lc
  ∧ w_trace (LogCapture.stop (lc, w)).2.2 = w_trace w ++ joins lc
  ∧ w_threads (LogCapture.stop (lc, w)).2.2 = w_threads w
  ∧ ∀ proc, has_exited w proc → has_exited (LogCapture.stop (lc, w)).2.2 proc.
Proof.
  assert (LogCapture.stop (lc, w)
          = (Ok tt,
             (LogCapture.set_stop_event true lc,
              match LogCapture.stderr_thread lc with
              | Some t2 =>
                  (join t2 2
                     match LogCapture.stdout_thread lc with
                     | Some t1 => (join t1 2 w).2
                     | None => w
                     end).2
              | None =>
                  match LogCapture.stdout_thread lc with
                  | Some t1 => (join t1 2 w).2
                  | None => w
                  end
              end))) as ->.
  { unfold LogCapture.stop. destruct lc as [[t1|] [t2|] buf ev]; meval. }
  unfold joins. cbn [fst snd].
  destruct (LogCapture.stdout_thread lc) as [t1|],
           (LogCapture.stderr_thread lc) as [t2|].
  - destruct (join_run t1 2 w) as (_ & Ha & Hb & Hc).
    destruct (join_run t2 2 (join t1 2 w).2) as (_ & Ha' & Hb' & Hc').
    repeat split; [by rewrite Ha', Ha, <- app_assoc|congruence|auto].
  - destruct (join_run t1 2 w) as (_ & Ha & Hb & Hc).
    repeat split; rewrite ?app_nil_r; auto.
  - destruct (join_run t2 2 w) as (_ & Ha & Hb & Hc).
    repeat split; rewrite ?app_nil_r; auto.
  - repeat split; rewrite ?app_nil_r; auto.
Qed.

Lemma on_log_eval {A} (m : M (LogCapture.t * World) A) s w o lc w' :
  m (XpraServer.log_capture s, w) = (o, (lc, w')) →
  XpraServer.on_log m (s, w) = (o, (XpraServer.set_log_capture lc s, w')).
Proof. unfold XpraServer.on_log. simpl. by intros ->. Qed.

Lemma shut_down_ok proc timeout w :
  (XpraServer.shut_down proc timeout w).1 = Ok tt.
Proof. by destruct (shut_down_run proc timeout w) as (? & _). Qed.

Lemma capture_stop_eval lc w :
  LogCapture.stop (lc, w)
  = (Ok tt, (LogCapture.set_stop_event true lc, (LogCapture.stop (lc, w)).2.2)).
Proof.
  destruct (capture_stop_run lc w) as (Ho & Hlc & _).
  destruct (LogCapture.stop (lc, w)) as [o [lc' w']]. simpl in *. congruence.
Qed.

Ltac meval_stop :=
  idtac;
  lazymatch goal with
  | |- os (XpraServer.shut_down _ _) _ = _ =>
      apply os_eval; apply pair_eval; apply shut_down_ok
  | |- XpraServer.on_log LogCapture.stop _ = _ =>
      apply on_log_eval; apply capture_stop_eval
  end.

(** [stop] in closed form. *)
Lemma stop_run timeout s w :
  XpraServer.stop timeout (s, w)
  = (Ok tt,
     (stopped s,
      match XpraServer.xvfb_process s with
      | Some helper =>
          (XpraServer.shut_down helper 5 (world_after_main timeout s w)).2
      | None => world_after_main timeout s w
      end)).
Proof.
  unfold XpraServer.stop, world_after_main, world_after_capture.
  destruct s as [h p d [proc|] lc [helper|] plat]; mrun_with meval_stop;
    unfold stopped; fields; reflexivity.
Qed.

Lemma is_running_spec s w :
  XpraServer.is_running s w = true
  ↔ ∃ proc, XpraServer.process s = Some proc ∧ poll w proc = None.
Proof.
  unfold XpraServer.is_running. destruct (XpraServer.process s) as [proc|].
  - rewrite bool_decide_eq_true. split; [eauto|]. by intros (? & [= <-] & ?).
  - split; [done|]. by intros (? & ? & ?).
Qed.

(** C2. [stop(timeout)] always returns normally, whatever the processes do
    on SIGTERM; in the session it leaves, the main and the helper process
    handle are both cleared (every other attribute but the stop flag of the
    capture is as before), so [is_running()] is false in the world [stop]
    returns in and in every later one.  And [is_running()] is true exactly
    when a main process handle is recorded and [poll()] reports that the
    process has not exited. *)
Theorem stop_returns_idle (timeout : Z) (s : XpraServer.t) (w : World) :
  (XpraServer.stop timeout (s, w)).1 = Ok tt
  ∧ (XpraServer.stop timeout (s, w)).2.1 = stopped s
  ∧ XpraServer.process (XpraServer.stop timeout (s, w)).2.1 = None
  ∧ XpraServer.xvfb_process (XpraServer.stop timeout (s, w)).2.1 = None
  ∧ (∀ later,
       XpraServer.is_running (XpraServer.stop timeout (s, w)).2.1 later = false)
  ∧ (∀ s0 w0,
       XpraServer.is_running s0 w0 = true
       ↔ ∃ proc, XpraServer.process s0 = Some proc ∧ poll w0 proc = None).
Proof.
  rewrite stop_run. cbn [fst snd].
  split; [done|]. split; [done|]. split; [done|]. split; [done|].
  split; [done|]. apply is_running_spec.
Qed.

(** C3. [stop(timeout)] never raises.  After the joins of the capture, the
    actions on the main process are SIGTERM and a wait bounded by
    [timeout], followed by SIGKILL and an unbounded wait exactly when the
    bounded wait expires; the helper, when one is recorded, then goes
    through the same sequence with its own fixed timeout of 5 s (less than
    the default 10 s of [timeout]), whichever way the main process went.
    Both processes have exited when [stop] returns. *)
Theorem stop_escalates (timeout : Z) (s : XpraServer.t) (w : World) :
  (XpraServer.stop timeout (s, w)).1 = Ok tt
  ∧ w_trace (XpraServer.stop timeout (s, w)).2.2
    = w_trace w
      ++ joins (XpraServer.log_capture s)
      ++ match XpraServer.process s with
         | Some proc => escalation (world_after_capture s w) proc timeout
         | None => []
         end
      ++ match XpraServer.xvfb_process s with
         | Some helper => escalation (world_after_main timeout s w) helper 5
         | None => []
         end
  ∧ (∀ w0 proc t,
       EvKill (pid proc) ∈ escalation w0 proc t
       ↔ wait_expires (signal on_sigterm (pid proc) w0) (pid proc) (1000 * t)
         = true)
  ∧ (∀ proc, XpraServer.process s = Some proc →
             has_exited (XpraServer.stop timeout (s, w)).2.2 proc)
  ∧ (∀ helper, XpraServer.xvfb_process s = Some helper →
               has_exited (XpraServer.stop timeout (s, w)).2.2 helper)
  ∧ 5 < XpraServer.default_timeout.
Proof.
  rewrite stop_run. cbn [fst snd].
  split; [done|].
  assert (w_trace (world_after_main timeout s w)
          = w_trace w ++ joins (XpraServer.log_capture s)
            ++ match XpraServer.process s with
               | Some proc => escalation (world_after_capture s w) proc timeout
               | None => []
               end) as Hmain.
  { unfold world_after_main.
    destruct (capture_stop_run (XpraServer.log_capture s) w) as (_ & _ & Ht & _).
    fold (world_after_capture s w) in Ht.
    destruct (XpraServer.process s) as [proc|].
    - destruct (shut_down_run proc timeout (world_after_capture s w))
        as (_ & Ht' & _).
      by rewrite Ht', Ht, <- app_assoc.
    - by rewrite Ht, app_nil_r. }
  split.
  { destruct (XpraServer.xvfb_process s) as [helper|].
    - destruct (shut_down_run helper 5 (world_after_main timeout s w))
        as (_ & Ht & _).
      by rewrite Ht, Hmain, <- !app_assoc.
    - by rewrite Hmain, app_nil_r. }
  split.
  { intros w0 proc t. unfold escalation.
    destruct (wait_expires _ _ _).
    - split; [done|]. intros _. set_solver.
    - split; [|done]. rewrite app_nil_r.
      intros Hin. apply list_elem_of_In in Hin. simpl in Hin.
      by destruct Hin as [|[|[]]]. }
  split.
  { intros proc Hproc.
    assert (has_exited (world_after_main timeout s w) proc) as Hex.
    { unfold world_after_main. rewrite Hproc.
      by destruct (shut_down_run proc timeout (world_after_capture s w))
        as (_ & _ & ? & _). }
    destruct (XpraServer.xvfb_process s) as [helper|]; [|done].
    destruct (shut_down_run helper 5 (world_after_main timeout s w))
      as (_ & _ & _ & _ & Hother).
    by apply Hother. }
  split; [|done].
  intros helper ->.
  by destruct (shut_down_run helper 5 (world_after_main timeout s w))
    as (_ & _ & ? & _).
Qed.

Example stop_graceful :
  let sw := (XpraServer.start "xeyes" None true
               (Demo.server Demo.linux, Demo.linux)).2 in
  w_trace (XpraServer.stop 10 sw).2.2
  = w_trace sw.2
    ++ [EvJoin 0 2; EvJoin 1 2;
        EvTerminate 4001; EvWait 4001 (Some 10);
        EvTerminate 4000; EvWait 4000 (Some 5)].
Proof. vm_compute. reflexivity. Qed.

Example stop_forced :
  let w := Demo.make "Linux" [] Demo.stubborn (Demo.ready_after 2500) in
  let sw := (XpraServer.start "xeyes" None true (Demo.server w, w)).2 in
  (XpraServer.stop 10 sw).1 = Ok tt
  ∧ w_trace (XpraServer.stop 10 sw).2.2
    = w_trace sw.2
      ++ [EvJoin 0 2; EvJoin 1 2;
          EvTerminate 4001; EvWait 4001 (Some 10);
          EvKill 4001; EvWait 4001 None;
          EvTerminate 4000; EvWait 4000 (Some 5)].
Proof. vm_compute. split; reflexivity. Qed.

(** ** [stop] on a session without processes *)

Lemma stopped_idle s :
  XpraServer.process s = None →
  XpraServer.xvfb_process s = None →
  stopped s
  = XpraServer.set_log_capture
      (LogCapture.set_stop_event true (XpraServer.log_capture s)) s.
Proof. destruct s. simpl. by intros -> ->. Qed.

(** C9, as the code has it.  [stop] on a session with neither a main nor a
    helper process recorded returns normally; both termination branches are
    skipped, so no signal is sent and no process is waited for.  The
    capture's [stop] sets the stop flag and joins every reader thread that
    is still recorded from the last [attach]: none on a session that was
    never started, so that the world is untouched and only the stop flag
    changes; both on a session that was started and stopped.  No other
    attribute changes, and a second [stop] in a row returns normally and
    leaves the session exactly as the first one left it. *)
Theorem stop_idle_session (timeout : Z) (s : XpraServer.t) (w : World) :
  XpraServer.process s = None →
  XpraServer.xvfb_process s = None →
  XpraServer.stop timeout (s, w)
  = (Ok tt,
     (XpraServer.set_log_capture
        (LogCapture.set_stop_event true (XpraServer.log_capture s)) s,
      world_after_capture s w))
  ∧ w_trace (world_after_capture s w)
    = w_trace w ++ joins (XpraServer.log_capture s)
  ∧ (LogCapture.stdout_thread (XpraServer.log_capture s) = None →
     LogCapture.stderr_thread (XpraServer.log_capture s) = None →
     world_after_capture s w = w)
  ∧ ∀ timeout',
      (XpraServer.stop timeout' (XpraServer.stop timeout (s, w)).2).1 = Ok tt
      ∧ (XpraServer.stop timeout' (XpraServer.stop timeout (s, w)).2).2.1
        = (XpraServer.stop timeout (s, w)).2.1.
Proof.
  intros Hproc Hhelper.
  rewrite stop_run, Hhelper. unfold world_after_main. rewrite Hproc.
  cbn [fst snd].
  rewrite stopped_idle by done.
  split; [done|]. split.
  { by destruct (capture_stop_run (XpraServer.log_capture s) w)
      as (_ & _ & ? & _). }
  split.
  { intros Hout Herr. unfold world_after_capture.
    assert (LogCapture.stop (XpraServer.log_capture s, w)
            = (Ok tt,
               (LogCapture.set_stop_event true (XpraServer.log_capture s), w)))
      as ->; [|done].
    unfold LogCapture.stop.
    destruct (XpraServer.log_capture s) as [o e buf ev]. simpl in Hout, Herr.
    subst o e. mrun. reflexivity. }
  intros timeout'. rewrite stop_run. cbn [fst snd]. split; [done|].
  destruct s as [h p d proc lc helper plat]. simpl in Hproc, Hhelper.
  by subst proc helper.
Qed.

Lemma stop_idle_session_witness :
  XpraServer.stop 10 (Demo.server Demo.darwin, Demo.darwin)
  = (Ok tt,
     (XpraServer.set_log_capture
        (LogCapture.set_stop_event true
           (XpraServer.log_capture (Demo.server Demo.darwin)))
        (Demo.server Demo.darwin),
      Demo.darwin)).
Proof.
  destruct (stop_idle_session 10 (Demo.server Demo.darwin) Demo.darwin
              eq_refl eq_refl) as (Hrun & _ & Hworld & _).
  rewrite Hrun, Hworld; reflexivity.
Defined.

(** C9 as stated fails twice: on a session that was started and stopped,
    the capture's [stop] does join reader threads (both of them are still
    recorded); on a session that was never started, the session state does
    change (the stop flag becomes set). *)
Lemma stop_idle_joins_and_sets_flag :
  let sw := (XpraServer.stop 10
               (XpraServer.start "xeyes" None true
                  (Demo.server Demo.linux, Demo.linux)).2).2 in
  (XpraServer.process sw.1 = None
   ∧ XpraServer.xvfb_process sw.1 = None
   ∧ w_trace (XpraServer.stop 10 sw).2.2
     = w_trace sw.2 ++ [EvJoin 0 2; EvJoin 1 2])
  ∧ (XpraServer.stop 10 (Demo.server Demo.linux, Demo.linux)).2.1
    ≠ Demo.server Demo.linux.
Proof.
  split.
  - vm_compute. repeat split; reflexivity.
  - vm_compute. intros [=].
Qed.

(** ** Display allocation *)





Lemma listdir_run path w :
  listdir path w
  = (match w_fs w !! path with
     | Some (Dir entries) => Ok entries
     | Some File => Raise (OSError "Not a directory")
     | None => Raise (OSError "No such file or directory")
     end, w).
Proof. unfold listdir. by destruct (w_fs w !! path) as [[?|]|]. Qed.

Lemma find_free_display_linux s w :
  XpraServer.platform s = "Linux" →
  XpraServer._find_free_display (s, w)
  = match w_fs w !! XpraServer.x11_socket_dir with
    | Some File => (Raise (OSError "Not a directory"), (s, w))
    | _ =>
        match XpraServer.scan_displays (in_use w) w XpraServer.candidates with
        | Some n => (Ok (":" +:+ Py.str n), (s, w))
        | None => (Raise (RuntimeError "Could not find free X11 display"),
                   (s, w))
        end
    end.
Proof.
  intros Hplat. unfold XpraServer._find_free_display, in_use.
  eapply bind_eval; [apply self_run|]. cbn beta iota.
  destruct (decide (XpraServer.platform s ≠ "Linux")) as [?|_]; [done|].
  eapply bind_eval; [apply world_run|]. cbn beta iota.
  unfold path_exists at 1.
  destruct (w_fs w !! XpraServer.x11_socket_dir) as [[names|]|] eqn:Hdir.
  - rewrite bool_decide_eq_true_2 by eauto.
    eapply bind_eval.
    { eapply bind_eval; [apply os_eval, listdir_run|].
      rewrite Hdir. apply ret_run. }
    cbn beta iota.
    destruct (XpraServer.scan_displays _ _ _); [apply ret_run|apply raise_run].
  - rewrite bool_decide_eq_true_2 by eauto.
    eapply bind_eval.
    { eapply bind_eval; [apply os_eval, listdir_run|].
      rewrite Hdir. reflexivity. }
    reflexivity.
  - rewrite bool_decide_eq_false_2 by (by intros [? ?]).
    eapply bind_eval; [apply ret_run|]. cbn beta iota.
    destruct (XpraServer.scan_displays _ _ _); [apply ret_run|apply raise_run].
Qed.






(** ** Platform gating *)

Lemma find_free_display_unsupported s w :
  XpraServer.platform s ≠ "Linux" →
  XpraServer._find_free_display (s, w)
  = (Raise (RuntimeError
              (XpraServer.unsupported_display (XpraServer.platform s))),
     (s, w)).
Proof.
  intros Hplat. unfold XpraServer._find_free_display.
  eapply bind_eval; [apply self_run|]. cbn beta iota.
  destruct (decide (XpraServer.platform s ≠ "Linux")) as [_|?]; [|done].
  apply raise_run.
Qed.

Lemma display_setup_not_linux s w :
  XpraServer.platform s ≠ "Linux" →
  XpraServer.display_setup true (s, w)
  = (Ok tt, (s, warned (XpraServer.platform s) w))
  ∧ XpraServer.display_setup false (s, w) = (Ok tt, (s, w)).
Proof.
  intros Hplat. unfold XpraServer.display_setup, warned. split.
  - eapply bind_eval; [apply self_run|]. cbn beta iota.
    rewrite bool_decide_eq_false_2 by done. cbn [andb].
    destruct (bool_decide _ || bool_decide _); [|apply ret_run].
    apply os_eval, pair_eval, warn_ok.
  - eapply bind_eval; [apply self_run|]. cbn beta iota.
    rewrite bool_decide_eq_false_2 by done. cbn [andb].
    destruct (bool_decide _ || bool_decide _); apply ret_run.
Qed.

Lemma launch_idle app_command extra_args use_xvfb s w :
  XpraServer.process s = None →
  XpraServer.launch app_command extra_args use_xvfb (s, w)
  = (XpraServer.display_setup use_xvfb
     ≫= λ _, XpraServer.spawn_xpra app_command extra_args) (s, w).
Proof.
  intros Hproc. unfold XpraServer.launch.
  eapply bind_eval; [apply self_run|]. cbn beta iota. by rewrite Hproc.
Qed.

(** ** Spawning the main process *)

Lemma Popen_new_run args pipes env w prog :
  w_programs w args = Some prog →
  Popen_new args pipes env w
  = (Ok (child_of w prog pipes), spawned args env prog w).
Proof. intros Hprog. unfold Popen_new. by rewrite Hprog. Qed.

Lemma Popen_new_missing args pipes env w :
  w_programs w args = None →
  Popen_new args pipes env w
  = (Raise (OSError "No such file or directory"), w).
Proof. intros Hprog. unfold Popen_new. by rewrite Hprog. Qed.

Lemma Thread_start_threads stream prefix w :
  w_threads (Thread_start stream prefix w).2
  = w_threads w
    ++ [{| rd_stream := stream; rd_prefix := prefix; rd_finished := false |}].
Proof. reflexivity. Qed.

Lemma attach_run proc lc w out err :
  stdout proc = Some out →
  stderr proc = Some err →
  LogCapture.attach proc (lc, w)
  = (Ok tt, (attached_capture w lc, attached out err w)).
Proof.
  intros Hout Herr. unfold LogCapture.attach. rewrite Hout, Herr.
  mrun. unfold attached_capture, attached.
  rewrite Thread_start_threads, length_app, Nat.add_1_r. reflexivity.
Qed.

Lemma spawn_xpra_run app_command extra_args s w prog :
  w_programs w (XpraServer.xpra_args s app_command extra_args) = Some prog →
  XpraServer.spawn_xpra app_command extra_args (s, w)
  = (Ok tt,
     (launched_session app_command extra_args prog s w,
      launched_world app_command extra_args prog s w)).
Proof.
  intros Hprog. unfold XpraServer.spawn_xpra.
  eapply bind_eval; [apply self_run|]. cbn beta iota.
  eapply bind_eval; [apply world_run|]. cbn beta iota.
  eapply bind_eval; [apply os_eval, Popen_new_run, Hprog|]. cbn beta iota.
  eapply bind_eval; [apply update_run|]. cbn beta iota.
  etransitivity; [by apply on_log_eval, attach_run|].
  destruct s. reflexivity.
Qed.

Lemma spawn_xpra_missing app_command extra_args s w :
  w_programs w (XpraServer.xpra_args s app_command extra_args) = None →
  XpraServer.spawn_xpra app_command extra_args (s, w)
  = (Raise (OSError "No such file or directory"), (s, w)).
Proof.
  intros Hprog. unfold XpraServer.spawn_xpra.
  eapply bind_eval; [apply self_run|]. cbn beta iota.
  eapply bind_eval; [apply world_run|]. cbn beta iota.
  eapply bind_eval; [apply os_eval, Popen_new_missing, Hprog|]. done.
Qed.

(** A spawn either fails, leaving everything as it was, or succeeds as
    [spawn_xpra_run] says. *)
Lemma spawn_xpra_inv app_command extra_args s w s1 w1 :
  XpraServer.spawn_xpra app_command extra_args (s, w) = (Ok tt, (s1, w1)) →
  ∃ prog,
    w_programs w (XpraServer.xpra_args s app_command extra_args) = Some prog
    ∧ s1 = launched_session app_command extra_args prog s w
    ∧ w1 = launched_world app_command extra_args prog s w.
Proof.
  destruct (w_programs w (XpraServer.xpra_args s app_command extra_args))
    as [prog|] eqn:Hprog.
  - rewrite (spawn_xpra_run _ _ _ _ _ Hprog). intros [= <- <-]. eauto.
  - by rewrite (spawn_xpra_missing _ _ _ _ Hprog).
Qed.

(** ** The readiness probe *)

Lemma probe_run h p w :
  XpraServer.probe h p w
  = match w_connect w h p (w_clock w) with
    | Connected => (Ok true, emit (EvConnect h p) w)
    | Refused => (Ok false, emit (EvConnect h p) w)
    | ConnectTimeout => (Ok false, advance 1000 (emit (EvConnect h p) w))
    | ConnectError _ => (Ok false, emit (EvConnect h p) w)
    end.
Proof.
  unfold XpraServer.probe, try_except_oserror, connect_ex, mbind, M_bind.
  by destruct (w_connect w h p (w_clock w)).
Qed.

Lemma wait_loop_S fuel start timeout h p w :
  XpraServer.wait_loop (S fuel) start timeout h p w
  = if decide (w_clock w - start < 1000 * timeout) then
      match XpraServer.probe h p w with
      | (Ok true, w1) => (Ok tt, w1)
      | (Ok false, w1) =>
          XpraServer.wait_loop fuel start timeout h p (sleep 200 w1).2
      | (Raise e, w1) => (Raise e, w1)
      | (Hang, w1) => (Hang, w1)
      end
    else (Raise (not_ready timeout), w).
Proof.
  cbn [XpraServer.wait_loop]. unfold mbind, M_bind, get. cbn beta iota.
  destruct (decide _); [|done].
  by destruct (XpraServer.probe h p w) as [[[]|?|] ?].
Qed.

(** An endpoint that accepts the first connection. *)
Lemma wait_loop_ready fuel start timeout h p w :
  w_clock w - start < 1000 * timeout →
  w_connect w h p (w_clock w) = Connected →
  XpraServer.wait_loop (S fuel) start timeout h p w
  = (Ok tt, emit (EvConnect h p) w).
Proof.
  intros Hlt Hconn. rewrite wait_loop_S, decide_True by done.
  by rewrite probe_run, Hconn.
Qed.


Lemma wait_for_socket_unfold timeout s w :
  XpraServer._wait_for_socket timeout (s, w)
  = ((XpraServer.wait_loop (XpraServer.wait_fuel timeout) (w_clock w) timeout
        (XpraServer.host s) (XpraServer.port s) w).1,
     (s,
      (XpraServer.wait_loop (XpraServer.wait_fuel timeout) (w_clock w) timeout
         (XpraServer.host s) (XpraServer.port s) w).2)).
Proof.
  unfold XpraServer._wait_for_socket.
  eapply bind_eval; [apply self_run|]. cbn beta iota.
  eapply bind_eval; [apply gets_run|]. cbn beta iota.
  apply os_eval. cbn [snd]. by destruct (XpraServer.wait_loop _ _ _ _ _ _).
Qed.


(** [_wait_for_socket] on an endpoint that accepts at once. *)
Lemma wait_for_socket_ready s w :
  w_connect w (XpraServer.host s) (XpraServer.port s) (w_clock w) = Connected →
  XpraServer._wait_for_socket 10 (s, w)
  = (Ok tt, (s, emit (EvConnect (XpraServer.host s) (XpraServer.port s)) w)).
Proof.
  intros Hconn. rewrite wait_for_socket_unfold. unfold XpraServer.wait_fuel.
  by rewrite wait_loop_ready by (done || lia).
Qed.

(** ** Display setup on Linux *)

Lemma start_xvfb_linux d s w :
  XpraServer.platform s = "Linux" →
  XpraServer._start_xvfb d (s, w)
  = match w_programs w (XpraServer.xvfb_cmd d) with
    | None => (Raise (OSError "No such file or directory"), (s, w))
    | Some prog =>
        let w1 := (sleep 500 (spawned (XpraServer.xvfb_cmd d) None prog w)).2 in
        match poll w1 (child_of w prog false) with
        | Some _ =>
            (Raise (RuntimeError ("Xvfb failed to start on " +:+ d)), (s, w1))
        | None => (Ok (child_of w prog false), (s, w1))
        end
    end.
Proof.
  intros Hplat. unfold XpraServer._start_xvfb.
  eapply bind_eval; [apply self_run|]. cbn beta iota.
  destruct (decide (XpraServer.platform s ≠ "Linux")) as [?|_]; [done|].
  destruct (w_programs w (XpraServer.xvfb_cmd d)) as [prog|] eqn:Hprog.
  - eapply bind_eval; [apply os_eval, Popen_new_run, Hprog|]. cbn beta iota.
    eapply bind_eval; [apply os_eval, pair_eval, sleep_ok|]. cbn beta iota.
    eapply bind_eval; [apply world_run|]. cbn beta iota zeta.
    destruct (poll _ _); [apply raise_run|apply ret_run].
  - eapply bind_eval; [apply os_eval, Popen_new_missing, Hprog|]. done.
Qed.

Lemma display_setup_linux s w :
  XpraServer.platform s = "Linux" →
  XpraServer.display_setup true (s, w)
  = match XpraServer._find_free_display (s, w) with
    | (Ok d, _) =>
        match XpraServer._start_xvfb d
                (XpraServer.set_display (Some d) s, w) with
        | (Ok x, (s1, w1)) =>
            (Ok tt, (XpraServer.set_xvfb_process (Some x) s1,
                     (sleep 1000 w1).2))
        | (Raise e, sw) => (Raise e, sw)
        | (Hang, sw) => (Hang, sw)
        end
    | (Raise e, _) => (Raise e, (s, w))
    | (Hang, _) => (Hang, (s, w))
    end
  ∧ XpraServer.display_setup false (s, w) = (Ok tt, (s, w)).
Proof.
  intros Hplat. split.
  - unfold XpraServer.display_setup.
    eapply bind_eval; [apply self_run|]. cbn beta iota.
    rewrite bool_decide_eq_true_2 by done. cbn [andb].
    assert ((XpraServer._find_free_display (s, w)).2 = (s, w)) as Hsame.
    { rewrite find_free_display_linux by done.
      destruct (w_fs w !! _) as [[?|]|]; [|done|];
        by destruct (XpraServer.scan_displays (in_use w) w _). }
    destruct (XpraServer._find_free_display (s, w)) as [[d|e|] sw] eqn:Hfind;
      cbn [snd] in Hsame; subst sw.
    + eapply bind_eval; [apply Hfind|]. cbn beta iota.
      eapply bind_eval; [apply update_run|]. cbn beta iota.
      destruct (XpraServer._start_xvfb d _) as [[x|e|] [s1 w1]] eqn:Hxvfb.
      * eapply bind_eval; [apply Hxvfb|]. cbn beta iota.
        eapply bind_eval; [apply update_run|]. cbn beta iota.
        apply os_eval, pair_eval, sleep_ok.
      * eapply bind_eval; [apply Hxvfb|]. done.
      * eapply bind_eval; [apply Hxvfb|]. done.
    + eapply bind_eval; [apply Hfind|]. done.
    + eapply bind_eval; [apply Hfind|]. done.
  - unfold XpraServer.display_setup.
    eapply bind_eval; [apply self_run|]. cbn beta iota.
    rewrite andb_false_r, Hplat. reflexivity.
Qed.

Lemma set_same s :
  XpraServer.set_xvfb_process (XpraServer.xvfb_process s)
    (XpraServer.set_display (XpraServer.display s) s) = s.
Proof. by destruct s. Qed.

(** What the display setup can do to the session and the world: it may set
    [display] to a display string and record the helper, and nothing
    else; it starts no thread. *)
Lemma display_setup_effect use_xvfb s w :
  ∃ d x,
    (XpraServer.display_setup use_xvfb (s, w)).2.1
    = XpraServer.set_xvfb_process x (XpraServer.set_display d s)
    ∧ (d = XpraServer.display s ∨ ∃ n, d = Some (":" +:+ Py.str n))
    ∧ ((XpraServer.display_setup use_xvfb (s, w)).1 = Ok tt →
       if bool_decide (XpraServer.platform s = "Linux") && use_xvfb
       then is_Some x ∧ ∃ n, d = Some (":" +:+ Py.str n)
       else d = XpraServer.display s ∧ x = XpraServer.xvfb_process s)
    ∧ w_threads (XpraServer.display_setup use_xvfb (s, w)).2.2 = w_threads w
    ∧ w_connect (XpraServer.display_setup use_xvfb (s, w)).2.2 = w_connect w.
Proof.
  assert (∀ w', w_threads w' = w_threads w → w_connect w' = w_connect w →
    ∃ d x,
      s = XpraServer.set_xvfb_process x (XpraServer.set_display d s)
      ∧ (d = XpraServer.display s ∨ ∃ n, d = Some (":" +:+ Py.str n))
      ∧ (d = XpraServer.display s ∧ x = XpraServer.xvfb_process s)
      ∧ w_threads w' = w_threads w
      ∧ w_connect w' = w_connect w) as Hsame.
  { intros w' ??. exists (XpraServer.display s), (XpraServer.xvfb_process s).
    rewrite set_same. eauto 10. }
  destruct (decide (XpraServer.platform s = "Linux")) as [Hplat|Hplat].
  - rewrite (bool_decide_eq_true_2 _ Hplat).
    destruct use_xvfb; cbn [andb].
    + rewrite (proj1 (display_setup_linux s w Hplat)).
      rewrite find_free_display_linux by done.
      destruct (w_fs w !! XpraServer.x11_socket_dir) as [[?|]|];
        try destruct (XpraServer.scan_displays (in_use w) w _) as [n|];
        cbn [fst snd];
        try (destruct (Hsame w) as (d & x & ? & ? & ? & ? & ?); [done..|];
             exists d, x; naive_solver).
      all: rewrite start_xvfb_linux by done.
      all: destruct (w_programs w _) as [prog|]; cbn zeta;
        try destruct (poll _ _); cbn [fst snd].
      all: try (exists (Some (":" +:+ Py.str n)), (XpraServer.xvfb_process s);
                split; [by destruct s|]; split; [eauto|]; by repeat split).
      all: exists (Some (":" +:+ Py.str n)), (Some (child_of w prog false)).
      all: split; [reflexivity|].
      all: split; [right; by exists n|].
      all: split; [intros _; split; [by eexists|by exists n]|].
      all: split; reflexivity.
    + rewrite (proj2 (display_setup_linux s w Hplat)). cbn [fst snd].
      destruct (Hsame w) as (d & x & ? & ? & ? & ? & ?); [done..|].
      exists d, x. naive_solver.
  - rewrite (bool_decide_eq_false_2 _ Hplat). cbn [andb].
    destruct use_xvfb.
    + rewrite (proj1 (display_setup_not_linux s w Hplat)). cbn [fst snd].
      destruct (Hsame (warned (XpraServer.platform s) w))
        as (d & x & ? & ? & ? & ? & ?).
      { unfold warned. by destruct (_ || _). }
      { unfold warned. by destruct (_ || _). }
      exists d, x. naive_solver.
    + rewrite (proj2 (display_setup_not_linux s w Hplat)). cbn [fst snd].
      destruct (Hsame w) as (d & x & ? & ? & ? & ? & ?); [done..|].
      exists d, x. naive_solver.
Qed.

(** ** [start] on the platforms without virtual displays *)

Lemma bind_congr {S A B} (m1 m2 : M S A) (k : A → M S B) (s1 s2 : S) :
  m1 s1 = m2 s2 → (m1 ≫= k) s1 = (m2 ≫= k) s2.
Proof. unfold mbind, M_bind. by intros ->. Qed.

Lemma contains_middle before p after : Py.contains (before +:+ p +:+ after) p.
Proof. by exists before, after. Qed.

Lemma warned_frame plat w :
  w_programs (warned plat w) = w_programs w
  ∧ w_connect (warned plat w) = w_connect w
  ∧ w_clock (warned plat w) = w_clock w
  ∧ w_threads (warned plat w) = w_threads w.
Proof. unfold warned. by destruct (_ || _). Qed.

(** [start] when the session is idle, the main program can be spawned and
    the endpoint accepts the first connection. *)
Lemma start_ready app_command extra_args s w prog :
  XpraServer.spawn_xpra app_command extra_args (s, w)
  = (Ok tt,
     (launched_session app_command extra_args prog s w,
      launched_world app_command extra_args prog s w)) →
  (∀ t, w_connect w (XpraServer.host s) (XpraServer.port s) t = Connected) →
  ((XpraServer.spawn_xpra app_command extra_args
    ≫= λ _, XpraServer._wait_for_socket 10
    ≫= λ _, self ≫= λ s1, mret (ws_url s1)) (s, w)).1
  = Ok (ws_url s).
Proof.
  intros Hspawn Hconn.
  erewrite bind_eval; [|apply Hspawn|cbn beta iota; reflexivity].
  erewrite bind_eval;
    [|apply wait_for_socket_ready|cbn beta iota; reflexivity].
  - erewrite bind_eval; [|apply self_run|cbn beta iota; apply ret_run].
    by destruct s.
  - destruct s; apply Hconn.
Qed.

Lemma warned_supported plat w :
  plat = "Darwin" ∨ plat = "Windows" →
  warned plat w = emit (EvWarn (XpraServer.xvfb_ignored plat)) w.
Proof. unfold warned. by intros [->| ->]. Qed.

(** C5.  On Darwin and on Windows, the platforms of the macOS and the
    Windows family, [_find_free_display] raises a [RuntimeError] (the
    spec's UnsupportedPlatformError) whose message contains the platform
    name, and changes nothing.  [start] with [use_xvfb=True] does not raise
    on account of the platform: its display setup returns normally, having
    issued the warning, which names the platform, and nothing else, so no
    display is allocated and no helper started; from an idle session
    [start] goes on exactly as [start] with [use_xvfb=False] does after the
    warning, and it returns the URL when the main program can be spawned
    and the endpoint accepts the connection. *)
Theorem platform_gating (app_command : string)
    (extra_args : option (list string)) (s : XpraServer.t) (w : World) :
  XpraServer.platform s = "Darwin" ∨ XpraServer.platform s = "Windows" →
  XpraServer._find_free_display (s, w)
  = (Raise (RuntimeError
              (XpraServer.unsupported_display (XpraServer.platform s))),
     (s, w))
  ∧ Py.contains (XpraServer.unsupported_display (XpraServer.platform s))
      (XpraServer.platform s)
  ∧ XpraServer.display_setup true (s, w)
    = (Ok tt,
       (s, emit (EvWarn (XpraServer.xvfb_ignored (XpraServer.platform s))) w))
  ∧ Py.contains (XpraServer.xvfb_ignored (XpraServer.platform s))
      (XpraServer.platform s)
  ∧ (XpraServer.process s = None →
     XpraServer.start app_command extra_args true (s, w)
     = XpraServer.start app_command extra_args false
         (s, emit (EvWarn (XpraServer.xvfb_ignored (XpraServer.platform s)))
               w))
  ∧ (XpraServer.process s = None →
     ∀ prog,
       w_programs w (XpraServer.xpra_args s app_command extra_args)
       = Some prog →
       (∀ t, w_connect w (XpraServer.host s) (XpraServer.port s) t
             = Connected) →
       (XpraServer.start app_command extra_args true (s, w)).1
       = Ok (ws_url s)).
Proof.
  intros Hfamily.
  assert (XpraServer.platform s ≠ "Linux") as Hplat.
  { by destruct Hfamily as [->| ->]. }
  rewrite <- (warned_supported _ w Hfamily).
  destruct (display_setup_not_linux s w Hplat) as [Htrue _].
  destruct (display_setup_not_linux s (warned (XpraServer.platform s) w) Hplat)
    as [_ Hfalse].
  assert (XpraServer.process s = None →
          XpraServer.launch app_command extra_args true (s, w)
          = XpraServer.spawn_xpra app_command extra_args
              (s, warned (XpraServer.platform s) w)) as Hlaunch.
  { intros Hproc. rewrite launch_idle by done.
    eapply bind_eval; [apply Htrue|]. done. }
  split; [by apply find_free_display_unsupported|].
  split; [apply contains_middle|].
  split; [done|].
  split; [apply contains_middle|].
  split.
  - intros Hproc. unfold XpraServer.start. apply bind_congr.
    rewrite Hlaunch by done. rewrite launch_idle by done.
    symmetry. eapply bind_eval; [apply Hfalse|]. done.
  - intros Hproc prog Hprog Hconn.
    destruct (warned_frame (XpraServer.platform s) w)
      as (Hprogs & Hconns & _).
    unfold XpraServer.start.
    erewrite (bind_congr (XpraServer.launch app_command extra_args true))
      by (apply Hlaunch, Hproc).
    apply (start_ready app_command extra_args s _ prog).
    + apply spawn_xpra_run. by rewrite Hprogs.
    + intros t. by rewrite Hconns.
Qed.

Lemma platform_gating_witness :
  XpraServer.display_setup true (Demo.server Demo.darwin, Demo.darwin)
  = (Ok tt,
     (Demo.server Demo.darwin,
      emit (EvWarn "use_xvfb=True is ignored on Darwin (native display is used instead)")
        Demo.darwin)).
Proof.
  destruct (platform_gating "xeyes" None (Demo.server Demo.darwin)
              Demo.darwin)
    as (_ & _ & Hsetup & _); [by left|].
  exact Hsetup.
Defined.

(** A platform name outside the three families, where the display setup
    of [start] does nothing at all: on FreeBSD [start] with
    [use_xvfb=True] returns the URL and issues no warning. *)
Example start_xvfb_silent_on_freebsd :
  XpraServer.platform (Demo.server Demo.freebsd) = "FreeBSD"
  ∧ (XpraServer.start "xeyes" None true
       (Demo.server Demo.freebsd, Demo.freebsd)).1
    = Ok "ws://127.0.0.1:14500/"
  ∧ Forall (λ e, ∀ msg, e ≠ EvWarn msg)
      (w_trace (XpraServer.start "xeyes" None true
                  (Demo.server Demo.freebsd, Demo.freebsd)).2.2).
Proof.
  split; [reflexivity|]. split; [vm_compute; reflexivity|].
  vm_compute. repeat constructor; discriminate.
Qed.

(** ** A [start] that reaches the readiness wait *)

(** What is known when [launch] returned: the session was idle, the display
    setup went through, and the main program was spawned from the session
    and the world the setup left. *)
Lemma launch_inv app_command extra_args use_xvfb s w s1 w1 :
  XpraServer.launch app_command extra_args use_xvfb (s, w)
  = (Ok tt, (s1, w1)) →
  ∃ d x w' prog,
    let s' := XpraServer.set_xvfb_process x (XpraServer.set_display d s) in
    XpraServer.process s = None
    ∧ XpraServer.display_setup use_xvfb (s, w) = (Ok tt, (s', w'))
    ∧ (d = XpraServer.display s ∨ ∃ n, d = Some (":" +:+ Py.str n))
    ∧ (if bool_decide (XpraServer.platform s = "Linux") && use_xvfb
       then is_Some x ∧ ∃ n, d = Some (":" +:+ Py.str n)
       else d = XpraServer.display s ∧ x = XpraServer.xvfb_process s)
    ∧ w_threads w' = w_threads w
    ∧ w_programs w' (XpraServer.xpra_args s' app_command extra_args)
      = Some prog
    ∧ s1 = launched_session app_command extra_args prog s' w'
    ∧ w1 = launched_world app_command extra_args prog s' w'.
Proof.
  intros Hlaunch.
  destruct (XpraServer.process s) as [proc|] eqn:Hproc.
  { unfold XpraServer.launch in Hlaunch.
    erewrite bind_eval in Hlaunch;
      [|apply self_run|cbn beta iota; rewrite Hproc; apply raise_run].
    done. }
  rewrite launch_idle in Hlaunch by done.
  apply bind_inv_ok in Hlaunch as ([] & [s' w'] & Hsetup & Hspawn).
  destruct (display_setup_effect use_xvfb s w)
    as (d & x & Hs' & Hd & Hok & Hthreads & _).
  rewrite Hsetup in Hs', Hok, Hthreads. cbn [fst snd] in Hs', Hok, Hthreads.
  subst s'.
  apply spawn_xpra_inv in Hspawn as (prog & Hprog & -> & ->).
  specialize (Hok eq_refl).
  exists d, x, w', prog. cbn zeta. by repeat (split; [done|]).
Qed.



(** ** What holds of every reachable session *)

Lemma bind_post {S A B} (P : S → Prop) (m : M S A) (k : A → M S B) (s : S) :
  P (m s).2 →
  (∀ a s1, m s = (Ok a, s1) → P (k a s1).2) →
  P ((m ≫= k) s).2.
Proof.
  intros Hm Hk. unfold mbind, M_bind.
  destruct (m s) as [[a|e|] s1] eqn:Hrun; [by apply Hk|done..].
Qed.

Lemma wait_loop_threads h p start timeout fuel :
  ∀ w,
    w_threads (XpraServer.wait_loop fuel start timeout h p w).2 = w_threads w.
Proof.
  induction fuel as [|fuel IH]; intros w; [done|].
  rewrite wait_loop_S. destruct (decide _); [|done].
  rewrite probe_run.
  destruct (w_connect w h p (w_clock w)); rewrite ?IH; done.
Qed.

Lemma session_ok_world s w w' :
  w_threads w' = w_threads w → session_ok (s, w) → session_ok (s, w').
Proof. unfold session_ok. simpl. by intros ->. Qed.

Lemma launched_ok app_command extra_args prog s w :
  session_ok (s, w) →
  session_ok (launched_session app_command extra_args prog s w,
              launched_world app_command extra_args prog s w).
Proof.
  intros (Hbuf & Hthreads & Hdisplay). split; [|split].
  - done.
  - unfold launched_world, attached. cbn [snd].
    rewrite !Thread_start_threads.
    apply Forall_app. split; [|constructor; [by right|constructor]].
    apply Forall_app. split; [done|]. constructor; [by left|constructor].
  - done.
Qed.

Lemma launch_ok app_command extra_args use_xvfb s w :
  session_ok (s, w) →
  session_ok (XpraServer.launch app_command extra_args use_xvfb (s, w)).2.
Proof.
  intros Hok. unfold XpraServer.launch.
  apply bind_post; [done|]. intros s0 sw [= <- <-].
  destruct (XpraServer.process s) as [proc|]; [done|].
  assert (session_ok (XpraServer.display_setup use_xvfb (s, w)).2) as Hsetup.
  { destruct (display_setup_effect use_xvfb s w)
      as (d & x & Hs' & Hd & _ & Hthreads & _).
    destruct (XpraServer.display_setup use_xvfb (s, w)) as [o [s' w']].
    cbn [fst snd] in *. subst s'.
    destruct Hok as (Hbuf & Hth & Hdisplay).
    unfold session_ok. fields. rewrite Hthreads.
    split; [done|]. split; [done|].
    destruct Hd as [->|?]; [done|by right]. }
  apply bind_post; [done|]. intros [] [s' w'] Hrun.
  rewrite Hrun in Hsetup. cbn [snd] in Hsetup.
  destruct (w_programs w' (XpraServer.xpra_args s' app_command extra_args))
    as [prog|] eqn:Hprog.
  - rewrite (spawn_xpra_run _ _ _ _ _ Hprog). by apply launched_ok.
  - by rewrite (spawn_xpra_missing _ _ _ _ Hprog).
Qed.

Lemma start_ok app_command extra_args use_xvfb sw :
  session_ok sw →
  session_ok (XpraServer.start app_command extra_args use_xvfb sw).2.
Proof.
  destruct sw as [s w]. intros Hok. unfold XpraServer.start.
  apply bind_post; [by apply launch_ok|]. intros [] [s1 w1] Hlaunch.
  assert (session_ok (s1, w1)) as Hok1.
  { pose proof (launch_ok app_command extra_args use_xvfb s w Hok) as H.
    by rewrite Hlaunch in H. }
  assert (session_ok (XpraServer._wait_for_socket 10 (s1, w1)).2) as Hwait.
  { rewrite wait_for_socket_unfold. cbn [snd].
    eapply session_ok_world; [|done]. apply wait_loop_threads. }
  apply bind_post; [done|]. intros [] sw2 Hrun.
  rewrite Hrun in Hwait. cbn [snd] in Hwait.
  apply bind_post; [by destruct sw2|]. intros s2 sw3 Hself.
  destruct sw2. by injection Hself as <- <-.
Qed.

Lemma stop_ok timeout sw :
  session_ok sw → session_ok (XpraServer.stop timeout sw).2.
Proof.
  destruct sw as [s w]. intros (Hbuf & Hthreads & Hdisplay).
  rewrite stop_run. cbn [snd].
  assert (w_threads (world_after_main timeout s w) = w_threads w) as Hmain.
  { unfold world_after_main, world_after_capture.
    destruct (capture_stop_run (XpraServer.log_capture s) w)
      as (_ & _ & _ & Hth & _).
    destruct (XpraServer.process s) as [proc|]; [|done].
    destruct (shut_down_run proc timeout
                (LogCapture.stop (XpraServer.log_capture s, w)).2.2)
      as (_ & _ & _ & Hth' & _).
    by rewrite Hth'. }
  split; [done|]. split; [|done]. cbn [snd].
  destruct (XpraServer.xvfb_process s) as [helper|]; [|by rewrite Hmain].
  destruct (shut_down_run helper 5 (world_after_main timeout s w))
    as (_ & _ & _ & Hth & _).
  by rewrite Hth, Hmain.
Qed.

(** What one iteration of a reader does to the buffer. *)
Lemma read_stream_buffer r lc :
  (LogCapture._read_stream r lc).2 = lc
  ∨ ∃ line,
      (LogCapture._read_stream r lc).2
      = LogCapture.set_buffer
          (LogCapture.buffer lc
           ++ [LogCapture.entry (rd_prefix r) (Py.rstrip Py.LF_CR line)]) lc.
Proof.
  unfold LogCapture._read_stream.
  destruct (LogCapture.readline (rd_stream r)) as [line rest].
  destruct (decide (line = "")); [by left|right]. by exists line.
Qed.

Lemma read_stream_prefix r lc :
  rd_prefix (LogCapture._read_stream r lc).1 = rd_prefix r.
Proof.
  unfold LogCapture._read_stream.
  destruct (LogCapture.readline (rd_stream r)) as [line rest].
  by destruct (decide (line = "")).
Qed.

Lemma step_ok sw sw' : step sw sw' → session_ok sw → session_ok sw'.
Proof.
  intros Hstep Hok. destruct Hstep as [app extra xv sw|timeout sw|s w
    |tid r s w Hr Hrun|t s w].
  - by apply start_ok.
  - by apply stop_ok.
  - destruct Hok as (_ & ? & ?). by split; [constructor|].
  - destruct Hok as (Hbuf & Hthreads & Hdisplay).
    assert (tag (rd_prefix r)) as Htag.
    { eapply (Forall_lookup_1 _ _ _ _ Hthreads Hr). }
    split; [|split; [|done]].
    + cbn [fst XpraServer.log_capture XpraServer.set_log_capture].
      destruct (read_stream_buffer r (XpraServer.log_capture s))
        as [->|(line & ->)]; [done|].
      cbn [LogCapture.buffer LogCapture.set_buffer].
      apply Forall_app. split; [done|]. repeat constructor.
      by exists (rd_prefix r), line.
    + cbn [snd]. change (w_threads (with_threads ?ts w)) with ts.
      apply Forall_insert; [done|]. by rewrite read_stream_prefix.
  - by destruct Hok.
Qed.

Lemma reachable_ok sw : reachable sw → session_ok sw.
Proof.
  induction 1 as [h p w Hthreads|sw sw' _ IH Hstep].
  - unfold session_ok. cbn [fst snd]. rewrite Hthreads.
    split; [constructor|]. split; [constructor|by left].
  - by eapply step_ok.
Qed.

(** ** Strings *)

Lemma append_nil_l (b : string) : "" +:+ b = b.
Proof. reflexivity. Qed.

Lemma append_cons (x : ascii) (a b : string) :
  String x a +:+ b = String x (a +:+ b).
Proof. reflexivity. Qed.

Lemma append_assoc (a b c : string) : (a +:+ b) +:+ c = a +:+ b +:+ c.
Proof.
  induction a as [|x a IH]; [done|]. rewrite !append_cons. by rewrite IH.
Qed.

Lemma append_nil_r (a : string) : a +:+ "" = a.
Proof.
  induction a as [|x a IH]; [done|]. rewrite append_cons. by rewrite IH.
Qed.

Lemma last_char_append (a b : string) :
  Py.last_char (a +:+ b)
  = match Py.last_char b with
    | Some c => Some c
    | None => Py.last_char a
    end.
Proof.
  induction a as [|x a IH].
  - rewrite append_nil_l. by destruct (Py.last_char b).
  - rewrite append_cons. cbn [Py.last_char]. rewrite IH.
    destruct (Py.last_char b); [done|]. by destruct (Py.last_char a).
Qed.

Lemma mem_LF_CR c : Py.mem c Py.LF_CR = true ↔ line_terminator c.
Proof.
  unfold line_terminator, Py.LF_CR. simpl.
  destruct (decide (c = Py.LF)) as [->|?]; [by split; [left|]|].
  destruct (decide (c = Py.CR)) as [->|?]; [by split; [right|]|].
  split; [done|]. by intros [|].
Qed.

(** [rstrip] leaves no character of [chars] at the end ... *)
Lemma rstrip_last chars s c :
  Py.last_char (Py.rstrip chars s) = Some c → Py.mem c chars = false.
Proof.
  induction s as [|x s IH]; simpl; [done|].
  destruct (Py.rstrip chars s) as [|y kept] eqn:Hkept.
  - destruct (Py.mem x chars) eqn:Hx; simpl; [done|]. by intros [= <-].
  - intros Hlast. apply IH.
    cbn [Py.last_char] in Hlast |- *.
    by destruct (Py.last_char kept).
Qed.

(** ... and removes nothing but a run of characters of [chars] at the end. *)
Lemma rstrip_suffix chars s :
  ∃ suffix,
    s = Py.rstrip chars s +:+ suffix ∧ Py.all_in chars suffix = true.
Proof.
  induction s as [|x s (suffix & Hs & Hall)]; [by exists ""|].
  cbn [Py.rstrip].
  destruct (Py.rstrip chars s) as [|y kept] eqn:Hkept.
  - rewrite append_nil_l in Hs. subst suffix.
    destruct (Py.mem x chars) eqn:Hx.
    + exists (String x s). rewrite append_nil_l. cbn [Py.all_in].
      by rewrite Hx.
    + by exists s.
  - exists suffix. rewrite append_cons. by rewrite <- Hs.
Qed.

Lemma entry_ok_shape e :
  entry_ok e →
  (∃ line, e = "[STDOUT] " +:+ Py.rstrip Py.LF_CR line
           ∨ e = "[STDERR] " +:+ Py.rstrip Py.LF_CR line)
  ∧ (Py.startswith e "[STDOUT] " = true ∨ Py.startswith e "[STDERR] " = true)
  ∧ ∀ c, Py.last_char e = Some c → ¬ line_terminator c.
Proof.
  intros (prefix & line & Htag & ->).
  split; [|split].
  - exists line. by destruct Htag as [->| ->]; [left|right].
  - unfold Py.startswith, LogCapture.entry.
    destruct Htag as [->| ->]; [left|right];
      by destruct (Py.rstrip Py.LF_CR line).
  - intros c Hlast Hterm. apply mem_LF_CR in Hterm.
    unfold LogCapture.entry in Hlast.
    rewrite !last_char_append in Hlast.
    destruct (Py.last_char (Py.rstrip Py.LF_CR line)) as [d|] eqn:Hd.
    + injection Hlast as ->. apply rstrip_last in Hd. congruence.
    + simpl in Hlast. injection Hlast as <-. done.
Qed.

(** ** The capture buffer *)

Lemma join_snoc sep l e :
  Py.join sep (l ++ [e])
  = match l with
    | [] => e
    | _ :: _ => Py.join sep l +:+ sep +:+ e
    end.
Proof.
  induction l as [|x l IH]; [done|].
  cbn [app]. change (Py.join sep (x :: l ++ [e]))
    with (match l ++ [e] with
          | [] => x
          | _ :: _ => x +:+ sep +:+ Py.join sep (l ++ [e])
          end).
  rewrite IH. destruct l as [|y l]; [done|].
  cbn [app]. change (Py.join sep (x :: y :: l))
    with (x +:+ sep +:+ Py.join sep (y :: l)).
  by rewrite !append_assoc.
Qed.

(** C7. In every state of the capture [get_output()] is the lines of
    [get_lines()] joined by newlines.  A reader never touches the lines
    that are there: it leaves them as they are or appends one entry, its
    tag in brackets and the stripped line, at the end, and the output grows
    by that entry after a newline.  In every reachable session each line
    starts with the prefix of one of the two stream tags.  After [clear()],
    [get_lines()] is empty and [get_output()] is the empty text. *)
Theorem capture_output_joined :
  (∀ lc, LogCapture.get_output lc
         = Py.join Py.newline (LogCapture.get_lines lc))
  ∧ (∀ r lc,
       LogCapture.get_lines (LogCapture._read_stream r lc).2
       = LogCapture.get_lines lc
       ∨ ∃ line,
           let e := LogCapture.entry (rd_prefix r) (Py.rstrip Py.LF_CR line) in
           LogCapture.get_lines (LogCapture._read_stream r lc).2
           = LogCapture.get_lines lc ++ [e]
           ∧ LogCapture.get_output (LogCapture._read_stream r lc).2
             = match LogCapture.get_lines lc with
               | [] => e
               | _ :: _ => LogCapture.get_output lc +:+ Py.newline +:+ e
               end)
  ∧ (∀ sw, reachable sw →
           Forall (λ e, Py.startswith e "[STDOUT] " = true
                        ∨ Py.startswith e "[STDERR] " = true)
             (LogCapture.get_lines (XpraServer.log_capture sw.1)))
  ∧ (∀ lc, LogCapture.get_lines (LogCapture.clear lc) = []
           ∧ LogCapture.get_output (LogCapture.clear lc) = "").
Proof.
  split; [done|]. split; [|split; [|done]].
  - intros r lc.
    destruct (read_stream_buffer r lc) as [->|(line & ->)]; [by left|right].
    exists line. cbn zeta. split; [done|].
    unfold LogCapture.get_output, LogCapture.get_lines.
    cbn [LogCapture.buffer LogCapture.set_buffer]. apply join_snoc.
  - intros sw (Hbuf & _)%reachable_ok.
    eapply Forall_impl; [apply Hbuf|]. intros e He.
    by apply entry_ok_shape in He as (_ & ? & _).
Qed.

(** C10. An iteration of a reader that reads a line appends exactly the
    entry made of its tag in brackets, a space and the line stripped by
    [rstrip("\n\r")]; stripping removes a trailing run of newlines and
    carriage returns and leaves neither at the end.  So in every reachable
    session every line of [get_lines()] is ["[STDOUT] "] or ["[STDERR] "]
    followed by a stripped line, and none ends in a newline or a carriage
    return. *)
Theorem reader_entries_stripped :
  (∀ r lc line rest,
     rd_stream r = line :: rest → line ≠ "" →
     LogCapture.get_lines (LogCapture._read_stream r lc).2
     = LogCapture.get_lines lc
       ++ [LogCapture.entry (rd_prefix r) (Py.rstrip Py.LF_CR line)])
  ∧ (∀ line,
       (∃ suffix, line = Py.rstrip Py.LF_CR line +:+ suffix
                  ∧ Py.all_in Py.LF_CR suffix = true)
       ∧ ∀ c, Py.last_char (Py.rstrip Py.LF_CR line) = Some c →
              ¬ line_terminator c)
  ∧ (∀ sw, reachable sw →
           Forall (λ e,
                     (∃ line, e = "[STDOUT] " +:+ Py.rstrip Py.LF_CR line
                              ∨ e = "[STDERR] " +:+ Py.rstrip Py.LF_CR line)
                     ∧ ∀ c, Py.last_char e = Some c → ¬ line_terminator c)
             (LogCapture.get_lines (XpraServer.log_capture sw.1))).
Proof.
  split; [|split].
  - intros r lc line rest Hstream Hline.
    unfold LogCapture._read_stream. rewrite Hstream.
    cbn [LogCapture.readline]. by rewrite decide_False by done.
  - intros line. split; [apply rstrip_suffix|].
    intros c Hlast Hterm%mem_LF_CR. apply rstrip_last in Hlast. congruence.
  - intros sw (Hbuf & _)%reachable_ok.
    eapply Forall_impl; [apply Hbuf|]. intros e He.
    by apply entry_ok_shape in He as (? & _ & ?).
Qed.

(** ** The command line of the main process *)

Lemma Thread_start_trace stream prefix w :
  w_trace (Thread_start stream prefix w).2
  = w_trace w ++ [EvThreadStart (length (w_threads w))].
Proof. reflexivity. Qed.

Lemma spawned_trace args env prog w :
  w_trace (spawned args env prog w) = w_trace w ++ [EvSpawn (w_next_pid w) args env].
Proof. reflexivity. Qed.

Lemma spawned_threads args env prog w :
  w_threads (spawned args env prog w) = w_threads w.
Proof. reflexivity. Qed.

Lemma launched_world_trace app_command extra_args prog s w :
  w_trace (launched_world app_command extra_args prog s w)
  = w_trace w
    ++ [EvSpawn (w_next_pid w)
          (XpraServer.xpra_args s app_command extra_args)
          (Some (XpraServer.xpra_env w));
        EvThreadStart (length (w_threads w));
        EvThreadStart (S (length (w_threads w)))].
Proof.
  unfold launched_world, attached.
  rewrite !Thread_start_trace, Thread_start_threads, spawned_trace,
    spawned_threads, length_app, <- !app_assoc.
  cbn [app length]. by rewrite Nat.add_1_r.
Qed.

Lemma xpra_args_shape s app_command extra_args :
  display_ok (XpraServer.display s) →
  XpraServer.xpra_args s app_command extra_args
  = ["xpra";
     "seamless";
     "--start=" +:+ app_command;
     "--bind-ws=" +:+ XpraServer.host s +:+ ":" +:+ Py.str (XpraServer.port s);
     "--no-daemon";
     "--speaker=no";
     "--microphone=no"]
    ++ match XpraServer.display s with
       | Some d => ["--display=" +:+ d]
       | None => []
       end
    ++ match extra_args with
       | Some extra => extra
       | None => []
       end.
Proof.
  intros Hdisplay. unfold XpraServer.xpra_args. f_equal. f_equal.
  - destruct Hdisplay as [->|(n & ->)]; [done|].
    rewrite append_cons, append_nil_l. reflexivity.
  - by destruct extra_args as [[|a l]|].
Qed.

(** The command line of the main process, from the attributes of the
    session.  When [start] has spawned the main process, the process
    recorded in
    the session was started by a [Popen] whose argument list is, in this
    order: the program name, the mode [seamless], [--start=] with the
    application command, [--bind-ws=] with the session's host and port, the
    foreground flag [--no-daemon], the two audio flags, [--display=] with
    the session's display exactly when the session holds one, and the
    caller's extra arguments, unchanged, at the end.  A session that held no
    display before holds one exactly when this [start] set one up (Linux
    with [use_xvfb]). *)
Theorem xpra_command_line (app_command : string)
    (extra_args : option (list string)) (use_xvfb : bool)
    (s s1 : XpraServer.t) (w w1 : World) :
  reachable (s, w) →
  XpraServer.launch app_command extra_args use_xvfb (s, w)
  = (Ok tt, (s1, w1)) →
  ∃ proc env tr tid_out tid_err,
    XpraServer.process s1 = Some proc
    ∧ w_trace w1
      = tr
        ++ [EvSpawn (pid proc)
              (["xpra";
                "seamless";
                "--start=" +:+ app_command;
                "--bind-ws=" +:+ XpraServer.host s1 +:+ ":"
                  +:+ Py.str (XpraServer.port s1);
                "--no-daemon";
                "--speaker=no";
                "--microphone=no"]
               ++ match XpraServer.display s1 with
                  | Some d => ["--display=" +:+ d]
                  | None => []
                  end
               ++ match extra_args with
                  | Some extra => extra
                  | None => []
                  end)
              (Some env);
            EvThreadStart tid_out;
            EvThreadStart tid_err]
    ∧ (XpraServer.display s = None →
       is_Some (XpraServer.display s1)
       ↔ XpraServer.platform s = "Linux" ∧ use_xvfb = true).
Proof.
  intros (_ & _ & Hdisplay)%reachable_ok Hlaunch.
  cbn [fst] in Hdisplay.
  apply launch_inv in Hlaunch
    as (d & x & w' & prog & _ & _ & Hd & Hxvfb & _ & _ & -> & ->).
  cbn zeta in *.
  assert (display_ok d) as Hd'.
  { destruct Hd as [->|?]; [done|by right]. }
  eexists _, _, (w_trace w'), _, _. split; [reflexivity|]. split.
  - rewrite launched_world_trace.
    rewrite xpra_args_shape by (by destruct s). by destruct s.
  - intros Hnone.
    change (XpraServer.display (launched_session _ _ _ _ _)) with d.
    destruct (decide (XpraServer.platform s = "Linux")) as [Hplat|Hplat].
    + rewrite (bool_decide_eq_true_2 _ Hplat) in Hxvfb.
      destruct use_xvfb; cbn [andb] in Hxvfb.
      * destruct Hxvfb as (_ & n & ->). split; [done|]. intros _. by eexists.
      * destruct Hxvfb as [-> _]. rewrite Hnone.
        split; [by intros [? ?]|by intros [_ ?]].
    + rewrite (bool_decide_eq_false_2 _ Hplat) in Hxvfb.
      cbn [andb] in Hxvfb. destruct Hxvfb as [-> _]. rewrite Hnone.
      split; [by intros [? ?]|by intros [? _]].
Qed.

Lemma xpra_command_line_witness :
  let w := Demo.darwin in
  let s := Demo.server w in
  let extra := Some ["--dpi=96"] in
  let s1 := launched_session "xeyes" extra Demo.xpra_program s w in
  let w1 := launched_world "xeyes" extra Demo.xpra_program s w in
  ∃ proc env tr tid_out tid_err,
    XpraServer.process s1 = Some proc
    ∧ w_trace w1
      = tr
        ++ [EvSpawn (pid proc)
              (["xpra";
                "seamless";
                "--start=" +:+ "xeyes";
                "--bind-ws=" +:+ XpraServer.host s1 +:+ ":"
                  +:+ Py.str (XpraServer.port s1);
                "--no-daemon";
                "--speaker=no";
                "--microphone=no"]
               ++ match XpraServer.display s1 with
                  | Some d => ["--display=" +:+ d]
                  | None => []
                  end
               ++ ["--dpi=96"])
              (Some env);
            EvThreadStart tid_out;
            EvThreadStart tid_err]
    ∧ (XpraServer.display s = None →
       is_Some (XpraServer.display s1)
       ↔ XpraServer.platform s = "Linux" ∧ false = true).
Proof.
  intros w s extra s1 w1.
  apply (xpra_command_line "xeyes" extra false s s1 w w1).
  - by apply reach_init.
  - vm_compute. reflexivity.
Defined.

(** C8.  The code passes [--display=] without a display having been
    allocated when a session is used again.  On Linux, [start] with a
    virtual display allocates [:106] and starts the helper; [stop] kills
    the helper and clears both process attributes, but leaves the display
    attribute.  A further [start] with [use_xvfb=False] allocates nothing
    and starts no helper, yet launches the main process with
    [--display=:106], the display of the helper that is gone; every other
    argument is as the claim has it. *)
Theorem stale_display_on_restart :
  let sw1 := (XpraServer.start "xeyes" None true
                (Demo.server Demo.linux, Demo.linux)).2 in
  let sw2 := (XpraServer.stop 10 sw1).2 in
  let r := XpraServer.start "xcalc" None false sw2 in
  XpraServer.display sw1.1 = Some ":106"
  ∧ XpraServer.xvfb_process sw1.1
    = Some {| pid := 4000; stdout := None; stderr := None |}
  ∧ XpraServer.display sw2.1 = Some ":106"
  ∧ XpraServer.xvfb_process sw2.1 = None
  ∧ (∃ rc, status_of sw2.2 4000 = Exited rc)
  ∧ r.1 = Ok "ws://127.0.0.1:14500/"
  ∧ XpraServer.xvfb_process r.2.1 = None
  ∧ w_trace r.2.2
    = w_trace sw2.2
      ++ [EvSpawn 4002
            ["xpra"; "seamless"; "--start=xcalc"; "--bind-ws=127.0.0.1:14500";
             "--no-daemon"; "--speaker=no"; "--microphone=no";
             "--display=:106"]
            (Some (XpraServer.xpra_env Demo.linux));
          EvThreadStart 2; EvThreadStart 3; EvConnect "127.0.0.1" 14500].
Proof.
  vm_compute. repeat split; try reflexivity. by eexists.
Qed.

(** * Further properties of the two classes *)

(** ** [LogCapture.attach] *)

(** X1. [attach] on a process that lacks the stdout or the stderr pipe
    raises [ValueError] before anything is touched: the stop flag is not
    cleared, no thread is started, the capture and the world are as they
    were. *)
Theorem attach_rejects_missing_pipe (proc : Popen) (lc : LogCapture.t)
    (w : World) :
  stdout proc = None ∨ stderr proc = None →
  LogCapture.attach proc (lc, w)
  = (Raise (ValueError "Process must have stdout and stderr set to PIPE"),
     (lc, w)).
Proof.
  unfold LogCapture.attach.
  intros [Hout|Herr].
  - by rewrite Hout.
  - rewrite Herr. by destruct (stdout proc).
Qed.

Lemma attach_rejects_missing_pipe_witness :
  LogCapture.attach {| pid := 7; stdout := None; stderr := None |}
    (LogCapture.__init__, Demo.darwin)
  = (Raise (ValueError "Process must have stdout and stderr set to PIPE"),
     (LogCapture.__init__, Demo.darwin)).
Proof.
  exact (attach_rejects_missing_pipe
           {| pid := 7; stdout := None; stderr := None |}
           LogCapture.__init__ Demo.darwin (or_introl eq_refl)).
Defined.

(** X2. [attach] on a process with both pipes returns normally.  It clears
    the stop flag, keeps the buffer, and starts two readers, the first on
    the stdout pipe with tag [STDOUT], the second on the stderr pipe with
    tag [STDERR], which it records in this order.  The readers that exist
    already are neither stopped nor replaced in the thread table: they stay
    as they are, so a reader of an earlier [attach] goes on writing to the
    same buffer. *)
Theorem attach_starts_two_readers (proc : Popen) (lc : LogCapture.t)
    (w : World) (out err : list string) :
  stdout proc = Some out →
  stderr proc = Some err →
  ∃ lc' w',
    LogCapture.attach proc (lc, w) = (Ok tt, (lc', w'))
    ∧ LogCapture.stop_event lc' = false
    ∧ LogCapture.buffer lc' = LogCapture.buffer lc
    ∧ LogCapture.stdout_thread lc' = Some (length (w_threads w))
    ∧ LogCapture.stderr_thread lc' = Some (S (length (w_threads w)))
    ∧ w_threads w'
      = w_threads w ++ [new_reader out "STDOUT"; new_reader err "STDERR"]
    ∧ w_trace w'
      = w_trace w
        ++ [EvThreadStart (length (w_threads w));
            EvThreadStart (S (length (w_threads w)))]
    ∧ w_procs w' = w_procs w
    ∧ w_clock w' = w_clock w.
Proof.
  intros Hout Herr. eexists _, _.
  split; [by apply attach_run|].
  unfold attached_capture, attached.
  rewrite !Thread_start_threads, !Thread_start_trace, Thread_start_threads,
    length_app, <- !app_assoc, Nat.add_1_r.
  by repeat split.
Qed.

Lemma attach_starts_two_readers_witness :
  ∃ lc' w',
    LogCapture.attach Demo.child (LogCapture.__init__, Demo.darwin)
    = (Ok tt, (lc', w'))
    ∧ LogCapture.stop_event lc' = false
    ∧ LogCapture.buffer lc' = []
    ∧ LogCapture.stdout_thread lc' = Some 0%nat
    ∧ LogCapture.stderr_thread lc' = Some 1%nat
    ∧ w_threads w'
      = [new_reader ["ready" +:+ Py.newline] "STDOUT"; new_reader [] "STDERR"]
    ∧ w_trace w' = [EvThreadStart 0; EvThreadStart 1]
    ∧ w_procs w' = ∅
    ∧ w_clock w' = 0.
Proof.
  exact (attach_starts_two_readers Demo.child LogCapture.__init__ Demo.darwin
           ["ready" +:+ Py.newline] [] eq_refl eq_refl).
Defined.

(** ** A reader from its start to its end *)

Lemma read_stream_line r lc line rest :
  rd_stream r = line :: rest →
  line ≠ "" →
  LogCapture._read_stream r lc
  = ({| rd_stream := rest; rd_prefix := rd_prefix r;
        rd_finished := LogCapture.stop_event lc |},
     LogCapture.set_buffer
       (LogCapture.buffer lc
        ++ [LogCapture.entry (rd_prefix r) (Py.rstrip Py.LF_CR line)]) lc).
Proof.
  intros Hstream Hline. unfold LogCapture._read_stream. rewrite Hstream.
  cbn [LogCapture.readline]. by rewrite decide_False by done.
Qed.

Lemma read_stream_end r lc tail :
  rd_stream r = tail →
  tail = [] ∨ (∃ rest, tail = "" :: rest) →
  LogCapture._read_stream r lc
  = ({| rd_stream := match tail with [] => [] | _ :: rest => rest end;
        rd_prefix := rd_prefix r; rd_finished := true |}, lc).
Proof.
  intros Hstream Htail. unfold LogCapture._read_stream. rewrite Hstream.
  by destruct Htail as [->|(rest & ->)].
Qed.

Lemma run_reader_S fuel r lc :
  rd_finished r = false →
  run_reader (S fuel) r lc
  = run_reader fuel (LogCapture._read_stream r lc).1
      (LogCapture._read_stream r lc).2.
Proof. intros Hr. cbn [run_reader]. by rewrite Hr. Qed.

Lemma run_reader_finished fuel r lc :
  rd_finished r = true → run_reader fuel r lc = (r, lc).
Proof. intros Hr. destruct fuel; [done|]. cbn [run_reader]. by rewrite Hr. Qed.

(** X3. A reader that is left alone while the stop flag is clear writes one
    entry for every line up to the end of the stream (or up to an empty
    string, which [iter(stream.readline, "")] takes for the end), in the
    order of the lines and after the entries that were there, and then
    finishes.  What comes after an empty string is never read. *)
Theorem reader_drains_stream (lines tail : list string) (prefix : string)
    (lc : LogCapture.t) :
  LogCapture.stop_event lc = false →
  Forall (λ line, line ≠ "") lines →
  tail = [] ∨ (∃ rest, tail = "" :: rest) →
  run_reader (S (length lines)) (new_reader (lines ++ tail) prefix) lc
  = ({| rd_stream := match tail with [] => [] | _ :: rest => rest end;
        rd_prefix := prefix; rd_finished := true |},
     LogCapture.set_buffer (LogCapture.buffer lc ++ entries prefix lines) lc).
Proof.
  intros Hflag Hlines Htail. unfold new_reader.
  revert lc Hflag. induction Hlines as [|line lines Hline _ IH];
    intros lc Hflag.
  - cbn [length app]. rewrite run_reader_S by done.
    erewrite read_stream_end by done. cbn [fst snd rd_prefix].
    rewrite run_reader_finished by done.
    unfold entries. cbn [fmap list_fmap]. rewrite app_nil_r.
    by destruct lc.
  - cbn [length]. rewrite run_reader_S by done.
    erewrite read_stream_line by done. cbn [fst snd rd_prefix].
    rewrite Hflag, IH by done.
    cbn [LogCapture.buffer LogCapture.set_buffer]. unfold entries.
    cbn [fmap list_fmap]. rewrite <- app_assoc. by destruct lc.
Qed.

Lemma reader_drains_stream_witness :
  run_reader 3
    (new_reader (["a" +:+ Py.newline; "b" +:+ Py.LF_CR] ++ ["" ; "c"]) "STDOUT")
    LogCapture.__init__
  = ({| rd_stream := ["c"]; rd_prefix := "STDOUT"; rd_finished := true |},
     LogCapture.set_buffer ([] ++ ["[STDOUT] a"; "[STDOUT] b"])
       LogCapture.__init__).
Proof.
  apply (reader_drains_stream ["a" +:+ Py.newline; "b" +:+ Py.LF_CR]
           ["" ; "c"] "STDOUT" LogCapture.__init__).
  - reflexivity.
  - repeat constructor; discriminate.
  - right. by eexists.
Defined.

(** X4. A reader looks at the stop flag only after it has written a line:
    when the flag is set and a line is there to read, the reader still
    writes that one line and then finishes, leaving the rest of the stream
    unread, however long it is allowed to run. *)
Theorem reader_stops_after_one_line (fuel : nat) (line : string)
    (rest : list string) (prefix : string) (lc : LogCapture.t) :
  LogCapture.stop_event lc = true →
  line ≠ "" →
  run_reader (S fuel) (new_reader (line :: rest) prefix) lc
  = ({| rd_stream := rest; rd_prefix := prefix; rd_finished := true |},
     LogCapture.set_buffer
       (LogCapture.buffer lc
        ++ [LogCapture.entry prefix (Py.rstrip Py.LF_CR line)]) lc).
Proof.
  intros Hflag Hline. unfold new_reader. rewrite run_reader_S by done.
  erewrite read_stream_line by done. cbn [fst snd rd_prefix].
  rewrite Hflag. by rewrite run_reader_finished.
Qed.

Lemma reader_stops_after_one_line_witness :
  run_reader 5 (new_reader ["a" +:+ Py.newline; "b" +:+ Py.newline] "STDERR")
    (LogCapture.set_stop_event true LogCapture.__init__)
  = ({| rd_stream := ["b" +:+ Py.newline]; rd_prefix := "STDERR";
        rd_finished := true |},
     LogCapture.set_buffer
       ([] ++ [LogCapture.entry "STDERR"
                 (Py.rstrip Py.LF_CR ("a" +:+ Py.newline))])
       (LogCapture.set_stop_event true LogCapture.__init__)).
Proof.
  apply (reader_stops_after_one_line 4 ("a" +:+ Py.newline)
           ["b" +:+ Py.newline] "STDERR"
           (LogCapture.set_stop_event true LogCapture.__init__)).
  - reflexivity.
  - discriminate.
Defined.

(** ** [_wait_for_socket] in general *)

Lemma wait_loop_total h p start timeout fuel :
  ∀ w,
    1000 * timeout - (w_clock w - start) ≤ 200 * Z.of_nat fuel →
    ∃ w2 tr,
      ((XpraServer.wait_loop (S fuel) start timeout h p w = (Ok tt, w2)
        ∧ ∃ t, w_clock w ≤ t ∧ t - start < 1000 * timeout
               ∧ w_connect w h p t = Connected)
       ∨ (XpraServer.wait_loop (S fuel) start timeout h p w
          = (Raise (not_ready timeout), w2)
          ∧ 1000 * timeout ≤ w_clock w2 - start))
      ∧ w_trace w2 = w_trace w ++ tr
      ∧ Forall probe_event tr
      ∧ w_connect w2 = w_connect w.
Proof.
  induction fuel as [|fuel IH]; intros w Hfuel.
  - rewrite wait_loop_S, decide_False by lia.
    exists w, []. rewrite app_nil_r. split; [right; split; [done|lia]|done].
  - rewrite wait_loop_S. destruct (decide _) as [Hlt|Hge].
    + rewrite probe_run.
      assert (∀ w1,
                w_trace w1 = w_trace w ++ [EvConnect h p] →
                w_connect w1 = w_connect w →
                w_clock w ≤ w_clock w1 →
                ∃ w2 tr,
                  ((XpraServer.wait_loop (S fuel) start timeout h p
                      (sleep 200 w1).2 = (Ok tt, w2)
                    ∧ ∃ t, w_clock w ≤ t ∧ t - start < 1000 * timeout
                           ∧ w_connect w h p t = Connected)
                   ∨ (XpraServer.wait_loop (S fuel) start timeout h p
                        (sleep 200 w1).2 = (Raise (not_ready timeout), w2)
                      ∧ 1000 * timeout ≤ w_clock w2 - start))
                  ∧ w_trace w2 = w_trace w ++ tr
                  ∧ Forall probe_event tr
                  ∧ w_connect w2 = w_connect w) as Hrest.
      { intros w1 Htr1 Hconn1 Hclock1.
        assert (w_clock (sleep 200 w1).2 = w_clock w1 + 200) as Hclock
          by reflexivity.
        destruct (IH (sleep 200 w1).2) as (w2 & tr & Hrun & Htr & Hev & Hconn);
          [lia|].
        exists w2, (EvConnect h p :: EvSleep 200 :: tr). split.
        - destruct Hrun as [(Hrun & t & ? & ? & Ht)|Hrun]; [left|by right].
          split; [done|]. exists t. repeat split; [lia|done|].
          by rewrite <- Hconn1.
        - split.
          + rewrite Htr. change (w_trace (sleep 200 w1).2)
              with (w_trace w1 ++ [EvSleep 200]).
            by rewrite Htr1, <- !app_assoc.
          + split; [by repeat constructor|]. by rewrite Hconn. }
      destruct (w_connect w h p (w_clock w)) eqn:Hconn.
      * exists (emit (EvConnect h p) w), [EvConnect h p]. split.
        -- left. split; [done|]. exists (w_clock w). repeat split; [lia|done..].
        -- by repeat constructor.
      * by apply Hrest.
      * apply Hrest; try done.
        change (w_clock (advance 1000 (emit (EvConnect h p) w)))
          with (w_clock w + Z.max 0 1000). lia.
      * by apply Hrest.
    + exists w, []. rewrite app_nil_r. split; [right; split; [done|lia]|done].
Qed.

(** X5. With an endpoint that [connect_ex] takes (an ASCII host free of
    NUL characters, a port in 0..65535), [_wait_for_socket(timeout)]
    always comes back, and the session is
    the same afterwards: either it returns, and then a connect succeeded
    before the deadline, or it raises the [RuntimeError] that names the
    timeout, and then the deadline has passed.  Nothing else is raised (an
    [OSError] of a connect is swallowed), and all it does is connecting
    and sleeping.  With a timeout of zero or less it raises at once,
    without a single connect. *)
Theorem wait_for_socket_terminates (timeout : Z) (s : XpraServer.t)
    (w : World) :
  valid_endpoint s = true →
  (∃ w2 tr,
     ((XpraServer._wait_for_socket timeout (s, w) = (Ok tt, (s, w2))
       ∧ ∃ t, w_clock w ≤ t < w_clock w + 1000 * timeout
              ∧ w_connect w (XpraServer.host s) (XpraServer.port s) t
                = Connected)
      ∨ (XpraServer._wait_for_socket timeout (s, w)
         = (Raise (RuntimeError ("WebSocket endpoint not ready after "
                                 +:+ Py.str timeout +:+ " seconds")),
            (s, w2))
         ∧ w_clock w + 1000 * timeout ≤ w_clock w2))
     ∧ w_trace w2 = w_trace w ++ tr
     ∧ Forall probe_event tr)
  ∧ (timeout ≤ 0 →
     XpraServer._wait_for_socket timeout (s, w)
     = (Raise (not_ready timeout), (s, w))).
Proof.
  intros _. split.
  - rewrite wait_for_socket_unfold. unfold XpraServer.wait_fuel.
    destruct (wait_loop_total (XpraServer.host s) (XpraServer.port s)
                (w_clock w) timeout (Z.to_nat (5 * timeout)) w)
      as (w2 & tr & Hrun & Htr & Hev & _); [lia|].
    exists w2, tr. split; [|done].
    destruct Hrun as [(-> & t & ? & ? & ?)|[-> ?]]; [left|right].
    + split; [done|]. exists t. split; [lia|done].
    + split; [done|lia].
  - intros Hneg. rewrite wait_for_socket_unfold. unfold XpraServer.wait_fuel.
    by rewrite wait_loop_S, decide_False by lia.
Qed.

Lemma wait_for_socket_terminates_witness :
  let w := Demo.make "Darwin" [] Demo.programs Demo.never_ready in
  XpraServer._wait_for_socket 0 (Demo.server w, w)
  = (Raise (RuntimeError "WebSocket endpoint not ready after 0 seconds"),
     (Demo.server w, w)).
Proof.
  intros w.
  exact (proj2 (wait_for_socket_terminates 0 (Demo.server w) w eq_refl)
           ltac:(lia)).
Defined.

(** ** [_start_xvfb] *)

Lemma status_of_spawned args env prog w :
  status_of (spawned args env prog w) (w_next_pid w) = prog_status prog.
Proof.
  unfold status_of.
  change (w_procs (spawned args env prog w))
    with (<[w_next_pid w := prog_status prog]> (w_procs w)).
  by rewrite lookup_insert_eq.
Qed.

(** X6. [_start_xvfb(display)] refuses every platform but Linux with a
    [RuntimeError] that names the platform, starting nothing.  On Linux it
    spawns [Xvfb <display> -screen 0 1280x1024x24 -ac -noreset], without
    pipes and with the inherited environment, and waits half a second; it
    returns the handle when the process has not exited by then and raises
    [RuntimeError("Xvfb failed to start on <display>")] otherwise.  When
    the program cannot be started at all the [OSError] of [Popen] comes
    through.  The session itself is never changed. *)
Theorem start_xvfb_outcomes (d : string) (s : XpraServer.t) (w : World) :
  (XpraServer.platform s ≠ "Linux" →
   XpraServer._start_xvfb d (s, w)
   = (Raise (RuntimeError (XpraServer.unsupported_xvfb (XpraServer.platform s))),
      (s, w))
   ∧ Py.contains (XpraServer.unsupported_xvfb (XpraServer.platform s))
       (XpraServer.platform s))
  ∧ (XpraServer.platform s = "Linux" →
     w_programs w (XpraServer.xvfb_cmd d) = None →
     XpraServer._start_xvfb d (s, w)
     = (Raise (OSError "No such file or directory"), (s, w)))
  ∧ (XpraServer.platform s = "Linux" →
     ∀ prog,
       w_programs w (XpraServer.xvfb_cmd d) = Some prog →
       ∃ w1,
         XpraServer._start_xvfb d (s, w)
         = (match age 500 (prog_status prog) with
            | Exited _ =>
                Raise (RuntimeError ("Xvfb failed to start on " +:+ d))
            | _ => Ok (child_of w prog false)
            end, (s, w1))
         ∧ stdout (child_of w prog false) = None
         ∧ stderr (child_of w prog false) = None
         ∧ w_trace w1
           = w_trace w
             ++ [EvSpawn (w_next_pid w)
                   ["Xvfb"; d; "-screen"; "0"; "1280x1024x24"; "-ac";
                    "-noreset"] None;
                 EvSleep 500]
         ∧ w_clock w1 = w_clock w + 500).
Proof.
  split; [|split].
  - intros Hplat. split; [|apply contains_middle].
    unfold XpraServer._start_xvfb.
    eapply bind_eval; [apply self_run|]. cbn beta iota.
    destruct (decide (XpraServer.platform s ≠ "Linux")) as [_|?]; [|done].
    apply raise_run.
  - intros Hplat Hprog. by rewrite start_xvfb_linux, Hprog.
  - intros Hplat prog Hprog. rewrite start_xvfb_linux, Hprog by done.
    cbn zeta.
    exists (sleep 500 (spawned (XpraServer.xvfb_cmd d) None prog w)).2.
    split.
    + unfold poll. change (pid (child_of w prog false)) with (w_next_pid w).
      change ((sleep 500 ?w0).2) with (advance 500 (emit (EvSleep 500) w0)).
      rewrite status_of_advance, status_of_emit, status_of_spawned.
      change (Z.max 0 500) with 500.
      by destruct (age 500 (prog_status prog)).
    + split; [done|]. split; [done|]. split; [|done].
      change (w_trace (sleep 500 ?w0).2) with (w_trace w0 ++ [EvSleep 500]).
      by rewrite spawned_trace, <- app_assoc.
Qed.

(** ** Display allocation without a socket directory *)

(** X7. On Linux, when the socket directory does not exist (and so no
    socket file in it either), [_find_free_display] lists nothing and
    returns [":100"]. *)
Theorem find_free_display_no_directory (s : XpraServer.t) (w : World) :
  XpraServer.platform s = "Linux" →
  w_fs w !! XpraServer.x11_socket_dir = None →
  path_exists w (XpraServer.socket_path 100) = false →
  XpraServer._find_free_display (s, w) = (Ok ":100", (s, w)).
Proof.
  intros Hplat Hdir Hsock. rewrite find_free_display_linux by done.
  rewrite Hdir. unfold in_use. rewrite Hdir.
  unfold XpraServer.candidates. rewrite seqZ_cons by lia.
  cbn [XpraServer.scan_displays].
  rewrite decide_True by set_solver. by rewrite Hsock.
Qed.

Lemma find_free_display_no_directory_witness :
  let w := {| w_clock := 0; w_procs := ∅; w_next_pid := 1; w_threads := [];
              w_fs := ∅; w_programs := λ _, None;
              w_connect := Demo.never_ready; w_free_port := 14500;
              w_platform := "Linux"; w_tmpdir := "/tmp"; w_environ := ∅;
              w_trace := [] |} in
  XpraServer._find_free_display (Demo.server w, w)
  = (Ok ":100", (Demo.server w, w)).
Proof.
  intros w.
  exact (find_free_display_no_directory (Demo.server w) w eq_refl eq_refl
           eq_refl).
Defined.

(** ** The outcomes of [start] *)

Lemma display_setup_cases use_xvfb s w :
  match (XpraServer.display_setup use_xvfb (s, w)).1 with
  | Ok _ => True
  | Raise e =>
      (XpraServer.process s = None → start_error s use_xvfb e)
      ∧ e ≠ not_ready 10
  | Hang => False
  end.
Proof.
  assert (∀ e, (e = not_ready 10 → False) → e ≠ not_ready 10) as Hne by done.
  destruct (decide (XpraServer.platform s = "Linux")) as [Hplat|Hplat].
  - destruct use_xvfb.
    + rewrite (proj1 (display_setup_linux s w Hplat)).
      rewrite find_free_display_linux by done.
      destruct (w_fs w !! XpraServer.x11_socket_dir) as [[?|]|];
        try destruct (XpraServer.scan_displays (in_use w) w _) as [n|];
        cbn [fst snd];
        try (split; [intros _; by constructor|];
             apply Hne; intros Heq; vm_compute in Heq; discriminate).
      all: rewrite start_xvfb_linux by done.
      all: destruct (w_programs w _) as [prog|]; cbn zeta;
        try destruct (poll _ _); cbn [fst snd]; try done.
      all: split; [intros ?; by constructor|].
      all: apply Hne; intros Heq; vm_compute in Heq; discriminate.
    + by rewrite (proj2 (display_setup_linux s w Hplat)).
  - destruct use_xvfb.
    + by rewrite (proj1 (display_setup_not_linux s w Hplat)).
    + by rewrite (proj2 (display_setup_not_linux s w Hplat)).
Qed.

Lemma start_error_message s use_xvfb e :
  start_error s use_xvfb e →
  (e = RuntimeError "Server already running" → is_Some (XpraServer.process s))
  ∧ (e = not_ready 10 → XpraServer.process s = None).
Proof.
  destruct 1; (split; [|]); intros Heq; try done;
    try (vm_compute in Heq; discriminate).
Qed.

(** The three ways a call of [start] can go: rejected, failed before the
    main process was started, or launched and then waited for. *)
Lemma start_cases app_command extra_args use_xvfb s w :
  (is_Some (XpraServer.process s)
   ∧ XpraServer.start app_command extra_args use_xvfb (s, w)
     = (Raise (RuntimeError "Server already running"), (s, w)))
  ∨ (XpraServer.process s = None
     ∧ ∃ e s' w',
         XpraServer.start app_command extra_args use_xvfb (s, w)
         = (Raise e, (s', w'))
         ∧ start_error s use_xvfb e
         ∧ e ≠ not_ready 10
         ∧ XpraServer.process s' = None
         ∧ XpraServer.log_capture s' = XpraServer.log_capture s
         ∧ w_threads w' = w_threads w
         ∧ ∃ d x,
             s' = XpraServer.set_xvfb_process x (XpraServer.set_display d s))
  ∨ (XpraServer.process s = None
     ∧ ∃ s1 w1 w2,
         XpraServer.launch app_command extra_args use_xvfb (s, w)
         = (Ok tt, (s1, w1))
         ∧ (XpraServer.start app_command extra_args use_xvfb (s, w)
            = (Ok (ws_url s), (s1, w2))
            ∨ XpraServer.start app_command extra_args use_xvfb (s, w)
              = (Raise (not_ready 10), (s1, w2)))
         ∧ is_Some (XpraServer.process s1)
         ∧ LogCapture.buffer (XpraServer.log_capture s1)
           = LogCapture.buffer (XpraServer.log_capture s)).
Proof.
  destruct (XpraServer.process s) as [proc|] eqn:Hproc.
  { left. split; [by eexists|]. unfold XpraServer.start.
    eapply bind_eval.
    { unfold XpraServer.launch.
      eapply bind_eval; [apply self_run|]. cbn beta iota. rewrite Hproc.
      apply raise_run. }
    reflexivity. }
  right.
  destruct (XpraServer.launch app_command extra_args use_xvfb (s, w))
    as [[[]|e|] [s1 w1]] eqn:Hlaunch.
  - right. split; [done|].
    destruct (wait_loop_total (XpraServer.host s1) (XpraServer.port s1)
                (w_clock w1) 10 (Z.to_nat (5 * 10)) w1)
      as (w2 & tr & Hrun & _); [lia|].
    exists s1, w1, w2. split; [done|].
    pose proof Hlaunch as Hinv.
    apply launch_inv in Hinv
      as (d & x & w' & prog & _ & _ & _ & _ & _ & _ & Hs1 & _).
    split; [|split; [by rewrite Hs1; eexists|by rewrite Hs1]].
    assert (ws_url s1 = ws_url s) as <- by by rewrite Hs1.
    destruct Hrun as [[Hrun _]|[Hrun _]]; [left|right].
    + unfold XpraServer.start.
      eapply bind_eval; [apply Hlaunch|]. cbn beta iota.
      eapply bind_eval.
      { rewrite wait_for_socket_unfold. unfold XpraServer.wait_fuel.
        rewrite Hrun. reflexivity. }
      reflexivity.
    + unfold XpraServer.start.
      eapply bind_eval; [apply Hlaunch|]. cbn beta iota.
      eapply bind_eval.
      { rewrite wait_for_socket_unfold. unfold XpraServer.wait_fuel.
        rewrite Hrun. reflexivity. }
      reflexivity.
  - left. split; [done|]. exists e, s1, w1.
    assert (XpraServer.start app_command extra_args use_xvfb (s, w)
            = (Raise e, (s1, w1))) as Hstart.
    { unfold XpraServer.start. eapply bind_eval; [apply Hlaunch|]. done. }
    split; [done|].
    rewrite launch_idle in Hlaunch by done.
    pose proof (display_setup_cases use_xvfb s w) as Hcases.
    destruct (display_setup_effect use_xvfb s w)
      as (d & x & Hs' & _ & _ & Hthreads & _).
    unfold mbind, M_bind in Hlaunch.
    destruct (XpraServer.display_setup use_xvfb (s, w))
      as [[[]|e'|] [s' w']] eqn:Hsetup; cbn [fst snd] in *; [| |done].
    + destruct (w_programs w'
                  (XpraServer.xpra_args s' app_command extra_args))
        as [prog|] eqn:Hprog.
      * by rewrite (spawn_xpra_run _ _ _ _ _ Hprog) in Hlaunch.
      * rewrite (spawn_xpra_missing _ _ _ _ Hprog) in Hlaunch.
        injection Hlaunch as <- <- <-.
        split; [by constructor|]. split; [done|]. rewrite Hs'.
        split; [done|]. split; [done|]. split; [done|]. by exists d, x.
    + injection Hlaunch as <- <- <-. destruct Hcases as [Herr Hne].
      split; [by apply Herr|]. split; [done|]. rewrite Hs'.
      split; [done|]. split; [done|]. split; [done|]. by exists d, x.
  - exfalso. rewrite launch_idle in Hlaunch by done.
    pose proof (display_setup_cases use_xvfb s w) as Hcases.
    unfold mbind, M_bind in Hlaunch.
    destruct (XpraServer.display_setup use_xvfb (s, w))
      as [[[]|e'|] [s' w']] eqn:Hsetup; cbn [fst snd] in *; [|done..].
    destruct (w_programs w' (XpraServer.xpra_args s' app_command extra_args))
      as [prog|] eqn:Hprog.
    + by rewrite (spawn_xpra_run _ _ _ _ _ Hprog) in Hlaunch.
    + by rewrite (spawn_xpra_missing _ _ _ _ Hprog) in Hlaunch.
Qed.

Lemma start_idle_not_rejected app_command extra_args use_xvfb s w :
  XpraServer.process s = None →
  (XpraServer.start app_command extra_args use_xvfb (s, w)).1
  ≠ Raise (RuntimeError "Server already running").
Proof.
  intros Hnone.
  destruct (start_cases app_command extra_args use_xvfb s w)
    as [[Hsome _]
       |[(_ & e & s' & w' & -> & Herr & _)
        |(_ & s1 & w1 & w2 & _ & [->| ->] & _)]]; cbn [fst snd].
  - rewrite Hnone in Hsome. by destruct Hsome.
  - intros [= ->]. apply start_error_message in Herr as [Hsome _].
    destruct (Hsome eq_refl) as [? ?]. congruence.
  - done.
  - intros Heq. vm_compute in Heq. discriminate.
Qed.

Lemma start_error_not_guard s use_xvfb e :
  start_error s use_xvfb e →
  (∀ plat, e ≠ RuntimeError (XpraServer.unsupported_display plat))
  ∧ (∀ plat, e ≠ RuntimeError (XpraServer.unsupported_xvfb plat))
  ∧ e ≠ ValueError "Process must have stdout and stderr set to PIPE".
Proof.
  destruct 1;
    (split; [|split]; [intros plat Heq|intros plat Heq|intros Heq];
     vm_compute in Heq; discriminate).
Qed.

(** X8. The guards of the helpers are never hit through [start]: whatever
    the platform and the arguments, [start] raises neither the
    unsupported-platform error of [_find_free_display] nor that of
    [_start_xvfb] (it calls both on Linux only), nor the [ValueError] of
    [attach] (it always opens both pipes).  And a [start] that returns has
    found the session idle, has recorded a main process, and returns the
    URL [ws://host:port/] of the session's host and port. *)
Theorem start_never_hits_guards (app_command : string)
    (extra_args : option (list string)) (use_xvfb : bool)
    (s : XpraServer.t) (w : World) :
  (∀ plat,
     (XpraServer.start app_command extra_args use_xvfb (s, w)).1
     ≠ Raise (RuntimeError (XpraServer.unsupported_display plat)))
  ∧ (∀ plat,
       (XpraServer.start app_command extra_args use_xvfb (s, w)).1
       ≠ Raise (RuntimeError (XpraServer.unsupported_xvfb plat)))
  ∧ (XpraServer.start app_command extra_args use_xvfb (s, w)).1
    ≠ Raise (ValueError "Process must have stdout and stderr set to PIPE")
  ∧ (∀ url,
       (XpraServer.start app_command extra_args use_xvfb (s, w)).1 = Ok url →
       XpraServer.process s = None
       ∧ url = "ws://" +:+ XpraServer.host s +:+ ":"
               +:+ Py.str (XpraServer.port s) +:+ "/"
       ∧ is_Some (XpraServer.process
                    (XpraServer.start app_command extra_args use_xvfb
                       (s, w)).2.1)).
Proof.
  assert (∀ e,
            (XpraServer.start app_command extra_args use_xvfb (s, w)).1
            = Raise e → start_error s use_xvfb e) as Herr.
  { intros e.
    destruct (start_cases app_command extra_args use_xvfb s w)
      as [[Hproc ->]
         |[(Hproc & e' & s' & w' & -> & Herr & _)
          |(Hproc & s1 & w1 & w2 & _ & [->| ->] & _)]];
      cbn [fst snd]; intros [= <-].
    - by apply already_running.
    - done.
    - by apply endpoint_not_ready. }
  split; [|split; [|split]].
  - intros plat Heq. by destruct (start_error_not_guard _ _ _ (Herr _ Heq))
      as (Hne & _); destruct (Hne plat).
  - intros plat Heq. by destruct (start_error_not_guard _ _ _ (Herr _ Heq))
      as (_ & Hne & _); destruct (Hne plat).
  - intros Heq. by destruct (start_error_not_guard _ _ _ (Herr _ Heq))
      as (_ & _ & Hne).
  - intros url.
    destruct (start_cases app_command extra_args use_xvfb s w)
      as [[Hproc ->]
         |[(Hproc & e' & s' & w' & -> & _)
          |(Hproc & s1 & w1 & w2 & _ & [->| ->] & Hmain & _)]];
      cbn [fst snd]; intros [= <-]. done.
Qed.

(** X9. A [start] that raises an [OSError] (of listing the socket
    directory or of starting a program), or the error of the display
    allocation, or that of the helper start, has recorded no main process,
    has not touched the capture and has started no reader thread.  (The
    display attribute and the helper of a display set up before the
    failure stay.) *)
Theorem failed_start_records_nothing (app_command : string)
    (extra_args : option (list string)) (use_xvfb : bool)
    (s : XpraServer.t) (w : World) (e : exn) :
  (XpraServer.start app_command extra_args use_xvfb (s, w)).1 = Raise e →
  (∃ msg, e = OSError msg)
  ∨ e = RuntimeError "Could not find free X11 display"
  ∨ (∃ d, e = RuntimeError ("Xvfb failed to start on " +:+ d)) →
  XpraServer.process
    (XpraServer.start app_command extra_args use_xvfb (s, w)).2.1
  = XpraServer.process s
  ∧ XpraServer.log_capture
      (XpraServer.start app_command extra_args use_xvfb (s, w)).2.1
    = XpraServer.log_capture s
  ∧ w_threads (XpraServer.start app_command extra_args use_xvfb (s, w)).2.2
    = w_threads w.
Proof.
  destruct (start_cases app_command extra_args use_xvfb s w)
    as [[Hproc ->]
       |[(Hproc & e' & s' & w' & -> & _ & _ & Hmain & Hlog & Hthreads & _)
        |(Hproc & s1 & w1 & w2 & _ & [->| ->] & _)]];
    cbn [fst snd]; intros Heq Hkind.
  - done.
  - by rewrite Hmain, Hproc.
  - done.
  - injection Heq as <-.
    destruct Hkind as [(msg & Hmsg)|[Hmsg|(d & Hmsg)]];
      vm_compute in Hmsg; discriminate.
Qed.

Lemma failed_start_records_nothing_witness :
  let w := Demo.make "Linux" [] xvfb_only Demo.never_ready in
  XpraServer.process
    (XpraServer.start "xeyes" None true (Demo.server w, w)).2.1
  = None.
Proof.
  intros w.
  assert ((XpraServer.start "xeyes" None true (Demo.server w, w)).1
          = Raise (OSError "No such file or directory")) as Hfail
    by (vm_compute; reflexivity).
  exact (proj1 (failed_start_records_nothing "xeyes" None true
                  (Demo.server w) w _ Hfail
                  (or_introl (ex_intro _ "No such file or directory" eq_refl)))).
Defined.

(** X10. After [start] raised the readiness error the main process stays
    recorded, so every further [start] is rejected with "Server already
    running" and changes nothing; after a [stop] in between, [start] is
    not rejected. *)
Theorem retry_after_timeout_needs_stop (app_command : string)
    (extra_args : option (list string)) (use_xvfb : bool)
    (s : XpraServer.t) (w : World) :
  (XpraServer.start app_command extra_args use_xvfb (s, w)).1
  = Raise (RuntimeError "WebSocket endpoint not ready after 10 seconds") →
  (∀ app_command' extra_args' use_xvfb',
     XpraServer.start app_command' extra_args' use_xvfb'
       (XpraServer.start app_command extra_args use_xvfb (s, w)).2
     = (Raise (RuntimeError "Server already running"),
        (XpraServer.start app_command extra_args use_xvfb (s, w)).2))
  ∧ (∀ timeout app_command' extra_args' use_xvfb',
       (XpraServer.start app_command' extra_args' use_xvfb'
          (XpraServer.stop timeout
             (XpraServer.start app_command extra_args use_xvfb (s, w)).2).2).1
       ≠ Raise (RuntimeError "Server already running")).
Proof.
  intros Hfail. split.
  - intros app' extra' xv'.
    destruct (start_cases app_command extra_args use_xvfb s w)
      as [[Hproc Hrun]
         |[(Hproc & e' & s' & w' & Hrun & _ & Hne & _)
          |(Hproc & s1 & w1 & w2 & _ & [Hrun|Hrun] & Hmain & _)]];
      rewrite Hrun in Hfail |- *; cbn [fst snd] in *; try done.
    + injection Hfail as ->. destruct (Hne eq_refl).
    + destruct (start_cases app' extra' xv' s1 w2)
        as [[_ ->]|[(Hnone & _)|(Hnone & _)]]; [done|..];
        rewrite Hnone in Hmain; by destruct Hmain.
  - intros timeout app' extra' xv'.
    destruct (XpraServer.start app_command extra_args use_xvfb (s, w))
      as [o [s1 w1]]. cbn [snd]. rewrite stop_run. cbn [snd].
    by apply start_idle_not_rejected.
Qed.

Lemma retry_after_timeout_needs_stop_witness :
  let w := Demo.make "Darwin" [] Demo.programs Demo.never_ready in
  XpraServer.start "xcalc" None false
    (XpraServer.start "xeyes" None false (Demo.server w, w)).2
  = (Raise (RuntimeError "Server already running"),
     (XpraServer.start "xeyes" None false (Demo.server w, w)).2).
Proof.
  intros w.
  assert ((XpraServer.start "xeyes" None false (Demo.server w, w)).1
          = Raise (RuntimeError
                     "WebSocket endpoint not ready after 10 seconds"))
    as Hfail by (vm_compute; reflexivity).
  exact (proj1 (retry_after_timeout_needs_stop "xeyes" None false
                  (Demo.server w) w Hfail) "xcalc" None false).
Defined.

Lemma start_buffer app_command extra_args use_xvfb s w :
  LogCapture.buffer
    (XpraServer.log_capture
       (XpraServer.start app_command extra_args use_xvfb (s, w)).2.1)
  = LogCapture.buffer (XpraServer.log_capture s).
Proof.
  destruct (start_cases app_command extra_args use_xvfb s w)
    as [[_ ->]
       |[(_ & e & s' & w' & -> & _ & _ & _ & Hlog & _)
        |(_ & s1 & w1 & w2 & _ & [->| ->] & _ & Hbuf)]];
    cbn [fst snd]; by rewrite ?Hlog.
Qed.

(** X11. Lines are lost to [clear] only.  Whatever happens in a session
    (a [start], a [stop], an iteration of a reader, time passing), either
    the lines captured before are still there, in their order and at the
    front of the lines captured now, or what happened was a [clear].
    [start] and [stop] never write the lines themselves; the readers only
    append. *)
Theorem lines_lost_to_clear_only (sw sw' : XpraServer.t * World) :
  step sw sw' →
  LogCapture.get_lines (XpraServer.log_capture sw.1)
  `prefix_of` LogCapture.get_lines (XpraServer.log_capture sw'.1)
  ∨ sw' = (XpraServer.set_log_capture
             (LogCapture.clear (XpraServer.log_capture sw.1)) sw.1, sw.2).
Proof.
  unfold LogCapture.get_lines.
  destruct 1 as [app extra xv [s w]|timeout [s w]|s w|tid r s w Hr Hrun|t s w];
    cbn [fst snd].
  - left. by rewrite start_buffer.
  - left. by rewrite stop_run.
  - by right.
  - left. cbn [XpraServer.log_capture XpraServer.set_log_capture].
    destruct (read_stream_buffer r (XpraServer.log_capture s))
      as [->|(line & ->)]; [done|].
    cbn [LogCapture.buffer LogCapture.set_buffer]. by eexists.
  - by left.
Qed.

Lemma lines_lost_to_clear_only_witness :
  let lc := LogCapture.set_buffer ["[STDOUT] xpra starting"]
              LogCapture.__init__ in
  let s := XpraServer.set_log_capture lc (Demo.server Demo.darwin) in
  let w := with_threads [new_reader ["ready" +:+ Py.newline] "STDOUT"]
             Demo.darwin in
  let r := LogCapture._read_stream
             (new_reader ["ready" +:+ Py.newline] "STDOUT") lc in
  LogCapture.get_lines lc `prefix_of` LogCapture.get_lines r.2
  ∨ (XpraServer.set_log_capture r.2 s, with_threads (<[0%nat := r.1]> (w_threads w)) w)
    = (XpraServer.set_log_capture (LogCapture.clear lc) s, w).
Proof.
  intros lc s w r.
  exact (lines_lost_to_clear_only (s, w) _
           (step_reader 0 (new_reader ["ready" +:+ Py.newline] "STDOUT") s w
              eq_refl eq_refl)).
Defined.

(** ** How long [stop] takes *)

Lemma clock_advance t w : w_clock (advance t w) = w_clock w + Z.max 0 t.
Proof. reflexivity. Qed.

Lemma clock_emit e w : w_clock (emit e w) = w_clock w.
Proof. reflexivity. Qed.

Lemma clock_signal f p w : w_clock (signal f p w) = w_clock w.
Proof. reflexivity. Qed.

Lemma join_clock tid t w :
  w_clock w ≤ w_clock (join tid t w).2 ≤ w_clock w + Z.max 0 (1000 * t).
Proof.
  unfold join. cbn [snd].
  destruct (thread_finished _ _); rewrite ?clock_advance, clock_emit; lia.
Qed.

Lemma shut_down_clock proc timeout w :
  w_clock w ≤ w_clock (XpraServer.shut_down proc timeout w).2
  ≤ w_clock w + Z.max 0 (1000 * timeout).
Proof.
  rewrite shut_down_unfold. cbv zeta.
  destruct (wait_expires _ _ _) eqn:Hexp.
  - rewrite status_of_emit, status_of_signal_eq by done.
    destruct (on_sigkill_exited
                (status_of
                   (emit (EvKill (pid proc))
                      (advance (1000 * timeout)
                         (emit (EvWait (pid proc) (Some timeout))
                            (signal on_sigterm (pid proc)
                               (emit (EvTerminate (pid proc)) w)))))
                   (pid proc))) as [rc ->].
    cbn [time_to_exit snd].
    rewrite clock_advance, clock_emit, clock_signal, clock_emit,
      clock_advance, clock_emit, clock_signal, clock_emit. lia.
  - cbn [snd]. rewrite clock_advance, clock_emit, clock_signal, clock_emit.
    unfold wait_expires in Hexp.
    destruct (status_of _ _) as [[l|] d|r|rc]; cbn in Hexp |- *;
      try apply bool_decide_eq_false in Hexp; try done; lia.
Qed.

Lemma capture_stop_clock lc w :
  w_clock w ≤ w_clock (LogCapture.stop (lc, w)).2.2 ≤ w_clock w + 4000.
Proof.
  assert (LogCapture.stop (lc, w)
          = (Ok tt,
             (LogCapture.set_stop_event true lc,
              match LogCapture.stderr_thread lc with
              | Some t2 =>
                  (join t2 2
                     match LogCapture.stdout_thread lc with
                     | Some t1 => (join t1 2 w).2
                     | None => w
                     end).2
              | None =>
                  match LogCapture.stdout_thread lc with
                  | Some t1 => (join t1 2 w).2
                  | None => w
                  end
              end))) as ->.
  { unfold LogCapture.stop. destruct lc as [[t1|] [t2|] buf ev]; meval. }
  cbn [snd].
  destruct (LogCapture.stdout_thread lc) as [t1|],
           (LogCapture.stderr_thread lc) as [t2|].
  - pose proof (join_clock t1 2 w).
    pose proof (join_clock t2 2 (join t1 2 w).2). lia.
  - pose proof (join_clock t1 2 w). lia.
  - pose proof (join_clock t2 2 w). lia.
  - lia.
Qed.

(** X12. [stop(timeout)] is over within [timeout + 9] seconds: at most two
    seconds for each of the two joins, [timeout] for the main process and
    five seconds for the helper (a negative [timeout] counting as zero);
    the waits that follow a SIGKILL add nothing. *)
Theorem stop_time_bound (timeout : Z) (s : XpraServer.t) (w : World) :
  w_clock w ≤ w_clock (XpraServer.stop timeout (s, w)).2.2
  ≤ w_clock w + 1000 * (Z.max 0 timeout + 9).
Proof.
  rewrite stop_run. cbn [snd]. unfold world_after_main, world_after_capture.
  pose proof (capture_stop_clock (XpraServer.log_capture s) w) as Hcap.
  destruct (XpraServer.process s) as [proc|],
           (XpraServer.xvfb_process s) as [helper|].
  - pose proof (shut_down_clock proc timeout
                  (LogCapture.stop (XpraServer.log_capture s, w)).2.2).
    pose proof (shut_down_clock helper 5
                  (XpraServer.shut_down proc timeout
                     (LogCapture.stop (XpraServer.log_capture s, w)).2.2).2).
    lia.
  - pose proof (shut_down_clock proc timeout
                  (LogCapture.stop (XpraServer.log_capture s, w)).2.2).
    lia.
  - pose proof (shut_down_clock helper 5
                  (LogCapture.stop (XpraServer.log_capture s, w)).2.2).
    lia.
  - lia.
Qed.

(** ** The endpoint of a session *)

Lemma start_endpoint app_command extra_args use_xvfb s w :
  same_endpoint s
    (XpraServer.start app_command extra_args use_xvfb (s, w)).2.1.
Proof.
  destruct (start_cases app_command extra_args use_xvfb s w)
    as [[_ ->]
       |[(_ & e & s' & w' & -> & _ & _ & _ & _ & _ & d & x & ->)
        |(_ & s1 & w1 & w2 & Hlaunch & [->| ->] & _)]];
    cbn [fst snd]; try done.
  all: apply launch_inv in Hlaunch
    as (d & x & w' & prog & _ & _ & _ & _ & _ & _ & -> & _); done.
Qed.

Lemma step_endpoint sw sw' : step sw sw' → same_endpoint sw.1 sw'.1.
Proof.
  destruct 1 as [app extra xv [s w]|timeout [s w]|s w|tid r s w Hr Hrun|t s w];
    cbn [fst]; try done.
  - apply start_endpoint.
  - by rewrite stop_run.
Qed.

Lemma steps_endpoint sw sw' : rtc step sw sw' → same_endpoint sw.1 sw'.1.
Proof.
  induction 1 as [sw|sw0 sw1 sw2 Hstep _ IH]; [by unfold same_endpoint|].
  apply step_endpoint in Hstep.
  destruct Hstep as (? & ? & ?), IH as (? & ? & ?).
  unfold same_endpoint. repeat split; congruence.
Qed.

(** X13. The host, the port and the platform of a session are fixed when
    it is made: the port is the one given, or a free port when none or
    port 0 is given, and nothing that happens later ([start], [stop],
    [clear], the readers, time) changes them.  So every [start] that
    returns in the life of the session returns the same URL. *)
Theorem endpoint_fixed (h : string) (p : option Z) (w : World)
    (sw : XpraServer.t * World) :
  rtc step (XpraServer.__init__ h p w, w) sw →
  XpraServer.host sw.1 = h
  ∧ XpraServer.port sw.1
    = match p with
      | Some 0 | None => w_free_port w
      | Some n => n
      end
  ∧ XpraServer.platform sw.1 = w_platform w
  ∧ ∀ app_command extra_args use_xvfb url,
      (XpraServer.start app_command extra_args use_xvfb sw).1 = Ok url →
      url = "ws://" +:+ h +:+ ":"
            +:+ Py.str match p with
                       | Some 0 | None => w_free_port w
                       | Some n => n
                       end +:+ "/".
Proof.
  intros Hsteps.
  apply steps_endpoint in Hsteps as (Hh & Hp & Hplat). cbn [fst] in Hh, Hp, Hplat.
  assert (XpraServer.port (XpraServer.__init__ h p w)
          = match p with
            | Some 0 | None => w_free_port w
            | Some n => n
            end) as Hport.
  { unfold XpraServer.__init__, XpraServer._get_free_port. cbn.
    destruct p as [[| |]|]; done. }
  rewrite Hh, Hp, Hplat, Hport. split; [done|]. split; [done|]. split; [done|].
  intros app extra xv url Hurl. destruct sw as [s1 w1]. cbn [fst] in *.
  destruct (start_cases app extra xv s1 w1)
    as [[_ Hrun]
       |[(_ & e & s' & w' & Hrun & _)
        |(_ & s2 & w2 & w3 & _ & [Hrun|Hrun] & _)]];
    rewrite Hrun in Hurl; cbn [fst] in Hurl; try done.
  injection Hurl as <-. unfold ws_url. by rewrite Hh, Hp, Hport.
Qed.

Lemma endpoint_fixed_witness :
  let w := Demo.darwin in
  let sw := (XpraServer.start "xeyes" None false
               (XpraServer.__init__ "localhost" (Some 0) w, w)).2 in
  XpraServer.host (XpraServer.stop 10 sw).2.1 = "localhost"
  ∧ XpraServer.port (XpraServer.stop 10 sw).2.1 = 14500.
Proof.
  intros w sw.
  destruct (endpoint_fixed "localhost" (Some 0) w (XpraServer.stop 10 sw).2)
    as (Hh & Hp & _).
  - eapply rtc_l; [apply step_start|]. apply rtc_once, step_stop.
  - split; [exact Hh|exact Hp].
Defined.

(** * The callers: [client.py], [test_case.py], [conftest.py] *)

Lemma c_bind_eval {S A B} (m : C S A) (k : A → C S B) (s s1 : S)
    (r : result A) (r' : result B * S) :
  m s = (r, s1) →
  match r with
  | Value a => k a s1
  | Error e => (Error e, s1)
  | Blocked => (Blocked, s1)
  end = r' →
  (m ≫= k) s = r'.
Proof. intros Hm Hk. unfold mbind, C_bind. rewrite Hm. by destruct r. Qed.

Lemma this_run {X} (x : X) (m : Machine) : this (x, m) = (Value x, (x, m)).
Proof. reflexivity. Qed.

Lemma machine_run {X} (x : X) (m : Machine) :
  machine (x, m) = (Value m, (x, m)).
Proof. reflexivity. Qed.

Lemma assign_run {X} (f : X → X) (x : X) (m : Machine) :
  assign f (x, m) = (Value tt, (f x, m)).
Proof. reflexivity. Qed.

Lemma throw_run {S A} (e : exception) (s : S) :
  throw (A:=A) e s = (Error e, s).
Proof. reflexivity. Qed.

Lemma c_ret_run {S A} (a : A) (s : S) : (mret a : C S A) s = (Value a, s).
Proof. reflexivity. Qed.

Lemma ext_run {X A} (m : C Machine A) (x : X) (mach : Machine) :
  ext m (x, mach) = ((m mach).1, (x, (m mach).2)).
Proof. unfold ext. cbn [fst snd]. by destruct (m mach). Qed.

Lemma on_client_run {A} (m : C (PlaywrightClient.t * Machine) A) c self mach :
  XpraGUITestCase.on_client m c (self, mach)
  = ((m (c, mach)).1,
     (XpraGUITestCase.set_client (Some (m (c, mach)).2.1) self,
      (m (c, mach)).2.2)).
Proof.
  unfold XpraGUITestCase.on_client, client_call. cbn [fst snd].
  by destruct (m (c, mach)) as [r [c' m']].
Qed.

Lemma server_call_run {A} (m : M (XpraServer.t * World) A) s mach :
  server_call m (s, mach)
  = (of_outcome (m (s, m_world mach)).1,
     ((m (s, m_world mach)).2.1, with_world (m (s, m_world mach)).2.2 mach)).
Proof.
  unfold server_call. cbn [fst snd].
  by destruct (m (s, m_world mach)) as [o [s' w']].
Qed.

Lemma on_server_run {A} (m : M (XpraServer.t * World) A) s self mach :
  XpraGUITestCase.on_server m s (self, mach)
  = (of_outcome (m (s, m_world mach)).1,
     (XpraGUITestCase.set_server (Some (m (s, m_world mach)).2.1) self,
      with_world (m (s, m_world mach)).2.2 mach)).
Proof.
  unfold XpraGUITestCase.on_server. cbn [fst snd]. by rewrite server_call_run.
Qed.

(** Both processes of a session have exited when [stop] returns. *)
Lemma stop_exits timeout s w proc :
  XpraServer.process s = Some proc ∨ XpraServer.xvfb_process s = Some proc →
  has_exited (XpraServer.stop timeout (s, w)).2.2 proc.
Proof.
  rewrite stop_run. cbn [snd]. intros [Hproc|Hproc].
  - assert (has_exited (world_after_main timeout s w) proc) as Hex.
    { unfold world_after_main. rewrite Hproc.
      by destruct (shut_down_run proc timeout (world_after_capture s w))
        as (_ & _ & ? & _). }
    destruct (XpraServer.xvfb_process s) as [helper|]; [|done].
    destruct (shut_down_run helper 5 (world_after_main timeout s w))
      as (_ & _ & _ & _ & Hother).
    by apply Hother.
  - rewrite Hproc.
    by destruct (shut_down_run proc 5 (world_after_main timeout s w))
      as (_ & _ & ? & _).
Qed.

(** The second half of [tearDown]. *)
Lemma tearDown_server s c mach :
  (self ← this;
   match XpraGUITestCase.server self with
   | Some s =>
       try_except
         (XpraGUITestCase.on_server
            (XpraServer.stop XpraServer.default_timeout) s)
         (λ _, mret tt);;
       assign (XpraGUITestCase.set_server None)
   | None => mret tt
   end)
    ({| XpraGUITestCase.server := s; XpraGUITestCase.client := c |}, mach)
  = (Value tt,
     ({| XpraGUITestCase.server := None; XpraGUITestCase.client := c |},
      match s with
      | Some s =>
          with_world
            (XpraServer.stop XpraServer.default_timeout
               (s, m_world mach)).2.2 mach
      | None => mach
      end)).
Proof.
  eapply c_bind_eval; [apply this_run|]. cbn beta iota.
  cbn [XpraGUITestCase.server]. destruct s as [s|]; [|reflexivity].
  eapply c_bind_eval.
  { unfold try_except. rewrite on_server_run, stop_run. cbn [fst snd of_outcome].
    reflexivity. }
  rewrite stop_run. reflexivity.
Qed.

(** [tearDown] in closed form. *)
Lemma tearDown_run srv cl m :
  XpraGUITestCase.tearDown
    ({| XpraGUITestCase.server := srv; XpraGUITestCase.client := cl |}, m)
  = match cl with
    | Some c =>
        match PlaywrightClient.disconnect (c, m) with
        | (Blocked, (c', m')) =>
            (Blocked,
             ({| XpraGUITestCase.server := srv;
                 XpraGUITestCase.client := Some c' |}, m'))
        | (_, (_, m')) =>
            (Value tt,
             ({| XpraGUITestCase.server := None;
                 XpraGUITestCase.client := None |},
              match srv with
              | Some s =>
                  with_world
                    (XpraServer.stop XpraServer.default_timeout
                       (s, m_world m')).2.2 m'
              | None => m'
              end))
        end
    | None =>
        (Value tt,
         ({| XpraGUITestCase.server := None; XpraGUITestCase.client := None |},
          match srv with
          | Some s =>
              with_world
                (XpraServer.stop XpraServer.default_timeout
                   (s, m_world m)).2.2 m
          | None => m
          end))
    end.
Proof.
  unfold XpraGUITestCase.tearDown.
  eapply c_bind_eval; [apply this_run|]. cbn beta iota.
  cbn [XpraGUITestCase.client].
  destruct cl as [c|].
  - destruct (PlaywrightClient.disconnect (c, m)) as [[[]|e|] [c' m']] eqn:Hdis.
    + eapply c_bind_eval.
      { eapply c_bind_eval.
        { unfold try_except. rewrite on_client_run, Hdis. cbn [fst snd].
          reflexivity. }
        cbn beta iota. apply assign_run. }
      cbn beta iota. apply tearDown_server.
    + eapply c_bind_eval.
      { eapply c_bind_eval.
        { unfold try_except. rewrite on_client_run, Hdis. cbn [fst snd].
          apply c_ret_run. }
        cbn beta iota. apply assign_run. }
      cbn beta iota. apply tearDown_server.
    + eapply c_bind_eval.
      { eapply c_bind_eval.
        { unfold try_except. rewrite on_client_run, Hdis. cbn [fst snd].
          reflexivity. }
        reflexivity. }
      reflexivity.
  - eapply c_bind_eval; [apply c_ret_run|]. cbn beta iota.
    apply tearDown_server.
Qed.

(** X14. [tearDown] never raises: what [disconnect] or [stop] raise is
    swallowed.  It returns unless a call of [disconnect] into Playwright
    blocks for ever, and when it returns both attributes are [None] and
    the main process and the helper of the server it held have exited,
    whether or not [disconnect] failed.  The only calls into Playwright
    are those of the one [disconnect]. *)
Theorem tearDown_cleans_up (self : XpraGUITestCase.t) (m : Machine) :
  match (XpraGUITestCase.tearDown (self, m)).1 with
  | Value _ =>
      XpraGUITestCase.server (XpraGUITestCase.tearDown (self, m)).2.1 = None
      ∧ XpraGUITestCase.client (XpraGUITestCase.tearDown (self, m)).2.1 = None
      ∧ (∀ s proc,
           XpraGUITestCase.server self = Some s →
           XpraServer.process s = Some proc
           ∨ XpraServer.xvfb_process s = Some proc →
           has_exited (m_world (XpraGUITestCase.tearDown (self, m)).2.2) proc)
      ∧ m_calls (XpraGUITestCase.tearDown (self, m)).2.2
        = match XpraGUITestCase.client self with
          | Some c => m_calls (PlaywrightClient.disconnect (c, m)).2.2
          | None => m_calls m
          end
  | Error _ => False
  | Blocked =>
      ∃ c, XpraGUITestCase.client self = Some c
           ∧ (PlaywrightClient.disconnect (c, m)).1 = Blocked
  end.
Proof.
  destruct self as [srv cl]. rewrite tearDown_run.
  cbn [XpraGUITestCase.server XpraGUITestCase.client].
  assert (∀ mach,
            ∀ s proc,
              srv = Some s →
              XpraServer.process s = Some proc
              ∨ XpraServer.xvfb_process s = Some proc →
              has_exited
                (m_world
                   match srv with
                   | Some s =>
                       with_world
                         (XpraServer.stop XpraServer.default_timeout
                            (s, m_world mach)).2.2 mach
                   | None => mach
                   end) proc) as Hexit.
  { intros mach s proc -> Hproc. cbn [m_world with_world].
    by apply stop_exits. }
  destruct cl as [c|].
  - destruct (PlaywrightClient.disconnect (c, m)) as [[[]|e|] [c' m']]
      eqn:Hdis;
      cbn [fst snd XpraGUITestCase.server XpraGUITestCase.client].
    + split; [done|]. split; [done|]. split; [apply Hexit|by destruct srv].
    + split; [done|]. split; [done|]. split; [apply Hexit|by destruct srv].
    + exists c. by rewrite Hdis.
  - cbn [fst snd XpraGUITestCase.server XpraGUITestCase.client].
    split; [done|]. split; [done|]. split; [apply Hexit|by destruct srv].
Qed.

(** [start_gui] on a test case without a server, in closed form. *)
Lemma start_gui_run app_command headless use_xvfb extra_args cl m :
  XpraGUITestCase.start_gui app_command headless use_xvfb extra_args
    ({| XpraGUITestCase.server := None; XpraGUITestCase.client := cl |}, m)
  = match XpraServer.start app_command extra_args use_xvfb
            (XpraServer.__init__ "127.0.0.1" None (m_world m), m_world m) with
    | (Ok url, (s1, w1)) =>
        match PlaywrightClient.connect
                (PlaywrightClient.__init__ url headless, with_world w1 m) with
        | (r, (c', m')) =>
            (r, ({| XpraGUITestCase.server := Some s1;
                    XpraGUITestCase.client := Some c' |}, m'))
        end
    | (Raise e, (s1, w1)) =>
        (Error (Std e),
         ({| XpraGUITestCase.server := Some s1;
             XpraGUITestCase.client := cl |}, with_world w1 m))
    | (Hang, (s1, w1)) =>
        (Blocked,
         ({| XpraGUITestCase.server := Some s1;
             XpraGUITestCase.client := cl |}, with_world w1 m))
    end.
Proof.
  unfold XpraGUITestCase.start_gui.
  eapply c_bind_eval; [apply this_run|]. cbn beta iota.
  cbn [XpraGUITestCase.server].
  eapply c_bind_eval; [apply machine_run|]. cbn beta iota zeta.
  eapply c_bind_eval; [apply assign_run|]. cbn beta iota.
  destruct (XpraServer.start app_command extra_args use_xvfb
              (XpraServer.__init__ "127.0.0.1" None (m_world m), m_world m))
    as [[url|e|] [s1 w1]] eqn:Hstart.
  - eapply c_bind_eval.
    { rewrite on_server_run, Hstart. cbn [fst snd of_outcome]. reflexivity. }
    cbn beta iota zeta.
    eapply c_bind_eval; [apply assign_run|]. cbn beta iota.
    rewrite on_client_run.
    by destruct (PlaywrightClient.connect _) as [r [c' m']].
  - eapply c_bind_eval.
    { rewrite on_server_run, Hstart. cbn [fst snd of_outcome]. reflexivity. }
    reflexivity.
  - eapply c_bind_eval.
    { rewrite on_server_run, Hstart. cbn [fst snd of_outcome]. reflexivity. }
    reflexivity.
Qed.

Lemma start_gui_rejected app_command headless use_xvfb extra_args self m :
  is_Some (XpraGUITestCase.server self) →
  XpraGUITestCase.start_gui app_command headless use_xvfb extra_args (self, m)
  = (Error (Std (RuntimeError "Server already running")), (self, m)).
Proof.
  intros [s Hs]. unfold XpraGUITestCase.start_gui.
  eapply c_bind_eval; [apply this_run|]. cbn beta iota. by rewrite Hs.
Qed.

Lemma start_gui_sets_server app_command headless use_xvfb extra_args self m :
  is_Some (XpraGUITestCase.server
             (XpraGUITestCase.start_gui app_command headless use_xvfb
                extra_args (self, m)).2.1).
Proof.
  destruct self as [[s|] cl].
  - rewrite start_gui_rejected by by eexists. by eexists.
  - rewrite start_gui_run.
    destruct (XpraServer.start _ _ _ _) as [[url|e|] [s1 w1]];
      try destruct (PlaywrightClient.connect _) as [r [c' m']];
      by eexists.
Qed.

(** X15. [start_gui] sets the server attribute before it starts the
    server, and does not reset it on failure.  So whatever the first
    [start_gui] of a test did, whether it returned, or the server failed to
    start, or the client failed to connect, every further [start_gui]
    raises "Server already running" and changes nothing.  When the server
    fails to start, its error comes through, the server object stays in
    the attribute as the failed [start] left it, the client attribute is
    untouched and no call into Playwright is made. *)
Theorem start_gui_only_once (app_command : string) (headless use_xvfb : bool)
    (extra_args : option (list string)) (self : XpraGUITestCase.t)
    (m : Machine) :
  (∀ app_command' headless' use_xvfb' extra_args',
     XpraGUITestCase.start_gui app_command' headless' use_xvfb' extra_args'
       (XpraGUITestCase.start_gui app_command headless use_xvfb extra_args
          (self, m)).2
     = (Error (Std (RuntimeError "Server already running")),
        (XpraGUITestCase.start_gui app_command headless use_xvfb extra_args
           (self, m)).2))
  ∧ (∀ e,
       XpraGUITestCase.server self = None →
       (XpraServer.start app_command extra_args use_xvfb
          (XpraServer.__init__ "127.0.0.1" None (m_world m), m_world m)).1
       = Raise e →
       XpraGUITestCase.start_gui app_command headless use_xvfb extra_args
         (self, m)
       = (Error (Std e),
          (XpraGUITestCase.set_server
             (Some (XpraServer.start app_command extra_args use_xvfb
                      (XpraServer.__init__ "127.0.0.1" None (m_world m),
                       m_world m)).2.1) self,
           with_world
             (XpraServer.start app_command extra_args use_xvfb
                (XpraServer.__init__ "127.0.0.1" None (m_world m),
                 m_world m)).2.2 m))).
Proof.
  split.
  - intros app' hl' xv' extra'.
    pose proof (start_gui_sets_server app_command headless use_xvfb
                  extra_args self m) as Hset.
    destruct (XpraGUITestCase.start_gui app_command headless use_xvfb
                extra_args (self, m)) as [r [self' m']].
    by apply start_gui_rejected.
  - intros e Hnone Hfail. destruct self as [srv cl]. cbn in Hnone. subst srv.
    rewrite start_gui_run.
    destruct (XpraServer.start _ _ _ _) as [[url|e'|] [s1 w1]];
      cbn [fst snd] in *; [done| |done].
    by injection Hfail as ->.
Qed.

(** ** [PlaywrightClient] *)

Lemma playwright_call_run c m :
  playwright_call c m
  = (match m_reply m (m_calls m) c with
     | Returns v => Value v
     | Throws e => Error e
     | Never => Blocked
     end, after_call c m).
Proof. unfold playwright_call, after_call. by destruct (m_reply _ _ _). Qed.

Lemma playwright_new_run c m :
  playwright_new c m
  = (match m_reply m (m_calls m) c with
     | Returns _ => Value (length (m_calls m))
     | Throws e => Error e
     | Never => Blocked
     end, after_call c m).
Proof.
  unfold playwright_new. rewrite playwright_call_run.
  by destruct (m_reply _ _ _).
Qed.

Lemma connected_page_fail c m :
  PlaywrightClient._connected c = false ∨ PlaywrightClient.page c = None →
  PlaywrightClient.connected_page (c, m) = (Error not_connected, (c, m)).
Proof.
  intros Hc. unfold PlaywrightClient.connected_page.
  eapply c_bind_eval; [apply this_run|]. cbn beta iota.
  destruct (PlaywrightClient.page c) as [pg|]; [|done].
  destruct Hc as [->|?]; done.
Qed.

Lemma connected_page_ok c m pg :
  PlaywrightClient._connected c = true →
  PlaywrightClient.page c = Some pg →
  PlaywrightClient.connected_page (c, m) = (Value pg, (c, m)).
Proof.
  intros Hc Hpg. unfold PlaywrightClient.connected_page.
  eapply c_bind_eval; [apply this_run|]. cbn beta iota.
  by rewrite Hpg, Hc.
Qed.

(** X16. Every operation of a client that is not connected (the flag is
    clear, or there is no page) raises [RuntimeError("Not connected")]
    without a single call into Playwright and without changing the
    client. *)
Theorem operations_need_connection (c : PlaywrightClient.t) (m : Machine)
    (path selector script : string) (timeout x y : Z) (args : list pyval) :
  PlaywrightClient._connected c = false ∨ PlaywrightClient.page c = None →
  PlaywrightClient.screenshot path (c, m) = (Error not_connected, (c, m))
  ∧ PlaywrightClient.click selector timeout (c, m)
    = (Error not_connected, (c, m))
  ∧ PlaywrightClient.click_canvas_at x y (c, m)
    = (Error not_connected, (c, m))
  ∧ PlaywrightClient.wait_for_element selector timeout (c, m)
    = (Error not_connected, (c, m))
  ∧ PlaywrightClient.wait_for_canvas timeout (c, m)
    = (Error not_connected, (c, m))
  ∧ PlaywrightClient.get_canvas_size (c, m) = (Error not_connected, (c, m))
  ∧ PlaywrightClient.execute_script script args (c, m)
    = (Error not_connected, (c, m)).
Proof.
  intros Hc. pose proof (connected_page_fail c m Hc) as Hfail.
  repeat split.
  all: eapply c_bind_eval; [apply Hfail|reflexivity].
Qed.

Lemma operations_need_connection_witness :
  let c := PlaywrightClient.__init__ "ws://127.0.0.1:14500/" true in
  let m := obliging Demo.darwin in
  PlaywrightClient.screenshot "/tmp/shot.png" (c, m)
  = (Error not_connected, (c, m)).
Proof.
  intros c m.
  exact (proj1 (operations_need_connection c m "/tmp/shot.png" "" "" 0 0 0 []
                  (or_introl eq_refl))).
Defined.

(** *** [_wait_for_canvas] *)

Lemma after_call_calls c m : m_calls (after_call c m) = m_calls m ++ [c].
Proof. reflexivity. Qed.

Lemma after_call_reply c m : m_reply (after_call c m) = m_reply m.
Proof. reflexivity. Qed.

Lemma after_call_elapsed c m : m_elapsed (after_call c m) = m_elapsed m.
Proof. reflexivity. Qed.

Lemma after_call_clock c m :
  w_clock (m_world (after_call c m))
  = w_clock (m_world m) + Z.max 0 (m_elapsed m (m_calls m) c).
Proof. reflexivity. Qed.

Lemma try_selectors_S pg timeout selector rest m :
  PlaywrightClient.try_selectors (Some pg) timeout (selector :: rest) m
  = match m_reply m (m_calls m) (WaitForSelector pg selector timeout) with
    | Returns _ =>
        (Value true, after_call (WaitForSelector pg selector timeout) m)
    | Throws _ =>
        PlaywrightClient.try_selectors (Some pg) timeout rest
          (after_call (WaitForSelector pg selector timeout) m)
    | Never => (Blocked, after_call (WaitForSelector pg selector timeout) m)
    end.
Proof.
  cbn [PlaywrightClient.try_selectors]. unfold try_except, mbind, C_bind.
  rewrite playwright_call_run. by destruct (m_reply _ _ _).
Qed.

Lemma all_throw_cons m c cs :
  all_throw m (c :: cs) →
  (∃ e, m_reply m (m_calls m) c = Throws e) ∧ all_throw (after_call c m) cs.
Proof.
  intros Hall. split.
  - destruct (Hall 0%nat c eq_refl) as [e He]. exists e.
    by rewrite take_0, app_nil_r in He.
  - intros i c' Hc'. destruct (Hall (S i) c' Hc') as [e He]. exists e.
    by rewrite after_call_reply, after_call_calls, <- app_assoc.
Qed.

(** No selector is found. *)
Lemma try_selectors_none pg timeout sels :
  ∀ m, all_throw m (waits pg timeout sels) →
       ∃ m', PlaywrightClient.try_selectors (Some pg) timeout sels m
             = (Value false, m')
             ∧ m_calls m' = m_calls m ++ waits pg timeout sels.
Proof.
  induction sels as [|selector rest IH]; intros m Hall.
  - exists m. by rewrite app_nil_r.
  - apply all_throw_cons in Hall as [[e He] Hall].
    rewrite try_selectors_S, He.
    destruct (IH _ Hall) as (m' & -> & Hcalls). exists m'. split; [done|].
    by rewrite Hcalls, after_call_calls, <- app_assoc.
Qed.

(** The first selector that is found ends the loop. *)
Lemma try_selectors_found pg timeout before selector after v :
  ∀ m, all_throw m (waits pg timeout before) →
       m_reply m (m_calls m ++ waits pg timeout before)
         (WaitForSelector pg selector timeout) = Returns v →
       ∃ m', PlaywrightClient.try_selectors (Some pg) timeout
               (before ++ selector :: after) m
             = (Value true, m')
             ∧ m_calls m' = m_calls m ++ waits pg timeout (before ++ [selector]).
Proof.
  induction before as [|first before IH]; intros m Hall Hfound.
  - cbn [app]. rewrite try_selectors_S.
    cbn [waits fmap list_fmap] in Hfound. rewrite app_nil_r in Hfound.
    rewrite Hfound. by eexists.
  - cbn [waits fmap list_fmap] in Hall.
    apply all_throw_cons in Hall as [[e He] Hall].
    cbn [app]. rewrite try_selectors_S, He.
    destruct (IH (after_call (WaitForSelector pg first timeout) m))
      as (m' & -> & Hcalls); [done| |].
    { rewrite after_call_reply, after_call_calls, <- app_assoc. exact Hfound. }
    exists m'. split; [done|].
    by rewrite Hcalls, after_call_calls, <- app_assoc.
Qed.

Lemma wait_for_canvas_run timeout c m :
  PlaywrightClient._wait_for_canvas timeout (c, m)
  = (match (PlaywrightClient.try_selectors (PlaywrightClient.page c) timeout
              PlaywrightClient.selectors m).1 with
     | Value true => Value tt
     | Value false =>
         Error (Std (RuntimeError ("Xpra canvas not found after "
                                   +:+ Py.str timeout +:+ "ms")))
     | Error e => Error e
     | Blocked => Blocked
     end,
     (c, (PlaywrightClient.try_selectors (PlaywrightClient.page c) timeout
            PlaywrightClient.selectors m).2)).
Proof.
  unfold PlaywrightClient._wait_for_canvas.
  eapply c_bind_eval; [apply this_run|]. cbn beta iota.
  eapply c_bind_eval; [apply ext_run|].
  by destruct (PlaywrightClient.try_selectors _ _ _ _) as [[[]|e|] m'].
Qed.

(** X17. [_wait_for_canvas(timeout)] on a client with a page waits for
    the five selectors in their fixed order, each with the full timeout,
    and takes the first that is found: when the waits for the selectors
    before it raise (whatever they raise) and the wait for it returns,
    [_wait_for_canvas] returns, and no later selector is tried.  When all
    five waits raise, it raises [RuntimeError("Xpra canvas not found after
    <timeout>ms")], after exactly five waits. *)
Theorem wait_for_canvas_tries_in_order (c : PlaywrightClient.t) (m : Machine)
    (pg : nat) (timeout : Z) :
  PlaywrightClient.page c = Some pg →
  (∀ before selector after v,
     PlaywrightClient.selectors = before ++ selector :: after →
     all_throw m (waits pg timeout before) →
     m_reply m (m_calls m ++ waits pg timeout before)
       (WaitForSelector pg selector timeout) = Returns v →
     ∃ m', PlaywrightClient._wait_for_canvas timeout (c, m)
           = (Value tt, (c, m'))
           ∧ m_calls m'
             = m_calls m ++ waits pg timeout (before ++ [selector]))
  ∧ (all_throw m (waits pg timeout PlaywrightClient.selectors) →
     ∃ m', PlaywrightClient._wait_for_canvas timeout (c, m)
           = (Error (Std (RuntimeError ("Xpra canvas not found after "
                                        +:+ Py.str timeout +:+ "ms"))),
              (c, m'))
           ∧ m_calls m'
             = m_calls m
               ++ [WaitForSelector pg "canvas[keyboard='true']" timeout;
                   WaitForSelector pg "canvas[keyboard=true]" timeout;
                   WaitForSelector pg "canvas.xpra-canvas" timeout;
                   WaitForSelector pg "#xpra-canvas" timeout;
                   WaitForSelector pg "canvas" timeout]).
Proof.
  intros Hpg. split.
  - intros before selector after v Hsel Hall Hfound.
    destruct (try_selectors_found pg timeout before selector after v m
                Hall Hfound) as (m' & Hrun & Hcalls).
    exists m'. split; [|done].
    by rewrite wait_for_canvas_run, Hpg, Hsel, Hrun.
  - intros Hall.
    destruct (try_selectors_none pg timeout PlaywrightClient.selectors m Hall)
      as (m' & Hrun & Hcalls).
    exists m'. split; [|done].
    by rewrite wait_for_canvas_run, Hpg, Hrun.
Qed.

Lemma wait_for_canvas_tries_in_order_witness :
  let c := PlaywrightClient.set_page (Some 3%nat)
             (PlaywrightClient.__init__ "ws://127.0.0.1:14500/" true) in
  ∃ m', PlaywrightClient._wait_for_canvas 2000 (c, blank_page Demo.darwin)
        = (Error (Std (RuntimeError "Xpra canvas not found after 2000ms")),
           (c, m'))
        ∧ m_calls m'
          = [WaitForSelector 3 "canvas[keyboard='true']" 2000;
             WaitForSelector 3 "canvas[keyboard=true]" 2000;
             WaitForSelector 3 "canvas.xpra-canvas" 2000;
             WaitForSelector 3 "#xpra-canvas" 2000;
             WaitForSelector 3 "canvas" 2000].
Proof.
  intros c.
  apply (proj2 (wait_for_canvas_tries_in_order c (blank_page Demo.darwin)
                  3 2000 eq_refl)).
  intros i call Hcall. exists (PlaywrightError "Timeout exceeded").
  do 5 (destruct i as [|i]; [by injection Hcall as <-|]). done.
Defined.

(** *** [disconnect] *)

Lemma disconnect_run c m :
  PlaywrightClient.disconnect (c, m)
  = let stop_playwright c1 m1 :=
      match PlaywrightClient.playwright c1 with
      | Some pw =>
          match m_reply m1 (m_calls m1) (PlaywrightStop pw) with
          | Returns _ =>
              (Value tt,
               (PlaywrightClient.set_connected false
                  (PlaywrightClient.set_page None
                     (PlaywrightClient.set_playwright None c1)),
                after_call (PlaywrightStop pw) m1))
          | Throws e => (Error e, (c1, after_call (PlaywrightStop pw) m1))
          | Never => (Blocked, (c1, after_call (PlaywrightStop pw) m1))
          end
      | None =>
          (Value tt,
           (PlaywrightClient.set_connected false
              (PlaywrightClient.set_page None c1), m1))
      end in
    match PlaywrightClient.browser c with
    | Some b =>
        match m_reply m (m_calls m) (BrowserClose b) with
        | Returns _ =>
            stop_playwright (PlaywrightClient.set_browser None c)
              (after_call (BrowserClose b) m)
        | Throws e => (Error e, (c, after_call (BrowserClose b) m))
        | Never => (Blocked, (c, after_call (BrowserClose b) m))
        end
    | None => stop_playwright c m
    end.
Proof.
  cbn zeta. unfold PlaywrightClient.disconnect.
  eapply c_bind_eval; [apply this_run|]. cbn beta iota.
  assert (∀ c1 m1,
    (c ← this;
     match PlaywrightClient.playwright c with
     | Some pw =>
         ext (playwright_call (PlaywrightStop pw));;
         assign (PlaywrightClient.set_playwright None)
     | None => mret tt
     end;;
     assign (PlaywrightClient.set_page None);;
     assign (PlaywrightClient.set_connected false)) (c1, m1)
    = match PlaywrightClient.playwright c1 with
      | Some pw =>
          match m_reply m1 (m_calls m1) (PlaywrightStop pw) with
          | Returns _ =>
              (Value tt,
               (PlaywrightClient.set_connected false
                  (PlaywrightClient.set_page None
                     (PlaywrightClient.set_playwright None c1)),
                after_call (PlaywrightStop pw) m1))
          | Throws e => (Error e, (c1, after_call (PlaywrightStop pw) m1))
          | Never => (Blocked, (c1, after_call (PlaywrightStop pw) m1))
          end
      | None =>
          (Value tt,
           (PlaywrightClient.set_connected false
              (PlaywrightClient.set_page None c1), m1))
      end) as Htail.
  { intros c1 m1. eapply c_bind_eval; [apply this_run|]. cbn beta iota.
    destruct (PlaywrightClient.playwright c1) as [pw|].
    - destruct (m_reply m1 (m_calls m1) (PlaywrightStop pw)) eqn:Hreply.
      all: eapply c_bind_eval;
        [eapply c_bind_eval;
           [rewrite ext_run, playwright_call_run, Hreply; cbn [fst snd];
            reflexivity
           |cbn beta iota; first [apply assign_run|reflexivity]]
        |reflexivity].
    - eapply c_bind_eval; [apply c_ret_run|]. reflexivity. }
  destruct (PlaywrightClient.browser c) as [b|].
  - destruct (m_reply m (m_calls m) (BrowserClose b)) eqn:Hreply.
    all: eapply c_bind_eval;
      [eapply c_bind_eval;
         [rewrite ext_run, playwright_call_run, Hreply; cbn [fst snd];
          reflexivity
         |cbn beta iota; first [apply assign_run|reflexivity]]
      |cbn beta iota; first [apply Htail|reflexivity]].
  - eapply c_bind_eval; [apply c_ret_run|]. apply Htail.
Qed.

(** X18. [disconnect] closes the browser it holds, then stops the
    playwright instance it holds, and then clears the page and the flag.
    When it returns the client is as it was made by [__init__], and a
    further [disconnect] makes no call into Playwright at all.  When a
    call raises, the error comes through and the rest is skipped: the
    page and the connected flag stay as they were, so a client whose
    [disconnect] failed still counts as connected. *)
Theorem disconnect_clears (c : PlaywrightClient.t) (m : Machine) :
  ((PlaywrightClient.disconnect (c, m)).1 = Value tt →
   (PlaywrightClient.disconnect (c, m)).2.1
   = PlaywrightClient.__init__ (PlaywrightClient.ws_url c)
       (PlaywrightClient.headless c)
   ∧ m_calls (PlaywrightClient.disconnect (c, m)).2.2 = m_calls m ++ closes c
   ∧ PlaywrightClient.disconnect (PlaywrightClient.disconnect (c, m)).2
     = (Value tt, (PlaywrightClient.disconnect (c, m)).2))
  ∧ (∀ e,
       (PlaywrightClient.disconnect (c, m)).1 = Error e →
       PlaywrightClient._connected (PlaywrightClient.disconnect (c, m)).2.1
       = PlaywrightClient._connected c
       ∧ PlaywrightClient.page (PlaywrightClient.disconnect (c, m)).2.1
         = PlaywrightClient.page c
       ∧ PlaywrightClient.playwright (PlaywrightClient.disconnect (c, m)).2.1
         = PlaywrightClient.playwright c
       ∧ ∃ cs, m_calls (PlaywrightClient.disconnect (c, m)).2.2
               = m_calls m ++ cs
               ∧ cs `prefix_of` closes c).
Proof.
  assert (∀ url hl m0,
            PlaywrightClient.disconnect
              (PlaywrightClient.__init__ url hl, m0)
            = (Value tt, (PlaywrightClient.__init__ url hl, m0))) as Hagain.
  { intros url hl m0. by rewrite disconnect_run. }
  rewrite disconnect_run. cbn zeta. unfold closes.
  destruct c as [url hl [pw|] [b|] pg conn];
    cbn [PlaywrightClient.browser PlaywrightClient.playwright
         PlaywrightClient.set_browser].
  all: repeat (destruct (m_reply _ _ _) as [?|?|]);
    cbn [fst snd]; (split; [intros Hr|intros e0 He0]); try done.
  all: try (split; [done|]; split; [done|]; split; [done|]; eexists;
            split; [by rewrite ?after_call_calls, <- ?app_assoc|];
            solve [by exists []|by eexists [_]]).
  all: split; [done|]; rewrite ?after_call_calls, <- ?app_assoc, ?app_nil_r;
    split; [done|]; apply Hagain.
Qed.

(** *** [connect] *)

Lemma this_step {X B} (k : X → C (X * Machine) B) x m :
  (this ≫= k) (x, m) = k x (x, m).
Proof. reflexivity. Qed.

Lemma assign_step {X B} (f : X → X) (k : unit → C (X * Machine) B) x m :
  (assign f ≫= k) (x, m) = k tt (f x, m).
Proof. reflexivity. Qed.

Lemma new_step {X B} (c0 : call) (k : nat → C (X * Machine) B) x m :
  (ext (playwright_new c0) ≫= k) (x, m)
  = match m_reply m (m_calls m) c0 with
    | Returns _ => k (length (m_calls m)) (x, after_call c0 m)
    | Throws e => (Error e, (x, after_call c0 m))
    | Never => (Blocked, (x, after_call c0 m))
    end.
Proof.
  unfold mbind, C_bind. rewrite ext_run, playwright_new_run. cbn [fst snd].
  by destruct (m_reply _ _ _).
Qed.

Lemma call_step {X B} (c0 : call) (k : pyval → C (X * Machine) B) x m :
  (ext (playwright_call c0) ≫= k) (x, m)
  = match m_reply m (m_calls m) c0 with
    | Returns v => k v (x, after_call c0 m)
    | Throws e => (Error e, (x, after_call c0 m))
    | Never => (Blocked, (x, after_call c0 m))
    end.
Proof.
  unfold mbind, C_bind. rewrite ext_run, playwright_call_run. cbn [fst snd].
  by destruct (m_reply _ _ _).
Qed.

Lemma import_step {X B} (k : unit → C (X * Machine) B) x m :
  (ext PlaywrightClient.import_sync_api ≫= k) (x, m)
  = match m_reply m (m_calls m) ImportSyncApi with
    | Returns _ => k tt (x, after_call ImportSyncApi m)
    | Throws (ImportError _) =>
        (Error (ImportError
                  "playwright is required. Install with: pip install playwright"),
         (x, after_call ImportSyncApi m))
    | Throws e => (Error e, (x, after_call ImportSyncApi m))
    | Never => (Blocked, (x, after_call ImportSyncApi m))
    end.
Proof.
  unfold mbind, C_bind. rewrite ext_run.
  unfold PlaywrightClient.import_sync_api. rewrite playwright_call_run.
  destruct (m_reply _ _ _) as [v|[]|]; reflexivity.
Qed.

(** The waits of the loop are an initial part of the waits for the
    selectors, and the loop itself never raises. *)
Lemma try_selectors_calls pg timeout sels :
  ∀ m, ∃ cs,
    m_calls (PlaywrightClient.try_selectors (Some pg) timeout sels m).2
    = m_calls m ++ cs
    ∧ cs `prefix_of` waits pg timeout sels
    ∧ ∀ e, (PlaywrightClient.try_selectors (Some pg) timeout sels m).1
           ≠ Error e.
Proof.
  induction sels as [|selector rest IH]; intros m.
  - exists []. by rewrite app_nil_r.
  - rewrite try_selectors_S.
    destruct (m_reply m _ _) as [v|e|].
    + exists [WaitForSelector pg selector timeout].
      split; [done|]. split; [|done]. by exists (waits pg timeout rest).
    + destruct (IH (after_call (WaitForSelector pg selector timeout) m))
        as (cs & Hcalls & Hpre & Hne).
      exists (WaitForSelector pg selector timeout :: cs).
      split; [by rewrite Hcalls, after_call_calls, <- app_assoc|].
      split; [|done]. by apply prefix_cons.
    + exists [WaitForSelector pg selector timeout].
      split; [done|]. split; [|done]. by exists (waits pg timeout rest).
Qed.

(** X19. [connect] on a connected client raises
    [RuntimeError("Already connected")] and does nothing.  Otherwise its
    calls into Playwright are an initial part of one fixed sequence: the
    import, the start of Playwright, the launch of Chromium with the
    client's headless flag, a new page, the navigation to the page address
    of the client's URL, and the waits for the canvas selectors; it never
    closes or stops anything.  The connected flag is set exactly when
    [connect] returns, and then the three objects it made are recorded.
    The browser and the playwright instance are recorded as soon as they
    are made: once a page was asked for they are held by the client even
    if [connect] fails afterwards. *)
Theorem connect_calls (c : PlaywrightClient.t) (m : Machine) :
  (PlaywrightClient._connected c = true →
   PlaywrightClient.connect (c, m)
   = (Error (Std (RuntimeError "Already connected")), (c, m)))
  ∧ (PlaywrightClient._connected c = false →
     ∃ cs,
       m_calls (PlaywrightClient.connect (c, m)).2.2 = m_calls m ++ cs
       ∧ cs `prefix_of` connect_script (length (m_calls m)) c
       ∧ ((PlaywrightClient.connect (c, m)).1 = Value tt
          ↔ PlaywrightClient._connected (PlaywrightClient.connect (c, m)).2.1
            = true)
       ∧ ((PlaywrightClient.connect (c, m)).1 = Value tt →
          PlaywrightClient.page (PlaywrightClient.connect (c, m)).2.1
          = Some (length (m_calls m) + 3)%nat)
       ∧ (NewPage (length (m_calls m) + 2) ∈ cs →
          PlaywrightClient.playwright (PlaywrightClient.connect (c, m)).2.1
          = Some (length (m_calls m) + 1)%nat
          ∧ PlaywrightClient.browser (PlaywrightClient.connect (c, m)).2.1
            = Some (length (m_calls m) + 2)%nat)
       ∧ PlaywrightClient.ws_url (PlaywrightClient.connect (c, m)).2.1
         = PlaywrightClient.ws_url c
       ∧ PlaywrightClient.headless (PlaywrightClient.connect (c, m)).2.1
         = PlaywrightClient.headless c).
Proof.
  split.
  - intros Hc. unfold PlaywrightClient.connect. rewrite this_step, Hc.
    reflexivity.
  - intros Hc.
    set (n := length (m_calls m)).
    set (m1 := after_call ImportSyncApi m).
    set (m2 := after_call SyncPlaywrightStart m1).
    set (m3 := after_call (ChromiumLaunch (n + 1) (PlaywrightClient.headless c))
                 m2).
    set (m4 := after_call (NewPage (n + 2)) m3).
    set (m5 := after_call
                 (Goto (n + 3)
                    (PlaywrightClient.page_url (PlaywrightClient.ws_url c)))
                 m4).
    assert (length (m_calls m1) = (n + 1)%nat) as Hn1.
    { unfold m1. by rewrite after_call_calls, length_app. }
    assert (length (m_calls m2) = (n + 2)%nat) as Hn2.
    { unfold m2. rewrite after_call_calls, length_app, Hn1. cbn. lia. }
    assert (length (m_calls m3) = (n + 3)%nat) as Hn3.
    { unfold m3. rewrite after_call_calls, length_app, Hn2. cbn. lia. }
    destruct (PlaywrightClient.connect (c, m)) as [r [c' m']] eqn:Hrun.
    cbn [fst snd].
    unfold PlaywrightClient.connect in Hrun.
    rewrite this_step, Hc, import_step in Hrun. fold m1 in Hrun.
    unfold connect_script, waits. fold n. cbn [app fmap list_fmap].
    destruct (m_reply m (m_calls m) ImportSyncApi) as [?|e0|] eqn:Hr0.
    2:{ exists [ImportSyncApi].
        assert (c' = c ∧ m' = m1 ∧ r ≠ Value tt) as (-> & -> & Hr).
        { destruct e0; by injection Hrun as <- <- <-. }
        split; [done|]. split; [by eexists|].
        split; [split; [done|congruence]|]. split; [done|].
        split; [|done]. set_solver. }
    2:{ injection Hrun as <- <- <-. exists [ImportSyncApi].
        split; [done|]. split; [by eexists|].
        split; [split; [done|congruence]|]. split; [done|].
        split; [|done]. set_solver. }
    rewrite new_step, Hn1 in Hrun. fold m2 in Hrun.
    destruct (m_reply m1 (m_calls m1) SyncPlaywrightStart) as [?|e1|] eqn:Hr1.
    2,3: injection Hrun as <- <- <-;
      exists [ImportSyncApi; SyncPlaywrightStart];
      (split; [by subst m1 m2 m3 m4 m5; rewrite !after_call_calls, <- ?app_assoc|]);
      (split; [by eexists|]);
      (split; [split; [done|congruence]|]); (split; [done|]);
      (split; [|done]); set_solver.
    rewrite assign_step, this_step, new_step, Hn2 in Hrun.
    cbn [PlaywrightClient.headless PlaywrightClient.set_playwright] in Hrun.
    fold m3 in Hrun.
    destruct (m_reply m2 (m_calls m2) _) as [?|e2|] eqn:Hr2.
    2,3: injection Hrun as <- <- <-;
      exists [ImportSyncApi; SyncPlaywrightStart;
              ChromiumLaunch (n + 1) (PlaywrightClient.headless c)];
      (split; [by subst m1 m2 m3 m4 m5; rewrite !after_call_calls, <- ?app_assoc|]);
      (split; [by eexists|]);
      (split; [split; [done|cbn; congruence]|]); (split; [done|]);
      (split; [|done]); set_solver.
    rewrite assign_step, new_step, Hn3 in Hrun. fold m4 in Hrun.
    destruct (m_reply m3 (m_calls m3) _) as [?|e3|] eqn:Hr3.
    2,3: injection Hrun as <- <- <-;
      exists [ImportSyncApi; SyncPlaywrightStart;
              ChromiumLaunch (n + 1) (PlaywrightClient.headless c);
              NewPage (n + 2)];
      (split; [by subst m1 m2 m3 m4 m5; rewrite !after_call_calls, <- ?app_assoc|]);
      (split; [by eexists|]);
      (split; [split; [done|cbn; congruence]|]); (split; [done|]); done.
    rewrite assign_step, this_step, call_step in Hrun.
    cbn [PlaywrightClient.ws_url PlaywrightClient.set_page
         PlaywrightClient.set_browser PlaywrightClient.set_playwright] in Hrun.
    fold m5 in Hrun.
    destruct (m_reply m4 (m_calls m4) _) as [?|e4|] eqn:Hr4.
    2,3: injection Hrun as <- <- <-;
      exists [ImportSyncApi; SyncPlaywrightStart;
              ChromiumLaunch (n + 1) (PlaywrightClient.headless c);
              NewPage (n + 2);
              Goto (n + 3)
                (PlaywrightClient.page_url (PlaywrightClient.ws_url c))];
      (split; [by subst m1 m2 m3 m4 m5; rewrite !after_call_calls, <- ?app_assoc|]);
      (split; [by eexists|]);
      (split; [split; [done|cbn; congruence]|]); (split; [done|]); done.
    unfold mbind at 1, C_bind at 1 in Hrun.
    rewrite wait_for_canvas_run in Hrun.
    cbn [PlaywrightClient.page] in Hrun.
    destruct (try_selectors_calls (n + 3) 10000 PlaywrightClient.selectors m5)
      as (ws & Hcalls & Hpre & Hne).
    destruct (PlaywrightClient.try_selectors _ _ _ m5) as [found m6].
    cbn [fst snd] in *.
    exists ([ImportSyncApi; SyncPlaywrightStart;
             ChromiumLaunch (n + 1) (PlaywrightClient.headless c);
             NewPage (n + 2);
             Goto (n + 3)
               (PlaywrightClient.page_url (PlaywrightClient.ws_url c))]
            ++ ws).
    assert (m_calls m6
            = m_calls m
              ++ [ImportSyncApi; SyncPlaywrightStart;
                  ChromiumLaunch (n + 1) (PlaywrightClient.headless c);
                  NewPage (n + 2);
                  Goto (n + 3)
                    (PlaywrightClient.page_url (PlaywrightClient.ws_url c))]
              ++ ws) as Hm6.
    { rewrite Hcalls. unfold m5, m4, m3, m2, m1.
      by rewrite !after_call_calls, <- !app_assoc. }
    assert (([ImportSyncApi; SyncPlaywrightStart;
              ChromiumLaunch (n + 1) (PlaywrightClient.headless c);
              NewPage (n + 2);
              Goto (n + 3)
                (PlaywrightClient.page_url (PlaywrightClient.ws_url c))]
             ++ ws)
            `prefix_of`
            [ImportSyncApi; SyncPlaywrightStart;
             ChromiumLaunch (n + 1) (PlaywrightClient.headless c);
             NewPage (n + 2);
             Goto (n + 3)
               (PlaywrightClient.page_url (PlaywrightClient.ws_url c));
             WaitForSelector (n + 3) "canvas[keyboard='true']" 10000;
             WaitForSelector (n + 3) "canvas[keyboard=true]" 10000;
             WaitForSelector (n + 3) "canvas.xpra-canvas" 10000;
             WaitForSelector (n + 3) "#xpra-canvas" 10000;
             WaitForSelector (n + 3) "canvas" 10000]) as Hprefix.
    { by apply (prefix_app
                  [ImportSyncApi; SyncPlaywrightStart;
                   ChromiumLaunch (n + 1) (PlaywrightClient.headless c);
                   NewPage (n + 2);
                   Goto (n + 3)
                     (PlaywrightClient.page_url (PlaywrightClient.ws_url c))]). }
    destruct found as [[]|e5|].
    + rewrite assign_run in Hrun. injection Hrun as <- <- <-.
      split; [done|]. split; [done|]. by repeat split.
    + injection Hrun as <- <- <-.
      split; [done|]. split; [done|].
      split; [split; [done|cbn; congruence]|]. by repeat split.
    + by destruct (Hne e5).
    + injection Hrun as <- <- <-.
      split; [done|]. split; [done|].
      split; [split; [done|cbn; congruence]|]. by repeat split.
Qed.

(** *** The address of the HTML5 client *)

Lemma replace_from_absent old new s :
  str_in old s = false → replace_from 0 old new s = s.
Proof.
  induction s as [|c s IH]; [done|].
  cbn [str_in replace_from]. intros Habsent.
  apply orb_false_iff in Habsent as [-> Hrest]. by rewrite IH.
Qed.

(** X20. The address [connect] navigates to is built with
    [ws_url.replace('ws://', '')]: for a URL [ws://rest] in which
    [ws://] does not occur again it is [http://rest?connect=ws://rest];
    a URL without any [ws://] (such as a [wss://] one) is kept whole
    behind [http://]. *)
Theorem page_url_of_ws_url (rest url : string) :
  (str_in "ws://" rest = false →
   PlaywrightClient.page_url ("ws://" +:+ rest)
   = "http://" +:+ rest +:+ "?connect=ws://" +:+ rest)
  ∧ (str_in "ws://" url = false →
     PlaywrightClient.page_url url = "http://" +:+ url +:+ "?connect=" +:+ url).
Proof.
  unfold PlaywrightClient.page_url, replace. split.
  - intros Habsent.
    assert (replace_from 0 "ws://" "" ("ws://" +:+ rest)
            = replace_from 0 "ws://" "" rest) as ->
      by (destruct rest; reflexivity).
    rewrite replace_from_absent by done. reflexivity.
  - intros Habsent. by rewrite replace_from_absent.
Qed.

Lemma page_url_of_ws_url_witness :
  PlaywrightClient.page_url "ws://127.0.0.1:14500/"
  = "http://127.0.0.1:14500/?connect=ws://127.0.0.1:14500/"
  ∧ PlaywrightClient.page_url "wss://example.org/"
    = "http://wss://example.org/?connect=wss://example.org/".
Proof.
  split.
  - exact (proj1 (page_url_of_ws_url "127.0.0.1:14500/" "") eq_refl).
  - exact (proj2 (page_url_of_ws_url "" "wss://example.org/") eq_refl).
Defined.

(** ** The fixtures of [conftest.py] *)

Lemma start_rejected app_command extra_args use_xvfb s w :
  is_Some (XpraServer.process s) →
  XpraServer.start app_command extra_args use_xvfb (s, w)
  = (Raise (RuntimeError "Server already running"), (s, w)).
Proof.
  intros Hsome.
  destruct (start_cases app_command extra_args use_xvfb s w)
    as [[_ ->]|[(Hnone & _)|(Hnone & _)]]; [done|..];
    rewrite Hnone in Hsome; by destruct Hsome.
Qed.

Lemma xpra_server_cleanup_run s w :
  Conftest.xpra_server_cleanup (s, w)
  = if XpraServer.is_running s w
    then XpraServer.stop XpraServer.default_timeout (s, w)
    else (Ok tt, (s, w)).
Proof.
  unfold Conftest.xpra_server_cleanup.
  eapply bind_eval; [apply self_run|]. cbn beta iota.
  eapply bind_eval; [apply world_run|]. cbn beta iota.
  by destruct (XpraServer.is_running s w).
Qed.

(** X21. The cleanup of the fixture [xpra_server] stops the server only
    while its main process is alive.  After a [start] that failed before
    the readiness wait, and after the main process has exited by itself,
    it does nothing at all: the session and the world stay as they are, so
    a helper that was started is neither signalled nor waited for and
    stays recorded, and the readers are not joined. *)
Theorem xpra_server_cleanup_needs_live_server (s : XpraServer.t) (w : World) :
  (∀ app_command extra_args use_xvfb e,
     XpraServer.process s = None →
     (XpraServer.start app_command extra_args use_xvfb (s, w)).1 = Raise e →
     e ≠ RuntimeError "WebSocket endpoint not ready after 10 seconds" →
     Conftest.xpra_server_cleanup
       (XpraServer.start app_command extra_args use_xvfb (s, w)).2
     = (Ok tt, (XpraServer.start app_command extra_args use_xvfb (s, w)).2))
  ∧ (∀ proc,
       XpraServer.process s = Some proc →
       has_exited w proc →
       Conftest.xpra_server_cleanup (s, w) = (Ok tt, (s, w)))
  ∧ (XpraServer.is_running s w = true →
     Conftest.xpra_server_cleanup (s, w)
     = XpraServer.stop XpraServer.default_timeout (s, w)).
Proof.
  split; [|split].
  - intros app extra xv e Hnone Hfail Hne.
    destruct (start_cases app extra xv s w)
      as [[Hsome _]
         |[(_ & e' & s' & w' & Hrun & _ & _ & Hmain & _)
          |(_ & s1 & w1 & w2 & _ & [Hrun|Hrun] & _)]].
    + rewrite Hnone in Hsome. by destruct Hsome.
    + rewrite Hrun. cbn [snd]. rewrite xpra_server_cleanup_run.
      unfold XpraServer.is_running. by rewrite Hmain.
    + by rewrite Hrun in Hfail.
    + rewrite Hrun in Hfail. cbn [fst] in Hfail. injection Hfail as <-.
      by destruct Hne.
  - intros proc Hproc [rc Hexit]. rewrite xpra_server_cleanup_run.
    unfold XpraServer.is_running, poll. by rewrite Hproc, Hexit.
  - intros Hrun. by rewrite xpra_server_cleanup_run, Hrun.
Qed.

Lemma xpra_server_cleanup_needs_live_server_witness :
  let w := Demo.make "Linux" [] xvfb_only Demo.never_ready in
  let sw := (XpraServer.start "xeyes" None true (Conftest.xpra_server w, w)).2 in
  Conftest.xpra_server_cleanup sw = (Ok tt, sw)
  ∧ ∃ helper, XpraServer.xvfb_process sw.1 = Some helper
              ∧ poll sw.2 helper = None.
Proof.
  intros w sw. split.
  - assert ((XpraServer.start "xeyes" None true (Conftest.xpra_server w, w)).1
            = Raise (OSError "No such file or directory")) as Hfail
      by (vm_compute; reflexivity).
    exact (proj1 (xpra_server_cleanup_needs_live_server
                    (Conftest.xpra_server w) w)
             "xeyes" None true _ eq_refl Hfail ltac:(discriminate)).
  - vm_compute. by eexists.
Defined.

(** X22. [_create_client] of the fixture [xpra_server_with_display]
    raises "Server already running" and changes nothing whenever the
    server holds a main process: while the process is alive by the
    fixture's own test of [is_running()], and once it has exited by the
    test [start] makes of the attribute.  A server whose main process has
    died is not started again before it was stopped. *)
Theorem create_client_needs_stopped_server (app_command : string)
    (headless use_xvfb : bool) (s : XpraServer.t) (m : Machine) :
  is_Some (XpraServer.process s) →
  Conftest._create_client app_command headless use_xvfb (s, m)
  = (Error (Std (RuntimeError "Server already running")), (s, m)).
Proof.
  intros Hsome. unfold Conftest._create_client.
  rewrite this_step. unfold mbind at 1, C_bind at 1. rewrite machine_run.
  destruct (XpraServer.is_running s (m_world m)); [done|].
  unfold mbind, C_bind. rewrite server_call_run, start_rejected by done.
  cbn [fst snd of_outcome]. by destruct m.
Qed.

Lemma create_client_needs_stopped_server_witness :
  Conftest._create_client "xeyes" true false
    (Demo.running, obliging Demo.darwin)
  = (Error (Std (RuntimeError "Server already running")),
     (Demo.running, obliging Demo.darwin)).
Proof.
  exact (create_client_needs_stopped_server "xeyes" true false Demo.running
           (obliging Demo.darwin) (ex_intro _ Demo.child eq_refl)).
Defined.

Lemma gui_on_server_run {A} (m : M (XpraServer.t * World) A) self mach :
  Conftest._GUIClientFixture.on_server m (self, mach)
  = (of_outcome
       (m (Conftest._GUIClientFixture.server self, m_world mach)).1,
     (Conftest._GUIClientFixture.set_server
        (m (Conftest._GUIClientFixture.server self, m_world mach)).2.1 self,
      with_world
        (m (Conftest._GUIClientFixture.server self, m_world mach)).2.2 mach)).
Proof.
  unfold Conftest._GUIClientFixture.on_server. cbn [fst snd].
  by rewrite server_call_run.
Qed.

Lemma start_and_connect_rejected app_command headless use_xvfb self m :
  is_Some (Conftest._GUIClientFixture.client self) →
  Conftest._GUIClientFixture.start_and_connect app_command headless use_xvfb
    (self, m)
  = (Error (Std (RuntimeError "Client already connected")), (self, m)).
Proof.
  intros [c Hc]. unfold Conftest._GUIClientFixture.start_and_connect.
  by rewrite this_step, Hc.
Qed.

(** X23. [start_and_connect] of the fixture [gui_client] stores the client
    before it connects it.  So once the server has started, the client
    stays in the fixture whether or not [connect] went through (the
    server is the one [start] left), and every further [start_and_connect]
    raises "Client already connected" and changes nothing, also when the
    client never got connected. *)
Theorem start_and_connect_keeps_client (app_command : string)
    (headless use_xvfb : bool) (self : Conftest._GUIClientFixture.t)
    (m : Machine) (url : string) :
  Conftest._GUIClientFixture.client self = None →
  (XpraServer.start app_command None use_xvfb
     (Conftest._GUIClientFixture.server self, m_world m)).1 = Ok url →
  let after :=
    Conftest._GUIClientFixture.start_and_connect app_command headless use_xvfb
      (self, m) in
  let connected :=
    PlaywrightClient.connect
      (PlaywrightClient.__init__ url headless,
       with_world
         (XpraServer.start app_command None use_xvfb
            (Conftest._GUIClientFixture.server self, m_world m)).2.2 m) in
  after.1 = connected.1
  ∧ Conftest._GUIClientFixture.client after.2.1 = Some connected.2.1
  ∧ Conftest._GUIClientFixture.server after.2.1
    = (XpraServer.start app_command None use_xvfb
         (Conftest._GUIClientFixture.server self, m_world m)).2.1
  ∧ ∀ app_command' headless' use_xvfb',
      Conftest._GUIClientFixture.start_and_connect app_command' headless'
        use_xvfb' after.2
      = (Error (Std (RuntimeError "Client already connected")), after.2).
Proof.
  intros Hnone Hstart after connected.
  assert (after
          = (connected.1,
             ({| Conftest._GUIClientFixture.server :=
                   (XpraServer.start app_command None use_xvfb
                      (Conftest._GUIClientFixture.server self, m_world m)).2.1;
                 Conftest._GUIClientFixture.client := Some connected.2.1 |},
              connected.2.2))) as ->.
  { unfold after, connected.
    unfold Conftest._GUIClientFixture.start_and_connect.
    rewrite this_step, Hnone.
    eapply c_bind_eval.
    { rewrite gui_on_server_run, Hstart. cbn [of_outcome]. reflexivity. }
    cbn beta iota zeta. rewrite assign_step.
    unfold client_call. cbn [fst snd].
    by destruct (PlaywrightClient.connect _) as [r [c' m']]. }
  cbn [fst snd Conftest._GUIClientFixture.client
       Conftest._GUIClientFixture.server].
  split; [done|]. split; [done|]. split; [done|].
  intros app' hl' xv'. by apply start_and_connect_rejected.
Qed.

Lemma start_and_connect_keeps_client_witness :
  let self := Conftest._GUIClientFixture.__init__
                (Conftest.xpra_server Demo.darwin) in
  let after :=
    Conftest._GUIClientFixture.start_and_connect "xeyes" true false
      (self, blank_page Demo.darwin) in
  Conftest._GUIClientFixture.start_and_connect "xcalc" true false after.2
  = (Error (Std (RuntimeError "Client already connected")), after.2).
Proof.
  intros self after.
  assert ((XpraServer.start "xeyes" None false
             (Conftest._GUIClientFixture.server self,
              m_world (blank_page Demo.darwin))).1
          = Ok "ws://127.0.0.1:14500/") as Hstart
    by (vm_compute; reflexivity).
  destruct (start_and_connect_keeps_client "xeyes" true false self
              (blank_page Demo.darwin) _ eq_refl Hstart)
    as (_ & _ & _ & Hagain).
  exact (Hagain "xcalc" true false).
Defined.

(** ** The test case after [tearDown] *)

(** X24. Once [tearDown] has returned, the test case has neither server
    nor client, whatever it held before: [get_server_logs] gives "No server
    running" instead of the captured logs, [save_screenshot] raises
    [RuntimeError("No client connected")], [assert_server_running] raises
    [AssertionError("No server instance")], and none of them calls into
    Playwright or touches the machine. *)
Theorem after_tearDown (self : XpraGUITestCase.t) (m : Machine)
    (path : string) :
  (XpraGUITestCase.tearDown (self, m)).1 = Value tt →
  XpraGUITestCase.get_server_logs (XpraGUITestCase.tearDown (self, m)).2.1
  = "No server running"
  ∧ XpraGUITestCase.save_screenshot path (XpraGUITestCase.tearDown (self, m)).2
    = (Error (Std (RuntimeError "No client connected")),
       (XpraGUITestCase.tearDown (self, m)).2)
  ∧ XpraGUITestCase.assert_server_running
      (XpraGUITestCase.tearDown (self, m)).2
    = (Error (AssertionError "No server instance"),
       (XpraGUITestCase.tearDown (self, m)).2).
Proof.
  destruct self as [srv cl]. rewrite tearDown_run.
  assert (∀ mach,
            XpraGUITestCase.get_server_logs
              {| XpraGUITestCase.server := None;
                 XpraGUITestCase.client := None |}
            = "No server running"
            ∧ XpraGUITestCase.save_screenshot path
                ({| XpraGUITestCase.server := None;
                    XpraGUITestCase.client := None |}, mach)
              = (Error (Std (RuntimeError "No client connected")),
                 ({| XpraGUITestCase.server := None;
                     XpraGUITestCase.client := None |}, mach))
            ∧ XpraGUITestCase.assert_server_running
                ({| XpraGUITestCase.server := None;
                    XpraGUITestCase.client := None |}, mach)
              = (Error (AssertionError "No server instance"),
                 ({| XpraGUITestCase.server := None;
                     XpraGUITestCase.client := None |}, mach))) as Hnone
    by done.
  destruct cl as [c|].
  - destruct (PlaywrightClient.disconnect (c, m)) as [[[]|e|] [c' m']];
      cbn [fst snd]; intros Hr; try done; apply Hnone.
  - cbn [fst snd]. intros _. apply Hnone.
Qed.

Lemma after_tearDown_witness :
  let self := {| XpraGUITestCase.server := Some Demo.running;
                 XpraGUITestCase.client :=
                   Some (PlaywrightClient.__init__ "ws://127.0.0.1:14500/"
                           true) |} in
  XpraGUITestCase.get_server_logs
    (XpraGUITestCase.tearDown (self, obliging Demo.darwin)).2.1
  = "No server running".
Proof.
  intros self.
  assert ((XpraGUITestCase.tearDown (self, obliging Demo.darwin)).1
          = Value tt) as Hdone by (vm_compute; reflexivity).
  exact (proj1 (after_tearDown self (obliging Demo.darwin) "" Hdone)).
Defined.
